(** * File Rename Validator ([rename_code.py]): model and verified properties

    A shallow embedding of the review script: the spreadsheet table and the
    flagged-row detector, the edit loop that composes a candidate name, the
    pending-change buffer and its flush, the navigation handlers, the Drive
    resolver with its two caches, the upload, and the main flow that ties
    them together.

    Conventions.
    - A Python [str] is a [string]; a character is a code point below 256
      (no character beyond that range lowers to a letter of a placeholder
      name).
    - A spreadsheet cell is modelled by its text.
    - The table ([DataFrame]) is the list of its rows in positional order.
    - A Python [dict] whose iteration order is observable (the pending-change
      buffer) is an association list in insertion order; the per-row file
      cache, which is only looked up and stored into, is a [gmap].
    - Remote services, the file system and the clock are an abstract world
      threaded through a state-and-exception monad. *)

From Stdlib Require Import ZArith Ascii String List Bool Lia.
From stdpp Require Import base option list gmap strings pretty.

Import ListNotations.
Local Open Scope string_scope.
Local Open Scope Z_scope.

(** ** Python string operations *)

Module PyStr.

Definition code (c : ascii) : N := N_of_ascii c.

Definition in_range (lo hi : N) (c : ascii) : bool :=
  (N.leb lo (code c) && N.leb (code c) hi)%bool.

(** [str.lower] on one character: [A-Z], and the Latin-1 capitals
    [U+00C0-U+00D6], [U+00D8-U+00DE], move 32 code points up. *)
Definition lower_char (c : ascii) : ascii :=
  if (in_range 65 90 c || in_range 192 214 c || in_range 216 222 c)%bool
  then ascii_of_N (code c + 32)
  else c.

(** [s.lower()] *)
Fixpoint lower (s : string) : string :=
  match s with
  | EmptyString => EmptyString
  | String c s' => String (lower_char c) (lower s')
  end.

(** The characters [str.strip()] removes: TAB, LF, VT, FF, CR,
    [U+001C-U+001F], space, [U+0085] and [U+00A0]. *)
Definition is_space (c : ascii) : bool :=
  (in_range 9 13 c || in_range 28 32 c
   || N.eqb (code c) 133 || N.eqb (code c) 160)%bool.

Fixpoint lstrip_by (p : ascii -> bool) (s : string) : string :=
  match s with
  | EmptyString => EmptyString
  | String c s' => if p c then lstrip_by p s' else s
  end.

Fixpoint rstrip_by (p : ascii -> bool) (s : string) : string :=
  match s with
  | EmptyString => EmptyString
  | String c s' =>
      match rstrip_by p s' with
      | EmptyString => if p c then EmptyString else String c EmptyString
      | r => String c r
      end
  end.

(** [s.strip()] *)
Definition strip (s : string) : string :=
  rstrip_by is_space (lstrip_by is_space s).

(** [s.strip(c)] for a one-character [c]. *)
Definition strip_char (c : ascii) (s : string) : string :=
  rstrip_by (Ascii.eqb c) (lstrip_by (Ascii.eqb c) s).

(** [s.split(sep)] for a one-character separator: never the empty list,
    one more piece than there are separators. *)
Fixpoint split (sep : ascii) (s : string) : list string :=
  match s with
  | EmptyString => [EmptyString]
  | String c s' =>
      if Ascii.eqb c sep then EmptyString :: split sep s'
      else match split sep s' with
           | [] => [String c EmptyString]
           | p :: ps => String c p :: ps
           end
  end.

(** [sep.join(parts)] *)
Fixpoint join (sep : string) (parts : list string) : string :=
  match parts with
  | [] => EmptyString
  | [p] => p
  | p :: ps => p ++ sep ++ join sep ps
  end.

(** [s.replace(old, new)] for a one-character [old]. *)
Fixpoint replace (old : ascii) (new : string) (s : string) : string :=
  match s with
  | EmptyString => EmptyString
  | String c s' =>
      if Ascii.eqb c old then new ++ replace old new s'
      else String c (replace old new s')
  end.

(** Truth value of a string: empty is false. *)
Definition truthy (s : string) : bool :=
  match s with EmptyString => false | _ => true end.

(** [c in s] for one character. *)
Fixpoint contains (c : ascii) (s : string) : bool :=
  match s with
  | EmptyString => false
  | String d s' => (Ascii.eqb d c || contains c s')%bool
  end.

End PyStr.

(** ** The table *)

(** One spreadsheet record, with the seven required columns
    [Type], [Original Name], [Proposed New Name], [Full Path],
    [Created Date], [Timestamp], [Action]. Every cell is text. An empty
    cell, which [pd.read_excel] gives as NaN (a float, equal to nothing, not
    even to itself), is not a value of this type: tables with an empty
    cell in one of these columns are outside the model, and the empty
    string here is the text of length zero, not an empty cell. *)
Record Row : Type := mkRow {
  Type_ : string;
  Original_Name : string;
  Proposed_New_Name : string;
  Full_Path : string;
  Created_Date : string;
  Timestamp_ : string;
  Action_ : string
}.

#[global] Instance Row_eq_dec : EqDecision Row.
Proof. solve_decision. Defined.

Definition set_Proposed_New_Name (v : string) (r : Row) : Row :=
  {| Type_ := Type_ r; Original_Name := Original_Name r;
     Proposed_New_Name := v; Full_Path := Full_Path r;
     Created_Date := Created_Date r; Timestamp_ := Timestamp_ r;
     Action_ := Action_ r |}.

(** [len(...)] as a Python integer. *)
Definition len {A} (l : list A) : Z := Z.of_nat (length l).

(** [df[mask]]: the rows whose mask entry is true, in table order;
    [reset_index(drop=True)] then numbers them from 0, which is the
    position in the resulting list. *)
Fixpoint boolean_index {A} (rows : list A) (mask : list bool) : list A :=
  match rows, mask with
  | r :: rows', b :: mask' =>
      if b then r :: boolean_index rows' mask' else boolean_index rows' mask'
  | _, _ => []
  end.

(** [mask.sum()] *)
Definition mask_sum (mask : list bool) : Z := len (filter (fun b => b = true) mask).

(** ** Flagged-row detector (main flow, "Find invalid rows") *)

Definition placeholders : list string :=
  ["Brand"; "Campaign"; "Channel"; "Asset"; "Format"; "Version"; "Date"].

(** [lambda s: any(ph.lower() == part.lower()
                  for ph in placeholders for part in str(s).split("_"))] *)
Definition has_placeholder (s : string) : bool :=
  existsb (fun ph =>
    existsb (fun part => String.eqb (PyStr.lower ph) (PyStr.lower part))
            (PyStr.split "_" s))
    placeholders.

(** [invalid_mask = df["Proposed New Name"].astype(str).apply(...)] *)
Definition invalid_mask (df : list Row) : list bool :=
  map (fun r => has_placeholder (Proposed_New_Name r)) df.

(** [invalid_rows = df[invalid_mask].reset_index(drop=True)] *)
Definition flagged_rows (df : list Row) : list Row :=
  boolean_index df (invalid_mask df).

(** Number of flagged rows strictly before table position [i]: the position
    a flagged row at [i] receives after [reset_index]. *)
Definition rank (mask : list bool) (i : nat) : nat :=
  length (filter (fun b => b = true) (take i mask)).

(** ** The pending-change buffer: a [dict] in insertion order *)

Module Dict.

Fixpoint get {V} (k : string) (d : list (string * V)) : option V :=
  match d with
  | [] => None
  | (k', v) :: d' => if String.eqb k' k then Some v else get k d'
  end.

(** [k in d] *)
Definition mem {V} (k : string) (d : list (string * V)) : bool :=
  match get k d with Some _ => true | None => false end.

(** [d[k] = v]: overwrite in place when the key is present, else append. *)
Fixpoint set {V} (k : string) (v : V) (d : list (string * V)) : list (string * V) :=
  match d with
  | [] => [(k, v)]
  | (k', v') :: d' =>
      if String.eqb k' k then (k, v) :: d' else (k', v') :: set k v d'
  end.

(** [del d[k]] (the caller checks [k in d]). *)
Definition del {V} (k : string) (d : list (string * V)) : list (string * V) :=
  filter (fun kv => fst kv <> k) d.

Definition keys {V} (d : list (string * V)) : list string := map fst d.

(** The keys of a [dict] are pairwise distinct. *)
Definition wf {V} (d : list (string * V)) : Prop := NoDup (keys d).

End Dict.

(** ** Edit loop: composing the candidate name *)

Definition fields : list string :=
  ["Brand"; "Campaign"; "Channel"; "Asset"; "Format"; "Version"; "Date"].

(** [current_name = pending_changes.get(row['Full Path'],
                                        str(row["Proposed New Name"]))] *)
Definition current_name (pending : list (string * string)) (row : Row) : string :=
  default (Proposed_New_Name row) (Dict.get (Full_Path row) pending).

(** [parts = current_name.split("_")] followed by
    [while len(parts) < 7: parts.append("")]. *)
Definition padded_parts (name : string) : list string :=
  let parts := PyStr.split "_" name in
  parts ++ replicate (7 - length parts)%nat EmptyString.

(** [current = parts[i] if i < len(parts) else ""] *)
Definition part_at (parts : list string) (i : nat) : string :=
  default EmptyString (parts !! i).

(** The test [current.strip().lower() == field.lower()] that opens a field
    for editing. *)
Definition needs_update (field current : string) : bool :=
  String.eqb (PyStr.lower (PyStr.strip current)) (PyStr.lower field).

(** [st.text_input(label, value=current, key=...)]: what the operator typed
    into the widget, or the initial [value] when nothing was typed. *)
Definition text_input (typed : option string) (value : string) : string :=
  default value typed.

(** The [for i, field in enumerate(fields)] loop building [edited_parts];
    [typed i] is the operator's entry in the widget of field [i]. *)
Definition edited_parts (typed : nat -> option string) (parts : list string)
  : list string :=
  imap (fun i field =>
          let current := part_at parts i in
          if needs_update field current
          then text_input (typed i) current
          else current)
       fields.

(** [new_proposed = "_".join(edited_parts)] *)
Definition new_proposed (typed : nat -> option string)
    (pending : list (string * string)) (row : Row) : string :=
  PyStr.join "_" (edited_parts typed (padded_parts (current_name pending row))).

(** ** Flush: [save_pending_changes_to_excel], the table part *)

(** The mask one buffer entry selects:
    [mask = df["Full Path"] == full_path], replaced by
    [df["Original Name"] == full_path] when [mask.sum() == 0]; [==] on
    text cells and a text key is equality of strings. *)
Definition entry_mask (df : list Row) (full_path : string) : list bool :=
  let mask := map (fun r => String.eqb (Full_Path r) full_path) df in
  if mask_sum mask =? 0
  then map (fun r => String.eqb (Original_Name r) full_path) df
  else mask.

(** [df.loc[mask, "Proposed New Name"] = new_name] *)
Definition loc_assign (df : list Row) (mask : list bool) (new_name : string)
  : list Row :=
  zip_with (fun r (b : bool) => if b then set_Proposed_New_Name new_name r else r)
           df mask.

(** [for full_path, new_name in pending_changes.items(): ...] on the table,
    together with the rows written so far (one flag per table position). *)
Definition apply_entry (acc : list Row * list bool) (entry : string * string)
  : list Row * list bool :=
  let '(df, written) := acc in
  let mask := entry_mask df (fst entry) in
  (loc_assign df mask (snd entry), zip_with orb written mask).

Definition apply_pending_changes (df : list Row) (pending : list (string * string))
  : list Row * list bool :=
  fold_left apply_entry pending (df, replicate (length df) false).

(** The table after the loop. *)
Definition flushed_table (df : list Row) (pending : list (string * string))
  : list Row :=
  fst (apply_pending_changes df pending).



(** ** Navigation handlers *)

(** [if st.button("Previous") and index > 0: index -= 1] *)
Definition previous_index (index : Z) : Z :=
  if 0 <? index then index - 1 else index.

(** [if st.button("Next") and index < len(invalid_rows) - 1: index += 1] *)
Definition next_index (n : Z) (index : Z) : Z :=
  if index <? n - 1 then index + 1 else index.

(** ** Remote services, exceptions and the script monad *)

(** A Python exception: [type(e).__name__] and [str(e)]. *)
Record Exc : Type := mkExc { exc_type : string; exc_msg : string }.

(** [st.stop()] and [st.rerun()] end the script run; they are script
    control, not an [Exception], so no [except Exception] catches them. *)
Inductive Control : Type := CStop | CRerun.

Inductive Outcome (A : Type) : Type :=
| Ok (a : A)
| Raise (e : Exc)
| Halt (c : Control).
Arguments Ok {A} a.
Arguments Raise {A} e.
Arguments Halt {A} c.

(** The Drive service object built from the credentials. *)
Inductive Service : Type := ServiceFor (account : list (string * string)).

(** One entry of a [files().list] response
    ([fields="files(id, name, mimeType, webViewLink)"]). *)
Record FileItem : Type := mkFileItem {
  fi_id : string;
  fi_name : string;
  fi_mimeType : option string;
  fi_webViewLink : option string
}.

(** The response of [files().get(fields="mimeType, name, webViewLink")]. *)
Record FileMetadata : Type := mkFileMetadata {
  fm_mimeType : option string;
  fm_name : option string;
  fm_webViewLink : option string
}.

(** The 5-tuple [(file_meta, tmp_path, mime, actual_name, web_view_link)]
    that [get_file_from_drive] returns. *)
Record Resolution : Type := mkResolution {
  file_meta : option FileItem;
  tmp_path : option string;
  mime : option string;
  actual_name : option string;
  web_view_link : option string
}.

Inductive UiKind : Type := UiError | UiWarning | UiSuccess | UiInfo.

(** What a script run does to the outside: remote calls and messages shown. *)
Inductive Event : Type :=
| EvBuildService
| EvDriveList (q fields : string) (pageSize : Z)
| EvDriveGet (file_id : string)
| EvDriveChunk (file_id : string)
| EvTempFile (suffix : string)
| EvToExcel (filename : string)
| EvOpenRead (path : string)
| EvSupabaseClient
| EvStorageRemove (bucket name : string)
| EvStorageUpload (bucket name : string)
| EvSaveState
| EvUi (kind : UiKind) (msg : string).

(** Whether an event is a call to the remote object bucket. *)
Definition is_storage_call (ev : Event) : bool :=
  match ev with
  | EvSupabaseClient | EvStorageRemove _ _ | EvStorageUpload _ _ => true
  | _ => false
  end.

(** Whether an event is a call to the Drive API. *)
Definition is_drive_call (ev : Event) : bool :=
  match ev with
  | EvDriveList _ _ _ | EvDriveGet _ | EvDriveChunk _ => true
  | _ => false
  end.

(** The collaborators of the script: the Drive client, the bucket client,
    the spreadsheet writer, the file system and the clock. Each call may
    change the world and may raise. *)
Class Services (World : Type) : Type := {
  (** [service_account.Credentials...] followed by [build("drive", "v3", ...)] *)
  google_build : list (string * string) -> World -> (Exc + Service) * World;
  (** [files().list(q=, fields=, pageSize=).execute().get("files", [])] *)
  files_list : Service -> string -> string -> Z -> World
               -> (Exc + list FileItem) * World;
  (** [files().get(fileId=, fields=).execute()] *)
  files_get : Service -> string -> World -> (Exc + FileMetadata) * World;
  (** How many [next_chunk()] calls the content of a file takes before the
      downloader reports [done] (one at least). *)
  media_chunks : Service -> string -> World -> nat;
  (** One [downloader.next_chunk()] *)
  next_chunk : Service -> string -> World -> (Exc + unit) * World;
  (** [tempfile.NamedTemporaryFile(delete=False, suffix=)], giving [tmp.name] *)
  named_temporary_file : string -> World -> (Exc + string) * World;
  (** [os.path.splitext(p)[1]], [os.path.basename(p)], [os.path.exists(p)] *)
  splitext_ext : string -> string;
  basename : string -> string;
  path_exists : string -> World -> bool;
  (** [open(p, "rb").read()] *)
  open_read : string -> World -> (Exc + string) * World;
  (** [time.time()], in seconds *)
  clock : World -> Z;
  (** [df.to_excel(filename, index=False)] *)
  to_excel : list Row -> string -> World -> (Exc + unit) * World;
  (** [get_supabase_client()], [storage.from_(b).remove([n])],
      [storage.from_(b).upload(path=n, file=content, ...)] *)
  supabase_client : World -> (Exc + unit) * World;
  storage_remove : string -> string -> World -> (Exc + unit) * World;
  storage_upload : string -> string -> string -> World -> (Exc + unit) * World;
  (** [save_state_to_supabase()]: its whole body sits in [try/except] and
      answers [True] or [False]. *)
  supabase_save_state : list (string * string) -> Z -> World -> bool * World
}.

(** [st.session_state] *)
Record Session : Type := mkSession {
  pending_changes : list (string * string);
  index : Z;
  drive_service : option Service;
  file_cache : gmap string Resolution;
  df : option (list Row);
  invalid_rows : option (list Row);
  last_saved_file : option string
}.

(** The session as the initialisation block creates it. *)
Definition initial_session : Session :=
  {| pending_changes := []; index := 0; drive_service := None;
     file_cache := ∅; df := None; invalid_rows := None;
     last_saved_file := None |}.

Definition with_pending_changes (v : list (string * string)) (s : Session) :=
  {| pending_changes := v; index := index s; drive_service := drive_service s;
     file_cache := file_cache s; df := df s; invalid_rows := invalid_rows s;
     last_saved_file := last_saved_file s |}.

Definition with_index (v : Z) (s : Session) :=
  {| pending_changes := pending_changes s; index := v;
     drive_service := drive_service s; file_cache := file_cache s; df := df s;
     invalid_rows := invalid_rows s; last_saved_file := last_saved_file s |}.

Definition with_drive_service (v : option Service) (s : Session) :=
  {| pending_changes := pending_changes s; index := index s;
     drive_service := v; file_cache := file_cache s; df := df s;
     invalid_rows := invalid_rows s; last_saved_file := last_saved_file s |}.

Definition with_file_cache (v : gmap string Resolution) (s : Session) :=
  {| pending_changes := pending_changes s; index := index s;
     drive_service := drive_service s; file_cache := v; df := df s;
     invalid_rows := invalid_rows s; last_saved_file := last_saved_file s |}.

Definition with_df (v : option (list Row)) (s : Session) :=
  {| pending_changes := pending_changes s; index := index s;
     drive_service := drive_service s; file_cache := file_cache s; df := v;
     invalid_rows := invalid_rows s; last_saved_file := last_saved_file s |}.

Definition with_invalid_rows (v : option (list Row)) (s : Session) :=
  {| pending_changes := pending_changes s; index := index s;
     drive_service := drive_service s; file_cache := file_cache s; df := df s;
     invalid_rows := v; last_saved_file := last_saved_file s |}.

Definition with_last_saved_file (v : option string) (s : Session) :=
  {| pending_changes := pending_changes s; index := index s;
     drive_service := drive_service s; file_cache := file_cache s; df := df s;
     invalid_rows := invalid_rows s; last_saved_file := v |}.

(** Everything a script run can read and change: the world, the log of what
    was done to it, the two [st.cache_data] stores (process-wide, keyed by
    the hashed arguments, each entry with its creation time) and the
    session. *)
Record Runtime (World : Type) : Type := mkRuntime {
  world : World;
  trace : list Event;
  folder_memo : gmap (string * option string) (option string * Z);
  file_memo : gmap (string * string) (option FileItem * Z);
  session : Session
}.
Arguments mkRuntime {World}.
Arguments world {World}.
Arguments trace {World}.
Arguments folder_memo {World}.
Arguments file_memo {World}.
Arguments session {World}.

Definition with_world {W : Type} (v : W) (rt : Runtime W) : Runtime W :=
  mkRuntime v (trace rt) (folder_memo rt) (file_memo rt) (session rt).

Definition with_trace {W : Type} (v : list Event) (rt : Runtime W) : Runtime W :=
  mkRuntime (world rt) v (folder_memo rt) (file_memo rt) (session rt).

Definition with_folder_memo {W : Type} (v : gmap (string * option string) (option string * Z))
    (rt : Runtime W) : Runtime W :=
  mkRuntime (world rt) (trace rt) v (file_memo rt) (session rt).

Definition with_file_memo {W : Type} (v : gmap (string * string) (option FileItem * Z))
    (rt : Runtime W) : Runtime W :=
  mkRuntime (world rt) (trace rt) (folder_memo rt) v (session rt).

Definition with_session {W : Type} (v : Session) (rt : Runtime W) : Runtime W :=
  mkRuntime (world rt) (trace rt) (folder_memo rt) (file_memo rt) v.

(** A script fragment: state passing with exceptions and script control. *)
Definition M (W A : Type) : Type := Runtime W -> Outcome A * Runtime W.

Definition ret {W A : Type} (a : A) : M W A := fun rt => (Ok a, rt).

Definition bind {W A B : Type} (m : M W A) (k : A -> M W B) : M W B :=
  fun rt =>
    match m rt with
    | (Ok a, rt') => k a rt'
    | (Raise e, rt') => (Raise e, rt')
    | (Halt c, rt') => (Halt c, rt')
    end.

Definition raise {W A : Type} (e : Exc) : M W A := fun rt => (Raise e, rt).

(** [try: m  except Exception as e: handler e] *)
Definition try_except {W A : Type} (m : M W A) (handler : Exc -> M W A) : M W A :=
  fun rt =>
    match m rt with
    | (Raise e, rt') => handler e rt'
    | other => other
    end.

Declare Scope script_scope.
Delimit Scope script_scope with script.
Notation "'let*' x ':=' m 'in' k" := (bind m (fun x => k))
  (at level 10, x pattern, m at level 100, k at level 200) : script_scope.
Notation "m '>>' k" := (bind m (fun _ => k))
  (at level 90, right associativity) : script_scope.
Local Open Scope script_scope.

Definition gets {W A : Type} (f : Session -> A) : M W A :=
  fun rt => (Ok (f (session rt)), rt).

Definition modify {W : Type} (f : Session -> Session) : M W unit :=
  fun rt => (Ok tt, with_session (f (session rt)) rt).

(** A call to a collaborator: logged, the world moves on, the answer is a
    value or an exception. *)
Definition call {W A : Type} (ev : Event) (f : W -> (Exc + A) * W) : M W A :=
  fun rt =>
    let '(r, w') := f (world rt) in
    let rt' := with_trace (trace rt ++ [ev]) (with_world w' rt) in
    match r with
    | inl e => (Raise e, rt')
    | inr a => (Ok a, rt')
    end.

(** [st.error], [st.warning], [st.success], [st.info] *)
Definition st_message {W : Type} (kind : UiKind) (msg : string) : M W unit :=
  fun rt => (Ok tt, with_trace (trace rt ++ [EvUi kind msg]) rt).

Definition st_stop {W A : Type} : M W A := fun rt => (Halt CStop, rt).
Definition st_rerun {W A : Type} : M W A := fun rt => (Halt CRerun, rt).

(** Truth value of an optional string: [None] and the empty string are
    false. *)
Definition truthy_opt (o : option string) : bool :=
  match o with Some s => PyStr.truthy s | None => false end.

(** [@st.cache_data(ttl=...)] around [body]: the entry stored under the
    hashed arguments [k] answers while it is younger than [ttl] seconds;
    otherwise the body runs and its value is stored with the current time.
    A body that raises stores nothing. *)
Definition cache_data {W : Type} `{Services W} {K V : Type} `{Countable K} (ttl : Z)
    (memo : Runtime W -> gmap K (V * Z))
    (set_memo : gmap K (V * Z) -> Runtime W -> Runtime W)
    (k : K) (body : M W V) : M W V :=
  fun rt =>
    let run_body :=
      match body rt with
      | (Ok v, rt') =>
          (Ok v, set_memo (<[k := (v, clock (world rt'))]> (memo rt')) rt')
      | other => other
      end in
    match memo rt !! k with
    | Some (v, t) => if clock (world rt) - t <? ttl then (Ok v, rt) else run_body
    | None => run_body
    end.

(** ** The Drive helpers and the resolver *)

Section Drive.
Context {W : Type} `{Services W}.

(** Using a Drive service that is [None]. *)
Definition attribute_error : Exc :=
  mkExc "AttributeError" "'NoneType' object has no attribute 'files'".

Definition drive_files_list (svc : option Service) (q fields : string)
    (pageSize : Z) : M W (list FileItem) :=
  match svc with
  | Some s => call (EvDriveList q fields pageSize) (files_list s q fields pageSize)
  | None => raise attribute_error
  end.

Definition drive_files_get (svc : option Service) (file_id : string)
  : M W FileMetadata :=
  match svc with
  | Some s => call (EvDriveGet file_id) (files_get s file_id)
  | None => raise attribute_error
  end.

(** [name.replace("'", "\\'")] *)
Definition escape_quotes (name : string) : string :=
  PyStr.replace "'" "\'" name.

(** The query [find_folder_id] builds: [" and ".join(q_parts)], with the
    clause ['{parent_id}' in parents] only when [parent_id] is truthy. *)
Definition folder_query (folder_name : string) (parent_id : option string)
  : string :=
  let q_parts :=
    app ["name = '" ++ escape_quotes folder_name ++ "'";
         "mimeType = 'application/vnd.google-apps.folder'";
         "trashed = false"]
        (if truthy_opt parent_id
         then ["'" ++ default EmptyString parent_id ++ "' in parents"]
         else []) in
  PyStr.join " and " q_parts.

(** The body of [find_folder_id]. *)
Definition find_folder_id_body (svc : option Service) (folder_name : string)
    (parent_id : option string) : M W (option string) :=
  try_except
    (let q := folder_query folder_name parent_id in
     let* items := drive_files_list svc q "files(id, name)" 5 in
     match items with
     | item :: _ => ret (Some (fi_id item))
     | [] => ret None
     end)
    (fun _ => ret None).

(** [@st.cache_data(ttl=3600) def find_folder_id(_drive_service,
    folder_name, parent_id=None)]: the underscore keeps the service out of
    the hashed arguments. *)
Definition find_folder_id (svc : option Service) (folder_name : string)
    (parent_id : option string) : M W (option string) :=
  cache_data 3600 folder_memo with_folder_memo (folder_name, parent_id)
             (find_folder_id_body svc folder_name parent_id).

(** The query of [get_file_in_folder]. *)
Definition file_in_folder_query (parent_folder_id filename : string) : string :=
  "name = '" ++ escape_quotes filename ++ "' and '"
  ++ parent_folder_id ++ "' in parents and trashed = false".

Definition get_file_in_folder_body (svc : option Service)
    (parent_folder_id filename : string) : M W (option FileItem) :=
  try_except
    (let q := file_in_folder_query parent_folder_id filename in
     let* items :=
       drive_files_list svc q "files(id, name, mimeType, webViewLink)" 10 in
     match items with
     | item :: _ => ret (Some item)
     | [] => ret None
     end)
    (fun _ => ret None).

(** [@st.cache_data(ttl=3600) def get_file_in_folder(_drive_service,
    parent_folder_id, filename)] *)
Definition get_file_in_folder (svc : option Service)
    (parent_folder_id filename : string) : M W (option FileItem) :=
  cache_data 3600 file_memo with_file_memo (parent_folder_id, filename)
             (get_file_in_folder_body svc parent_folder_id filename).

(** [while not done: status, done = downloader.next_chunk()]: one call,
    then one more for each chunk still to come. The content of a file is
    taken to have finitely many chunks, so the loop ends. *)
Fixpoint next_chunks (s : Service) (file_id : string) (more : nat) : M W unit :=
  let* _ := call (EvDriveChunk file_id) (next_chunk s file_id) in
  match more with
  | O => ret tt
  | S more' => next_chunks s file_id more'
  end.

Definition download_loop (svc : option Service) (file_id : string) : M W unit :=
  match svc with
  | Some s =>
      fun rt =>
        next_chunks s file_id (Nat.pred (media_chunks s file_id (world rt))) rt
  | None => raise attribute_error
  end.

(** What [download_file_to_temp] returns:
    [(tmp.name, mime, meta.get("name"), web_view_link)]. *)
Definition Download : Type :=
  (option string * option string * option string * option string)%type.

Definition no_download : Download := (None, None, None, None).

(** The [try] block of [download_file_to_temp]. *)
Definition download_attempt (svc : option Service)
    (file_id file_name_hint : string) : M W Download :=
  let* meta := drive_files_get svc file_id in
  let mime := fm_mimeType meta in
  let web_view_link := fm_webViewLink meta in
  let suffix := splitext_ext (default file_name_hint (fm_name meta)) in
  let* tmp := call (EvTempFile suffix) (named_temporary_file suffix) in
  download_loop svc file_id >>
  ret (Some tmp, mime, fm_name meta, web_view_link).

Definition download_file_to_temp (svc : option Service)
    (file_id file_name_hint : string) : M W Download :=
  try_except (download_attempt svc file_id file_name_hint)
             (fun _ => ret no_download).

Definition base_segments : list string :=
  ["Cog Culture Repository"; "Clients"; "Aarize Group"].

(** [[seg for seg in
      raw_path.replace("\\", "/").strip("/").split("/") if seg]] *)
Definition path_segments (raw_path : string) : list string :=
  filter (fun seg => PyStr.truthy seg = true)
         (PyStr.split "/" (PyStr.strip_char "/" (PyStr.replace "\" "/" raw_path))).

(** The loop looking for the base hierarchy inside the path: the first [i]
    with [lower_extra[i:i+len(base_low)] == base_low] gives
    [start_idx = i + len(base_low)]. *)
Fixpoint find_start_idx (base_low lower_extra : list string) (i : nat)
  : option nat :=
  match lower_extra with
  | [] => None
  | _ :: rest =>
      if bool_decide (take (length base_low) lower_extra = base_low)
      then Some (i + length base_low)%nat
      else find_start_idx base_low rest (S i)
  end.

(** [extra_segments[start_idx:] if start_idx is not None else extra_segments] *)
Definition file_path_segments_of (raw_path : string) : list string :=
  let extra_segments := path_segments raw_path in
  let lower_extra := map PyStr.lower extra_segments in
  let base_low := map PyStr.lower base_segments in
  match find_start_idx base_low lower_extra 0 with
  | Some start_idx => drop start_idx extra_segments
  | None => extra_segments
  end.

(** The first traversal loop ([for seg in base_segments]), from the given
    segment list and parent on. *)
Fixpoint descend_base (svc : option Service) (segs : list string)
    (parent_id : option string) : M W (option string) :=
  match segs with
  | [] => ret parent_id
  | seg :: rest =>
      let* found := find_folder_id svc seg parent_id in
      let* parent_id' :=
        (if negb (truthy_opt found)
         then find_folder_id svc seg None
         else ret found) in
      if negb (truthy_opt parent_id')
      then ret parent_id'
      else descend_base svc rest parent_id'
  end.

(** The base descent as the specification words it, for comparison: every
    lookup scoped to the current parent, one level at a time, stopping at
    the first segment that is not found. *)
Fixpoint descend_base_scoped_only (svc : option Service) (segs : list string)
    (parent_id : option string) : M W (option string) :=
  match segs with
  | [] => ret parent_id
  | seg :: rest =>
      let* found := find_folder_id svc seg parent_id in
      if truthy_opt found
      then descend_base_scoped_only svc rest found
      else ret found
  end.

(** The second traversal loop ([for seg in file_path_segments[:-1]]). *)
Fixpoint descend_path (svc : option Service) (segs : list string)
    (parent_id : option string) : M W (option string) :=
  match segs with
  | [] => ret parent_id
  | seg :: rest =>
      let* folder_id := find_folder_id svc seg parent_id in
      if truthy_opt folder_id
      then descend_path svc rest folder_id
      else ret parent_id
  end.

(** All five values [None]. *)
Definition negative : Resolution := mkResolution None None None None None.

(** [file_meta] set to the item found, the other four values as the
    download returned them. *)
Definition resolved (item : FileItem) (d : Download) : Resolution :=
  let '(tmp, mime_, name, link) := d in
  mkResolution (Some item) tmp mime_ name link.

(** The query of the two fallbacks. *)
Definition file_query (name : string) : string :=
  "name = '" ++ escape_quotes name ++ "' and trashed = false".

(** The two fallbacks ([if not file_meta: try: ... except Exception: pass]):
    a store-wide search by [name]; the first hit becomes [file_meta] and is
    downloaded. An exception leaves the values as they stand. *)
Definition search_anywhere (svc : option Service) (name : string)
    (res : Resolution) : M W Resolution :=
  match file_meta res with
  | Some _ => ret res
  | None =>
      let* hit :=
        try_except
          (let q := file_query name in
           let* items :=
             drive_files_list svc q "files(id, name, mimeType, webViewLink)" 5 in
           ret (head items))
          (fun _ => ret None) in
      match hit with
      | Some item =>
          try_except
            (let* d := download_file_to_temp svc (fi_id item) name in
             ret (resolved item d))
            (fun _ => ret (resolved item no_download))
      | None => ret res
      end
  end.

(** [cache_key = f"{row['Full Path']}_{row['Original Name']}"] *)
Definition cache_key (row : Row) : string :=
  Full_Path row ++ "_" ++ Original_Name row.

(** [get_file_from_drive] between the cache check and the cache store:
    the two descents, the lookup in the folder reached and the two
    fallbacks. *)
Definition locate_file (svc : option Service) (row : Row) : M W Resolution :=
  let file_path_segments := file_path_segments_of (Full_Path row) in
  let* parent_id := descend_base svc base_segments None in
  let* parent_id :=
    (if negb (truthy_opt parent_id)
     then find_folder_id svc (default EmptyString (head base_segments)) None
     else ret parent_id) in
  let* parent_id :=
    (if truthy_opt parent_id
     then descend_path svc (removelast file_path_segments) parent_id
     else ret parent_id) in
  let filename_guess := default (Original_Name row) (last file_path_segments) in
  let* res :=
    (if truthy_opt parent_id
     then
       let* file_meta :=
         get_file_in_folder svc (default EmptyString parent_id) filename_guess in
       match file_meta with
       | Some item =>
           let* d := download_file_to_temp svc (fi_id item) filename_guess in
           ret (resolved item d)
       | None => ret negative
       end
     else ret negative) in
  let* res := search_anywhere svc filename_guess res in
  search_anywhere svc (Original_Name row) res.

(** [result = (...)], [file_cache[cache_key] = result], [return result] *)
Definition resolve_uncached (svc : option Service) (row : Row) : M W Resolution :=
  let* result := locate_file svc row in
  modify (fun s => with_file_cache (<[cache_key row := result]> (file_cache s)) s) >>
  ret result.

(** [get_file_from_drive(drive_service, row, file_cache)], where
    [file_cache] is the session's dictionary, updated in place. *)
Definition get_file_from_drive (svc : option Service) (row : Row)
  : M W Resolution :=
  let* fc := gets file_cache in
  match fc !! cache_key row with
  | Some cached => ret cached
  | None => resolve_uncached svc row
  end.

(** The preview column shows the file when [file_meta and tmp_path]; else
    it warns "File not found in Drive". *)
Definition preview_available (res : Resolution) : bool :=
  match file_meta res with
  | Some _ => truthy_opt (tmp_path res)
  | None => false
  end.

(** A result is either all [None] or carries the metadata of a file. *)
Definition negative_or_found (r : Resolution) : Prop :=
  r = negative \/ is_Some (file_meta r).

End Drive.

(** ** The main flow and its handlers *)

Inductive Button : Type :=
| BtnPrevious | BtnNext | BtnSaveChange | BtnReset
| BtnSaveBatch | BtnSaveAll | BtnUpload | BtnClearAll.

#[global] Instance Button_eq_dec : EqDecision Button.
Proof. solve_decision. Defined.

(** The uploaded spreadsheet as [pd.read_excel] reads it: its column names
    and its rows. *)
Record Upload : Type := mkUpload {
  xl_columns : list string;
  xl_rows : list Row
}.

(** What one script run receives from the page: the secrets entry, the
    uploaded file, the button that was clicked (one at most per run) and
    what was typed into the field widgets. *)
Record Inputs : Type := mkInputs {
  credentials_file : list (string * string);
  excel_file : option Upload;
  clicked : option Button;
  typed : nat -> option string
}.

(** [st.button(label)] *)
Definition button (inp : Inputs) (b : Button) : bool :=
  bool_decide (clicked inp = Some b).

(** The names bound in the module's namespace when the main logic starts:
    the imports, then the assignments and [def]s in program order. (The
    builtins are looked up after these; [build_drive_service] is not one of
    them.) *)
Definition module_globals : list string :=
  ["st"; "pd"; "tempfile"; "service_account"; "build"; "MediaIoBaseDownload";
   "json"; "io"; "os"; "datetime"; "time"; "hashlib"; "create_client";
   "Client"; "SUPABASE_URL"; "SUPABASE_KEY"; "get_supabase_client";
   "get_user_id"; "save_state_to_supabase"; "load_state_from_supabase";
   "auto_refresh_script"; "current_time"; "credentials_file"; "excel_file";
   "build_drive_service_from_secrets"; "find_folder_id"; "get_file_in_folder";
   "download_file_to_temp"; "get_file_from_drive";
   "save_pending_changes_to_excel"; "upload_to_supabase"].

Definition name_error (name : string) : Exc :=
  mkExc "NameError" ("name '" ++ name ++ "' is not defined").

Definition type_error (msg : string) : Exc := mkExc "TypeError" msg.

Definition index_error : Exc :=
  mkExc "IndexError" "single positional indexer is out-of-bounds".

(** What [st.progress] raises for a float outside [0.0, 1.0]; the message
    ends with the value, which is left out. *)
Definition progress_error : Exc :=
  mkExc "StreamlitAPIException" "Progress Value has invalid value [0.0, 1.0]".

Definition required_cols : list string :=
  ["Type"; "Original Name"; "Proposed New Name"; "Full Path";
   "Created Date"; "Timestamp"; "Action"].

(** [str] of a list of strings. *)
Definition repr_list (l : list string) : string :=
  "[" ++ PyStr.join ", " (map (fun c => "'" ++ c ++ "'") l) ++ "]".

Definition default_excel_filename : string := "Updated_Clients_Rename_Log.xlsx".

Section Main.
Context {W : Type} `{Services W}.

Definition save_state_to_supabase : M W bool :=
  fun rt =>
    let '(b, w') := supabase_save_state (pending_changes (session rt))
                                        (index (session rt)) (world rt) in
    (Ok b, with_trace (trace rt ++ [EvSaveState]) (with_world w' rt)).

(** [build_drive_service_from_secrets(_gcp_credentials)] *)
Definition build_drive_service_from_secrets (creds : list (string * string))
  : M W Service :=
  call EvBuildService (google_build creds).

(** Evaluating the call [name(credentials_file)] at module level: the name
    is looked up in the module's namespace first. *)
Definition call_global (name : string) (creds : list (string * string))
  : M W Service :=
  if bool_decide (name ∈ module_globals)
  then if String.eqb name "build_drive_service_from_secrets"
       then build_drive_service_from_secrets creds
       else raise (type_error ("cannot call " ++ name ++ " like this"))
  else raise (name_error name).

(** "Build drive service once" *)
Definition build_drive_service_step (creds : list (string * string)) : M W unit :=
  let* ds := gets drive_service in
  match ds with
  | None =>
      try_except
        (let* svc := call_global "build_drive_service" creds in
         modify (with_drive_service (Some svc)))
        (fun e => st_message UiError ("Auth error: " ++ exc_msg e) >> st_stop)
  | Some _ => ret tt
  end.

(** "Load Excel once" *)
Definition load_excel_step (xl : Upload) : M W unit :=
  let* d := gets df in
  match d with
  | None =>
      let missing := filter (fun c => c ∉ xl_columns xl) required_cols in
      match missing with
      | _ :: _ =>
          st_message UiError ("Missing columns: " ++ repr_list missing) >> st_stop
      | [] =>
          modify (fun s => with_invalid_rows (Some (flagged_rows (xl_rows xl)))
                             (with_df (Some (xl_rows xl)) s))
      end
  | Some _ => ret tt
  end.

(** [st.progress(num / den)]. The quotient is a float, which the progress
    bar accepts only from [0.0] to [1.0]; for the row counts of a table it
    lies there exactly when [0 <= num <= den]. *)
Definition st_progress (num den : Z) : M W unit :=
  if den =? 0
  then raise (mkExc "ZeroDivisionError" "division by zero")
  else if (0 <=? num) && (num <=? den)
       then ret tt
       else raise progress_error.

(** [invalid_rows.iloc[i]] *)
Definition iloc (rows : list Row) (i : Z) : M W Row :=
  let pos := if i <? 0 then i + len rows else i in
  if (0 <=? pos) && (pos <? len rows)
  then match rows !! Z.to_nat pos with
       | Some r => ret r
       | None => raise index_error
       end
  else raise index_error.

(** The "Previous" button. *)
Definition on_previous : M W unit :=
  let* i := gets index in
  if 0 <? i
  then modify (with_index (i - 1)) >> save_state_to_supabase >> st_rerun
  else ret tt.

(** The "Next" button; [n] is [len(invalid_rows)]. *)
Definition on_next (n : Z) : M W unit :=
  let* i := gets index in
  if i <? n - 1
  then modify (with_index (i + 1)) >> save_state_to_supabase >> st_rerun
  else ret tt.

(** The "Save Change" button. *)
Definition on_save_change (row : Row) (candidate : string) : M W unit :=
  modify (fun s => with_pending_changes
                     (Dict.set (Full_Path row) candidate (pending_changes s)) s) >>
  save_state_to_supabase >>
  st_message UiSuccess "Change saved to batch!" >>
  st_rerun.

(** The "Reset" button. *)
Definition on_reset (row : Row) : M W unit :=
  modify (fun s => if Dict.mem (Full_Path row) (pending_changes s)
                   then with_pending_changes
                          (Dict.del (Full_Path row) (pending_changes s)) s
                   else s) >>
  save_state_to_supabase >>
  st_rerun.

(** [save_pending_changes_to_excel(df, pending_changes)]; [df] is the
    session's table, assigned to in place. *)
Definition save_pending_changes_to_excel (d : list Row)
    (pending : list (string * string)) (excel_filename : string) : M W string :=
  let d' := flushed_table d pending in
  modify (with_df (Some d')) >>
  call (EvToExcel excel_filename) (to_excel d' excel_filename) >>
  modify (with_last_saved_file (Some excel_filename)) >>
  save_state_to_supabase >>
  st_message UiSuccess ("Changes saved to the existing file: " ++ excel_filename) >>
  ret excel_filename.

(** What "Save Batch to Excel Now" and "Save All to Excel" share: flush,
    clear the buffer, persist, offer the file for download. The two differ
    in the wording of the success message. *)
Definition flush_and_offer (all : string) (d : list Row) : M W unit :=
  let* pending := gets pending_changes in
  let* out_fname := save_pending_changes_to_excel d pending default_excel_filename in
  let* num_changes := gets (fun s => len (pending_changes s)) in
  modify (with_pending_changes []) >>
  save_state_to_supabase >>
  st_message UiSuccess
    (all ++ pretty num_changes ++ " changes saved to " ++ out_fname) >>
  call (EvOpenRead out_fname) (open_read out_fname) >>
  ret tt.

Definition on_save_batch (d : list Row) : M W unit :=
  flush_and_offer EmptyString d >> st_rerun.

Definition on_save_all (d : list Row) : M W unit :=
  flush_and_offer "All " d.

(** [upload_to_supabase(file_path, bucket_name="renamed_excel")] *)
Definition upload_to_supabase (file_path bucket_name : string) : M W bool :=
  try_except
    (call EvSupabaseClient supabase_client >>
     let file_name := basename file_path in
     try_except
       (call (EvStorageRemove bucket_name file_name)
             (storage_remove bucket_name file_name) >>
        st_message UiInfo ("Removed existing file: " ++ file_name))
       (fun _ => ret tt) >>
     let* file_content := call (EvOpenRead file_path) (open_read file_path) in
     call (EvStorageUpload bucket_name file_name)
          (storage_upload bucket_name file_name file_content) >>
     st_message UiSuccess ("File successfully uploaded to Supabase: " ++ file_name) >>
     ret true)
    (fun e =>
       st_message UiError ("Upload to Supabase failed: " ++ exc_msg e) >>
       st_message UiError ("Details: " ++ exc_type e) >>
       ret false).

(** The "Upload Last Saved Excel to Supabase" button. *)
Definition on_upload : M W unit :=
  let* last_saved := gets last_saved_file in
  fun rt =>
    if truthy_opt last_saved
       && path_exists (default EmptyString last_saved) (world rt)
    then (upload_to_supabase (default EmptyString last_saved) "renamed_excel"
          >> ret tt) rt
    else st_message UiWarning
           "Please save an Excel file first before uploading." rt.

(** The "Clear All Pending" button. *)
Definition on_clear_all : M W unit :=
  modify (with_pending_changes []) >> save_state_to_supabase >> st_rerun.

Definition when (b : bool) (m : M W unit) : M W unit :=
  if b then m else ret tt.

(** The body of [if credentials_file and excel_file:], in program order.
    Of the widgets that only display (metrics, headings, disabled inputs,
    the link button, the preview, the table of pending changes), the
    progress bar is kept, since it refuses some values. Messages are given
    without their leading pictograph. *)
Definition main_logic (inp : Inputs) (xl : Upload) : M W unit :=
  build_drive_service_step (credentials_file inp) >>
  let* drive_service := gets drive_service in
  load_excel_step xl >>
  let* d := gets df in
  let* ir := gets invalid_rows in
  match d, ir with
  | Some d, Some invalid_rows =>
      when (len invalid_rows =? 0)
           (st_message UiSuccess "All proposed names look good!" >> st_stop) >>
      when (button inp BtnPrevious) on_previous >>
      when (button inp BtnNext) (on_next (len invalid_rows)) >>
      let* i := gets index in
      st_progress (i + 1) (len invalid_rows) >>
      let* row := iloc invalid_rows i in
      let* res := get_file_from_drive drive_service row in
      let* pending := gets pending_changes in
      match Dict.get (Full_Path row) pending with
      | Some name => st_message UiInfo ("**Pending:** " ++ name)
      | None => ret tt
      end >>
      when (negb (truthy_opt (web_view_link res)))
           (st_message UiWarning "Drive link not available") >>
      let* pending := gets pending_changes in
      let candidate := new_proposed (typed inp) pending row in
      when (button inp BtnSaveChange) (on_save_change row candidate) >>
      when (button inp BtnReset) (on_reset row) >>
      let* pending := gets pending_changes in
      when (10 <=? len pending)
           (st_message UiWarning
              (pretty (len pending) ++ " changes pending - save recommended!") >>
            when (button inp BtnSaveBatch) (on_save_batch d)) >>
      when (negb (preview_available res))
           (st_message UiWarning "File not found in Drive") >>
      let* pending := gets pending_changes in
      match pending with
      | _ :: _ =>
          when (button inp BtnSaveAll) (on_save_all d) >>
          when (button inp BtnUpload) on_upload >>
          when (button inp BtnClearAll) on_clear_all
      | [] =>
          st_message UiInfo
            "No pending changes. Make edits and click 'Save Change' to queue them."
      end
  | _, _ => raise (type_error "object of type 'NoneType' has no len()")
  end.

(** One run of the main part of the script. *)
Definition main_flow (inp : Inputs) : M W unit :=
  match credentials_file inp, excel_file inp with
  | _ :: _, Some xl => main_logic inp xl
  | _, _ =>
      st_message UiInfo "Upload both Service Account JSON and Excel file to begin"
  end.

(** A series of clicks on the two navigation buttons, one per script run,
    with [n] flagged rows. *)
Definition navigate (n : Z) (clicks : list Button) (rt : Runtime W) : Runtime W :=
  fold_left (fun rt b =>
               match b with
               | BtnPrevious => snd (on_previous rt)
               | BtnNext => snd (on_next n rt)
               | _ => rt
               end)
            clicks rt.

(** A series of script runs, each with its own inputs. *)
Definition runs (inputs : list Inputs) (rt : Runtime W) : Runtime W :=
  fold_left (fun rt inp => snd (main_flow inp rt)) inputs rt.

(** The state after the run that stops at the Drive-service step. *)
Definition auth_error_shown (rt : Runtime W) : Runtime W :=
  with_trace
    (trace rt ++ [EvUi UiError "Auth error: name 'build_drive_service' is not defined"])
    rt.

(** The table and the flagged rows a run has processed, if any. *)
Definition rows_loaded (s : Session) : bool :=
  match df s, invalid_rows s with
  | None, None => false
  | _, _ => true
  end.

End Main.

(** ** Vocabulary of the statements *)

(** [m] keeps a loaded table [d] in the session. *)
Definition keeps_table {W A : Type} (d : list Row) (m : M W A) : Prop :=
  forall rt, df (session rt) = Some d -> df (session (snd (m rt))) = Some d.

Definition underscore_free (s : string) : Prop := PyStr.contains "_" s = false.



(** The flush loop with the masks computed once, on the table as it was. *)
Definition table_after (d : list Row) (p : list (string * string))
    (t : list Row) : list Row :=
  fold_left (fun t e => loc_assign t (entry_mask d (fst e)) (snd e)) p t.

Definition written_after (d : list Row) (p : list (string * string))
    (w : list bool) : list bool :=
  fold_left (fun w e => zip_with orb w (entry_mask d (fst e))) p w.

Section Outcomes.
Context {W : Type} `{Services W}.

(** [m] leaves the part [proj] of the session as it found it, whatever its
    outcome. *)
Definition preserves {A X : Type} (proj : Session -> X) (m : M W A) : Prop :=
  forall rt, proj (session (snd (m rt))) = proj (session rt).

(** [m] always completes normally, with a value satisfying [Q]. *)
Definition returns {A : Type} (m : M W A) (Q : A -> Prop) : Prop :=
  forall rt, exists a rt', m rt = (Ok a, rt') /\ Q a.

(** [m] completes normally with a value satisfying [Q], or raises; it never
    stops the script. *)
Definition completes_or_raises {A : Type} (m : M W A) (Q : A -> Prop) : Prop :=
  forall rt, match m rt with
             | (Ok a, _) => Q a
             | (Raise _, _) => True
             | (Halt _, _) => False
             end.

End Outcomes.

(** ** A small concrete world, used by the examples *)

Module Demo.

(** The clock, what [files().list] answers to each query, whether Drive
    calls and downloads fail, and the paths on disk. *)
Record World : Type := mkWorld {
  now : Z;
  drive : list (string * list FileItem);
  drive_down : bool;
  downloads_fail : bool;
  disk : list string
}.

Definition tick (w : World) : World :=
  mkWorld (now w + 1) (drive w) (drive_down w) (downloads_fail w) (disk w).

Definition write (p : string) (w : World) : World :=
  mkWorld (now w) (drive w) (drive_down w) (downloads_fail w) (p :: disk w).

Definition http_error : Exc := mkExc "HttpError" "503 backend error".

#[global] Instance services : Services World := {|
  google_build creds w := (inr (ServiceFor creds), tick w);
  files_list _ q _ _ w :=
    (if drive_down w then inl http_error
     else inr (default [] (Dict.get q (drive w))), tick w);
  files_get _ file_id w :=
    (if drive_down w || downloads_fail w then inl http_error
     else inr (mkFileMetadata (Some "image/png") (Some (file_id ++ ".png"))
                              (Some ("https://drive.example/" ++ file_id))),
     tick w);
  media_chunks _ _ _ := 2%nat;
  next_chunk _ _ w :=
    (if drive_down w || downloads_fail w then inl http_error else inr tt, tick w);
  named_temporary_file suffix w := (inr ("/tmp/tmp1" ++ suffix), tick w);
  splitext_ext _ := ".png";
  basename p := p;
  path_exists p w := bool_decide (p ∈ disk w);
  open_read p w :=
    (if bool_decide (p ∈ disk w) then inr "content"
     else inl (mkExc "FileNotFoundError" p), w);
  clock := now;
  to_excel _ filename w := (inr tt, write filename w);
  supabase_client w := (inr tt, w);
  storage_remove _ _ w := (inr tt, tick w);
  storage_upload _ _ _ w := (inr tt, tick w);
  supabase_save_state _ _ w := (true, tick w)
|}.

Definition folder (id name : string) : FileItem :=
  mkFileItem id name (Some "application/vnd.google-apps.folder") None.

Definition picture (id name : string) : FileItem :=
  mkFileItem id name (Some "image/png") (Some ("https://drive.example/" ++ id)).

(** A store where "Clients" is not inside the folder found for
    "Cog Culture Repository" but exists elsewhere. *)
Definition moved_clients : list (string * list FileItem) :=
  [(folder_query "Cog Culture Repository" None, [folder "A" "Cog Culture Repository"]);
   (folder_query "Clients" None, [folder "B" "Clients"]);
   (folder_query "Aarize Group" (Some "B"), [folder "C" "Aarize Group"])].

Definition empty_world : World := mkWorld 0 [] false false [].

Definition start (w : World) (s : Session) : Runtime World :=
  mkRuntime w [] ∅ ∅ s.

Definition service : option Service := Some (ServiceFor [("type", "service_account")]).

Definition row1 : Row :=
  mkRow "File" "logo.png" "Brand_Campaign_Channel_Asset_Format_Version_Date"
        "Clients/Aarize Group/logo.png" "2024-01-01" "2024-01-02" "Rename".

Definition row2 : Row :=
  mkRow "File" "intro.mp4" "Acme_Launch_Web_Video_MP4_V1_20240101"
        "Clients/Aarize Group/intro.mp4" "2024-01-01" "2024-01-02" "Rename".

Definition row3 : Row :=
  mkRow "File" "copy.png" "Acme_Launch_Web_Logo_PNG_Version_20240101"
        "Clients/Aarize Group/logo.png" "2024-01-03" "2024-01-04" "Rename".

(** The operator types [v] into the widget of field [i] and nothing else. *)
Definition types (i : nat) (v : string) : nat -> option string :=
  fun j => if Nat.eqb j i then Some v else None.

End Demo.

(** ** Further vocabulary *)

(** Whether an event is the creation of a scratch file. *)
Definition is_temp_file (ev : Event) : bool :=
  match ev with EvTempFile _ => true | _ => false end.

(** A Drive read or the creation of a scratch file. *)
Definition is_read (ev : Event) : bool := is_drive_call ev || is_temp_file ev.

(** Everything [m] adds to the log satisfies [P]. *)
Definition adds_only {W A : Type} (P : Event -> bool) (m : M W A) : Prop :=
  forall rt, exists added,
    trace (snd (m rt)) = (trace rt ++ added)%list
    /\ Forall (fun ev => P ev = true) added.

(** The state of a session that holds a service, a table and the flagged
    rows [ir], at least one. *)
Definition reviewing {W : Type} (rt : Runtime W) (ir : list Row) : Prop :=
  is_Some (drive_service (session rt))
  /\ is_Some (df (session rt))
  /\ invalid_rows (session rt) = Some ir
  /\ ir <> [].

(** ** The steps of a resolution *)

Section ResolverSteps.
Context {W : Type} `{Services W}.

(** [filename_guess]: the last segment of the row's path, or the row's
    [Original Name] when the path has no segment. *)
Definition filename_guess (row : Row) : string :=
  default (Original_Name row) (last (file_path_segments_of (Full_Path row))).

(** "Traverse folders": the base descent, the retry with the first base
    folder, and the descent through the row's own folders. *)
Definition resolve_parent (svc : option Service) (row : Row)
  : M W (option string) :=
  let* parent_id := descend_base svc base_segments None in
  let* parent_id :=
    (if negb (truthy_opt parent_id)
     then find_folder_id svc (default EmptyString (head base_segments)) None
     else ret parent_id) in
  if truthy_opt parent_id
  then descend_path svc (removelast (file_path_segments_of (Full_Path row)))
                    parent_id
  else ret parent_id.

(** [if parent_id: file_meta = get_file_in_folder(...)], and the download
    [if file_meta]. *)
Definition lookup_in_folder (svc : option Service) (parent_id : option string)
    (name : string) : M W Resolution :=
  if truthy_opt parent_id
  then
    let* file_meta :=
      get_file_in_folder svc (default EmptyString parent_id) name in
    match file_meta with
    | Some item =>
        let* d := download_file_to_temp svc (fi_id item) name in
        ret (resolved item d)
    | None => ret negative
    end
  else ret negative.

(** [calls] successive [next_chunk] calls that all succeed lead from world
    [w] to the world returned; [None] when one of them raises. *)
Fixpoint chunks_from (s : Service) (file_id : string) (calls : nat) (w : W)
  : option W :=
  match calls with
  | O => Some w
  | S calls' =>
      match next_chunk s file_id w with
      | (inr _, w') => chunks_from s file_id calls' w'
      | (inl _, _) => None
      end
  end.

End ResolverSteps.

(** A store that holds the base hierarchy, the file "logo.png" in the
    folder reached for it, and another "logo.png" elsewhere. *)
Definition store_with_logo : list (string * list FileItem) :=
  [(folder_query "Cog Culture Repository" None,
    [Demo.folder "A" "Cog Culture Repository"]);
   (folder_query "Clients" (Some "A"), [Demo.folder "B" "Clients"]);
   (folder_query "Aarize Group" (Some "B"), [Demo.folder "C" "Aarize Group"]);
   (file_in_folder_query "C" "logo.png", [Demo.picture "F" "logo.png"]);
   (file_query "logo.png", [Demo.picture "G" "logo.png"])].

(** ** A world in which chosen calls fail *)

Module Faulty.

(** Which calls raise; every other call succeeds, every Drive query finds
    one file, and a file has three chunks. *)
Record World : Type := mkWorld {
  excel_fails : bool;
  chunk_fails : bool;
  remove_fails : bool;
  upload_fails : bool
}.

Definition os_error (what : string) : Exc := mkExc "OSError" what.

Definition answer (fails : bool) (what : string) : Exc + unit :=
  if fails then inl (os_error what) else inr tt.

#[global] Instance services : Services World := {|
  google_build creds w := (inr (ServiceFor creds), w);
  files_list _ _ _ _ w := (inr [mkFileItem "F" "logo.png" (Some "image/png") None], w);
  files_get _ _ w :=
    (inr (mkFileMetadata (Some "image/png") (Some "logo.png") None), w);
  media_chunks _ _ _ := 3%nat;
  next_chunk _ _ w := (answer (chunk_fails w) "connection reset", w);
  named_temporary_file suffix w := (inr ("/tmp/tmp7" ++ suffix), w);
  splitext_ext _ := ".png";
  basename p := p;
  path_exists _ _ := true;
  open_read _ w := (inr "content", w);
  clock _ := 0;
  to_excel _ _ w := (answer (excel_fails w) "permission denied", w);
  supabase_client w := (inr tt, w);
  storage_remove _ _ w := (answer (remove_fails w) "not found", w);
  storage_upload _ _ _ w := (answer (upload_fails w) "bucket unreachable", w);
  supabase_save_state _ _ w := (true, w)
|}.

Definition start (w : World) (s : Session) : Runtime World :=
  mkRuntime w [] ∅ ∅ s.

End Faulty.

(** ** Persistence of the session state *)

Module Persistence.

(** The object kept in the [state_data] column, as [json.loads] gives it
    back: a key may be missing ([None]); [excel_filename] missing or null
    reads as [None] either way. Values have the types the script writes;
    time stamps are clock readings. *)
Record StateData : Type := mkStateData {
  sd_user_id : option string;
  sd_pending_changes : option (list (string * string));
  sd_index : option Z;
  sd_last_updated : option Z;
  sd_excel_filename : option string
}.

(** A record of the [user_states] table; [us_state_data] is [None] when the
    column's text is not the JSON of an object. *)
Record UserState : Type := mkUserState {
  us_user_id : string;
  us_state_data : option StateData;
  us_last_updated : Z
}.

(** The session keys that [Session] does not hold, and the page's
    [user_id] query parameter. For [user_id] and [uploaded_excel_name],
    [None] is a key that is not in the session. *)
Record Browser : Type := mkBrowser {
  user_id : option string;
  query_user_id : option string;
  state_loaded : bool;
  last_save_time : Z;
  uploaded_excel_name : option (option string)
}.

(** The part of the browser side that saving never writes. *)
Definition timers (b : Browser) : bool * Z * option (option string) :=
  (state_loaded b, last_save_time b, uploaded_excel_name b).

(** A new session after "Initialize session state", at time [t]. *)
Definition new_browser (query : option string) (t : Z) : Browser :=
  mkBrowser None query false t None.

Definition with_user_id (v : option string) (b : Browser) : Browser :=
  mkBrowser v (query_user_id b) (state_loaded b) (last_save_time b)
            (uploaded_excel_name b).

Definition with_query_user_id (v : option string) (b : Browser) : Browser :=
  mkBrowser (user_id b) v (state_loaded b) (last_save_time b)
            (uploaded_excel_name b).

Definition with_state_loaded (v : bool) (b : Browser) : Browser :=
  mkBrowser (user_id b) (query_user_id b) v (last_save_time b)
            (uploaded_excel_name b).

Definition with_last_save_time (v : Z) (b : Browser) : Browser :=
  mkBrowser (user_id b) (query_user_id b) (state_loaded b) v
            (uploaded_excel_name b).

Definition with_uploaded_excel_name (v : option (option string)) (b : Browser)
  : Browser :=
  mkBrowser (user_id b) (query_user_id b) (state_loaded b) (last_save_time b) v.

(** What the persistence functions call: the Supabase client and the
    queries on [user_states], the script run context, [hashlib] and the
    clock. *)
Class Backend (S : Type) : Type := {
  create_client : S -> (Exc + unit) * S;
  select_user_states : string -> S -> (Exc + list UserState) * S;
  update_user_states : string -> option StateData -> Z -> S -> (Exc + unit) * S;
  insert_user_states : UserState -> S -> (Exc + unit) * S;
  session_id : S -> Exc + string;
  md5_hexdigest : string -> string;
  time_now : S -> Z
}.

(** The world of the persistence code: the browser side and the backend. *)
Record Page (S : Type) : Type := mkPage {
  browser : Browser;
  backend : S
}.
Arguments mkPage {S} _ _.
Arguments browser {S} _.
Arguments backend {S} _.

Definition with_browser {S : Type} (v : Browser) (pg : Page S) : Page S :=
  mkPage v (backend pg).

Definition with_backend {S : Type} (v : S) (pg : Page S) : Page S :=
  mkPage (browser pg) v.

Section Script.
Context {S : Type} `{Backend S}.

Definition browser_gets {A : Type} (f : Browser -> A) : M (Page S) A :=
  fun rt => (Ok (f (browser (world rt))), rt).

Definition browser_modify (f : Browser -> Browser) : M (Page S) unit :=
  fun rt => (Ok tt, with_world (with_browser (f (browser (world rt))) (world rt)) rt).

(** A call to the backend. *)
Definition remote {A : Type} (f : S -> (Exc + A) * S) : M (Page S) A :=
  fun rt =>
    let '(r, s') := f (backend (world rt)) in
    let rt' := with_world (with_backend s' (world rt)) rt in
    match r with
    | inl e => (Raise e, rt')
    | inr a => (Ok a, rt')
    end.

Definition now : M (Page S) Z :=
  fun rt => (Ok (time_now (backend (world rt))), rt).

Definition get_supabase_client : M (Page S) unit :=
  call EvSupabaseClient
       (fun pg => let '(r, s') := create_client (backend pg) in
                  (r, with_backend s' pg)).

(** The state once [get_supabase_client()] has answered and left the
    backend in [s1]. *)
Definition with_client (s1 : S) (rt : Runtime (Page S)) : Runtime (Page S) :=
  with_trace (trace rt ++ [EvSupabaseClient])
             (with_world (with_backend s1 (world rt)) rt).

Definition get_user_id : M (Page S) string :=
  let* known := browser_gets user_id in
  match known with
  | Some u => ret u
  | None =>
      let* query := browser_gets query_user_id in
      match query with
      | Some q => browser_modify (with_user_id (Some q)) >> ret q
      | None =>
          let* sid := remote (fun s => (session_id s, s)) in
          let new_user_id := md5_hexdigest sid in
          browser_modify (with_user_id (Some new_user_id)) >>
          browser_modify (with_query_user_id (Some new_user_id)) >>
          ret new_user_id
      end
  end.

(** [json.dumps(state_data)] followed by [json.loads]. *)
Definition state_data_of (u : string) (pending : list (string * string))
    (i t : Z) (excel : option string) : StateData :=
  mkStateData (Some u) (Some pending) (Some i) (Some t) excel.

Definition save_state_to_supabase : M (Page S) bool :=
  try_except
    (get_supabase_client >>
     let* u := get_user_id in
     let* pending := gets pending_changes in
     let* i := gets index in
     let* t := now in
     let* excel := browser_gets (fun b => mjoin (uploaded_excel_name b)) in
     let state_data := state_data_of u pending i t excel in
     let* existing := remote (select_user_states u) in
     match existing with
     | _ :: _ =>
         let* t' := now in
         remote (update_user_states u (Some state_data) t')
     | [] =>
         let* t' := now in
         remote (insert_user_states (mkUserState u (Some state_data) t'))
     end >>
     ret true)
    (fun _ => ret false).

Definition json_decode_error : Exc :=
  mkExc "JSONDecodeError" "Expecting value".

Definition load_state_from_supabase : M (Page S) bool :=
  try_except
    (get_supabase_client >>
     let* u := get_user_id in
     let* data := remote (select_user_states u) in
     match data with
     | record :: _ =>
         match us_state_data record with
         | Some state_data =>
             modify (with_pending_changes
                       (default [] (sd_pending_changes state_data))) >>
             modify (with_index (default 0 (sd_index state_data))) >>
             browser_modify (with_uploaded_excel_name
                               (Some (sd_excel_filename state_data))) >>
             ret true
         | None => raise json_decode_error
         end
     | [] => ret false
     end)
    (fun _ => ret false).

(** "Load previous state on first run"; the message is given without its
    leading pictograph. *)
Definition load_on_first_run : M (Page S) unit :=
  let* loaded := browser_gets state_loaded in
  if loaded then ret tt
  else
    let* ok := load_state_from_supabase in
    if ok
    then browser_modify (with_state_loaded true) >>
         let* pending := gets pending_changes in
         match pending with
         | _ :: _ =>
             st_message UiSuccess
               ("Restored " ++ pretty (len pending) ++ " pending changes")
         | [] => ret tt
         end
    else browser_modify (with_state_loaded true).

(** "Auto-save state periodically" *)
Definition auto_save : M (Page S) unit :=
  let* current_time := now in
  let* last := browser_gets last_save_time in
  if 30 <? current_time - last
  then (let* pending := gets pending_changes in
        match pending with
        | _ :: _ => save_state_to_supabase >> ret tt
        | [] => ret tt
        end) >>
       browser_modify (with_last_save_time current_time)
  else ret tt.


End Script.

(** A reference backend: the table as the list of its records, a clock, the
    id of the script run's session, and whether the service is reachable. *)
Record Store : Type := mkStore {
  rows : list UserState;
  time : Z;
  run_session : string;
  reachable : bool
}.

Definition with_rows (v : list UserState) (s : Store) : Store :=
  mkStore v (time s) (run_session s) (reachable s).

Definition unreachable : Exc := mkExc "ConnectError" "connection refused".

Definition guarded {A : Type} (s : Store) (a : A) (s' : Store)
  : (Exc + A) * Store :=
  if reachable s then (inr a, s') else (inl unreachable, s).

(** What [update(...).eq("user_id", u)] does to one record. *)
Definition put (u : string) (data : option StateData) (t : Z) (r : UserState)
  : UserState :=
  if decide (us_user_id r = u) then mkUserState (us_user_id r) data t else r.

#[global] Instance store_backend : Backend Store := {|
  create_client s := (inr tt, s);
  select_user_states u s :=
    guarded s (filter (fun r => us_user_id r = u) (rows s)) s;
  update_user_states u data t s :=
    guarded s tt
      (with_rows (map (put u data t) (rows s)) s);
  insert_user_states r s := guarded s tt (with_rows (rows s ++ [r])%list s);
  session_id s := inr (run_session s);
  md5_hexdigest sid := "md5-" ++ sid;  (* some fixed function of the id *)
  time_now := time
|}.

Definition start (b : Browser) (st : Store) (s : Session) : Runtime (Page Store) :=
  mkRuntime (mkPage b st) [] ∅ ∅ s.

End Persistence.

(** * Verified properties *)

(** ** Strings *)

Section StringFacts.

Lemma split_nonempty sep s : PyStr.split sep s <> [].
Proof. destruct s as [|c s]; simpl; [done|]. by repeat case_match. Qed.

(** No piece of a split contains the separator. *)
Lemma split_pieces_free sep s :
  Forall (fun p => PyStr.contains sep p = false) (PyStr.split sep s).
Proof.
  induction s as [|c s IH]; simpl.
  - by constructor.
  - destruct (Ascii.eqb c sep) eqn:Hc.
    + by constructor.
    + destruct (PyStr.split sep s) as [|p ps]; simpl.
      * constructor; [|done]. simpl. by rewrite Hc.
      * inversion IH; subst. constructor; [|done]. simpl. by rewrite Hc.
Qed.

Lemma split_free sep s :
  PyStr.contains sep s = false -> PyStr.split sep s = [s].
Proof.
  induction s as [|c s IH]; simpl; [done|].
  intros Hs. apply orb_false_iff in Hs as [Hc Hs].
  rewrite Hc, (IH Hs). done.
Qed.

Lemma split_app_sep sep p rest :
  PyStr.contains sep p = false ->
  PyStr.split sep (p ++ String sep rest) = p :: PyStr.split sep rest.
Proof.
  induction p as [|c p IH]; simpl.
  - intros _. by rewrite Ascii.eqb_refl.
  - intros Hs. apply orb_false_iff in Hs as [Hc Hs].
    rewrite Hc, (IH Hs). done.
Qed.

(** Splitting a join gives the parts back when no part contains the
    separator. *)
Lemma split_join sep parts :
  parts <> [] ->
  Forall (fun p => PyStr.contains sep p = false) parts ->
  PyStr.split sep (PyStr.join (String sep EmptyString) parts) = parts.
Proof.
  induction parts as [|p ps IH]; [done|].
  intros _ Hfree. inversion Hfree as [|? ? Hp Hps]; subst.
  destruct ps as [|p' ps].
  - simpl. by apply split_free.
  - change (PyStr.join (String sep EmptyString) (p :: p' :: ps))
      with (p ++ String sep (PyStr.join (String sep EmptyString) (p' :: ps))).
    rewrite split_app_sep by done. f_equal. by apply IH.
Qed.

End StringFacts.

(** ** Boolean indexing *)

Section BooleanIndex.
Context {A : Type} (f : A -> bool).

Lemma rank_cons (b : bool) (mask : list bool) (i : nat) :
  rank (b :: mask) (S i) = ((if b then 1 else 0) + rank mask i)%nat.
Proof.
  unfold rank. rewrite firstn_cons. destruct b.
  - by rewrite filter_cons_True.
  - by rewrite filter_cons_False.
Qed.

Lemma boolean_index_filter (l : list A) :
  boolean_index l (map f l) = filter (fun x => f x = true) l.
Proof.
  induction l as [|x l IH]; simpl; [done|].
  destruct (f x) eqn:Hx.
  - rewrite filter_cons_True by done. by f_equal.
  - rewrite filter_cons_False by congruence. done.
Qed.

Lemma boolean_index_sublist (l : list A) :
  sublist (boolean_index l (map f l)) l.
Proof. rewrite boolean_index_filter. apply sublist_filter. Qed.

(** A row whose mask entry is true lands at its rank. *)
Lemma boolean_index_lookup (l : list A) (i : nat) (x : A) :
  l !! i = Some x -> f x = true ->
  boolean_index l (map f l) !! rank (map f l) i = Some x.
Proof.
  revert i. induction l as [|y l IH]; intros i Hi Hx; [done|].
  destruct i as [|i]; simpl in *.
  - injection Hi as ->. rewrite Hx. done.
  - rewrite rank_cons. destruct (f y); simpl; by apply IH.
Qed.

(** Every selected row comes from a position whose mask entry is true, and
    sits at that position's rank. *)
Lemma boolean_index_lookup_inv (l : list A) (j : nat) (x : A) :
  boolean_index l (map f l) !! j = Some x ->
  exists i, l !! i = Some x /\ f x = true /\ rank (map f l) i = j.
Proof.
  revert j. induction l as [|y l IH]; intros j Hj; [done|].
  simpl in Hj. destruct (f y) eqn:Hy.
  - destruct j as [|j]; simpl in Hj.
    + injection Hj as ->. exists 0%nat. done.
    + destruct (IH _ Hj) as (i & Hi & Hx & Hr).
      exists (S i). split_and!; [done..|].
      change (map f (y :: l)) with (f y :: map f l).
      rewrite rank_cons, Hy, Hr. done.
  - destruct (IH _ Hj) as (i & Hi & Hx & Hr).
    exists (S i). split_and!; [done..|].
    change (map f (y :: l)) with (f y :: map f l).
    rewrite rank_cons, Hy, Hr. done.
Qed.

End BooleanIndex.

(** ** C1: the flagged-row detector *)

Lemma has_placeholder_iff (s : string) :
  has_placeholder s = true <->
  exists part ph, part ∈ PyStr.split "_" s /\ ph ∈ placeholders
                  /\ PyStr.lower ph = PyStr.lower part.
Proof.
  unfold has_placeholder. rewrite existsb_exists. split.
  - intros (ph & Hph & Hex). apply existsb_exists in Hex as (part & Hpart & Heq).
    exists part, ph. rewrite <- !list_elem_of_In in *.
    split_and!; [done..|]. by apply String.eqb_eq.
  - intros (part & ph & Hpart & Hph & Heq).
    exists ph. rewrite <- list_elem_of_In. split; [done|].
    apply existsb_exists. exists part. rewrite <- list_elem_of_In.
    split; [done|]. by apply String.eqb_eq.
Qed.

Lemma invalid_mask_lookup (df : list Row) (i : nat) (row : Row) :
  df !! i = Some row ->
  invalid_mask df !! i = Some (has_placeholder (Proposed_New_Name row)).
Proof. intros Hi. unfold invalid_mask. by rewrite list_lookup_fmap, Hi. Qed.

(** C1. A row of the table is flagged exactly when one of the pieces of its
    proposed name between underscores equals, after [lower()] on both
    sides, one of the seven placeholder tokens; the flagged rows are the
    rows at the flagged positions, in table order, numbered consecutively:
    a flagged row sits at its rank, every entry of the flagged table comes
    from a flagged position, and the flagged table is a subsequence of the
    table. *)
Theorem C1_flagged_iff_placeholder_segment (df : list Row) :
  (forall (i : nat) (row : Row), df !! i = Some row ->
     (invalid_mask df !! i = Some true <->
      exists part ph,
        part ∈ PyStr.split "_" (Proposed_New_Name row)
        /\ ph ∈ ["Brand"; "Campaign"; "Channel"; "Asset"; "Format"; "Version"; "Date"]
        /\ PyStr.lower ph = PyStr.lower part))
  /\ (forall (i : nat) (row : Row), df !! i = Some row ->
        invalid_mask df !! i = Some true ->
        flagged_rows df !! rank (invalid_mask df) i = Some row)
  /\ (forall (j : nat) (row : Row), flagged_rows df !! j = Some row ->
        exists i : nat, df !! i = Some row /\ invalid_mask df !! i = Some true
                        /\ rank (invalid_mask df) i = j)
  /\ sublist (flagged_rows df) df.
Proof.
  split_and!.
  - intros i row Hi. rewrite (invalid_mask_lookup _ _ _ Hi).
    rewrite <- has_placeholder_iff. split; [by intros [= ->]|by intros ->].
  - intros i row Hi Hm. rewrite (invalid_mask_lookup _ _ _ Hi) in Hm.
    injection Hm as Hm. unfold flagged_rows, invalid_mask.
    by apply (boolean_index_lookup (fun r => has_placeholder (Proposed_New_Name r))).
  - intros j row Hj. unfold flagged_rows, invalid_mask in *.
    apply boolean_index_lookup_inv in Hj as (i & Hi & Hx & Hr).
    exists i. split_and!; [done| |done].
    rewrite list_lookup_fmap, Hi. simpl. by rewrite Hx.
  - apply boolean_index_sublist.
Qed.

Example flagged_rows_demo :
  flagged_rows [Demo.row2; Demo.row1; Demo.row2; Demo.row3]
  = [Demo.row1; Demo.row3].
Proof. reflexivity. Qed.

Example has_placeholder_case : has_placeholder "Acme_cAmPaIgN_x" = true.
Proof. reflexivity. Qed.

Example has_placeholder_needs_whole_piece : has_placeholder "Branding_Dates" = false.
Proof. reflexivity. Qed.

(** ** C8: navigation *)

Lemma previous_index_clamped (i : Z) :
  0 <= i -> previous_index i = Z.max 0 (i - 1).
Proof. unfold previous_index. intros. case_match; lia. Qed.

Lemma next_index_clamped (n i : Z) :
  i <= n - 1 -> next_index n i = Z.min (n - 1) (i + 1).
Proof. unfold next_index. intros. case_match; lia. Qed.

(** ** Reasoning about script fragments *)

Section Frames.
Context {W : Type} `{Services W}.

Lemma preserves_ret {A X} (proj : Session -> X) (a : A) : preserves proj (ret a : M W A).
Proof. by intros rt. Qed.

Lemma preserves_raise {A X} (proj : Session -> X) e :
  preserves proj (raise e : M W A).
Proof. by intros rt. Qed.

Lemma preserves_stop {A X} (proj : Session -> X) : preserves proj (st_stop : M W A).
Proof. by intros rt. Qed.

Lemma preserves_rerun {A X} (proj : Session -> X) : preserves proj (st_rerun : M W A).
Proof. by intros rt. Qed.

Lemma preserves_gets {A X} (proj : Session -> X) (f : Session -> A) :
  preserves proj (gets f : M W A).
Proof. by intros rt. Qed.

Lemma preserves_message {X} (proj : Session -> X) kind msg :
  preserves proj (st_message kind msg : M W unit).
Proof. by intros rt. Qed.

Lemma preserves_call {A X} (proj : Session -> X) ev (f : W -> (Exc + A) * W) :
  preserves proj (call ev f).
Proof. intros rt. unfold call. destruct (f (world rt)) as [[e|a] w']; done. Qed.

Lemma preserves_modify {X} (proj : Session -> X) (f : Session -> Session) :
  (forall s, proj (f s) = proj s) -> preserves proj (modify f : M W unit).
Proof. intros Hf rt. simpl. apply Hf. Qed.

Lemma preserves_bind {A B X} (proj : Session -> X) (m : M W A) (k : A -> M W B) :
  preserves proj m -> (forall a, preserves proj (k a)) -> preserves proj (bind m k).
Proof.
  intros Hm Hk rt. unfold bind. specialize (Hm rt).
  destruct (m rt) as [[a|e|c] rt']; simpl in *; [|done..].
  by rewrite Hk.
Qed.

Lemma preserves_try {A X} (proj : Session -> X) (m : M W A) (h : Exc -> M W A) :
  preserves proj m -> (forall e, preserves proj (h e)) ->
  preserves proj (try_except m h).
Proof.
  intros Hm Hh rt. unfold try_except. specialize (Hm rt).
  destruct (m rt) as [[a|e|c] rt']; simpl in *; [done| |done].
  by rewrite Hh.
Qed.

Lemma preserves_state_dep {A X} (proj : Session -> X) (m : Runtime W -> M W A) :
  (forall rt0, preserves proj (m rt0)) -> preserves proj (fun rt => m rt rt).
Proof. intros Hm rt. apply Hm. Qed.

Lemma preserves_if {A X} (proj : Session -> X) (b : bool) (m1 m2 : M W A) :
  preserves proj m1 -> preserves proj m2 -> preserves proj (if b then m1 else m2).
Proof. by destruct b. Qed.

Lemma preserves_when {X} (proj : Session -> X) (b : bool) (m : M W unit) :
  preserves proj m -> preserves proj (when b m).
Proof. intros. destruct b; [done|apply preserves_ret]. Qed.

Lemma preserves_save_state {X} (proj : Session -> X) :
  preserves proj save_state_to_supabase.
Proof.
  intros rt. unfold save_state_to_supabase.
  by destruct (supabase_save_state _ _ _).
Qed.

Lemma preserves_cache_data {K V X} `{Countable K} (proj : Session -> X) ttl
    (memo : Runtime W -> gmap K (V * Z)) set_memo (k : K) (body : M W V) :
  (forall v rt, session (set_memo v rt) = session rt) ->
  preserves proj body -> preserves proj (cache_data ttl memo set_memo k body).
Proof.
  intros Hset Hbody rt. unfold cache_data.
  assert (proj (session (snd
            match body rt with
            | (Ok v, rt') =>
                (Ok v, set_memo (<[k:=(v, clock (world rt'))]> (memo rt')) rt')
            | other => other
            end)) = proj (session rt)) as Hrun.
  { specialize (Hbody rt). destruct (body rt) as [[v|e|c] rt']; simpl in *;
      [by rewrite Hset|done..]. }
  destruct (memo rt !! k) as [[v t]|]; [|done].
  by destruct (clock (world rt) - t <? ttl).
Qed.

End Frames.

Create HintDb frame.

#[global] Hint Resolve preserves_ret preserves_raise preserves_stop
  preserves_rerun preserves_gets preserves_message preserves_call
  preserves_save_state : frame.

(** Walks through a script fragment, one construct at a time. *)
Ltac frame_step :=
  first
    [ apply preserves_bind; [|intros ?]
    | apply preserves_try; [|intros ?]
    | apply preserves_when
    | apply preserves_if
    | apply preserves_modify; intros ?; reflexivity
    | solve [auto with frame] ].

Ltac frame := repeat frame_step.

(** ** The resolver touches the file cache only *)

Section ResolverFrame.
Context {W : Type} `{Services W}.
Context {X : Type} (proj : Session -> X).

Lemma preserves_drive_files_list svc q fields pageSize :
  preserves proj (drive_files_list svc q fields pageSize : M W _).
Proof. destruct svc; simpl; frame. Qed.

Lemma preserves_drive_files_get svc file_id :
  preserves proj (drive_files_get svc file_id : M W _).
Proof. destruct svc; simpl; frame. Qed.

Lemma preserves_find_folder_id svc name parent :
  preserves proj (find_folder_id svc name parent : M W _).
Proof.
  apply preserves_cache_data; [done|]. unfold find_folder_id_body.
  apply preserves_try; [|intros e; frame].
  apply preserves_bind; [apply preserves_drive_files_list|].
  intros [|item items]; frame.
Qed.

Lemma preserves_get_file_in_folder svc parent filename :
  preserves proj (get_file_in_folder svc parent filename : M W _).
Proof.
  apply preserves_cache_data; [done|]. unfold get_file_in_folder_body.
  apply preserves_try; [|intros e; frame].
  apply preserves_bind; [apply preserves_drive_files_list|].
  intros [|item items]; frame.
Qed.

Lemma preserves_next_chunks s file_id more :
  preserves proj (next_chunks s file_id more : M W _).
Proof. induction more as [|more IH]; simpl; frame. Qed.

Lemma preserves_download_file_to_temp svc file_id hint :
  preserves proj (download_file_to_temp svc file_id hint : M W _).
Proof.
  unfold download_file_to_temp, download_attempt.
  apply preserves_try; [|intros e; frame].
  apply preserves_bind; [apply preserves_drive_files_get|]. intros meta.
  apply preserves_bind; [frame|]. intros tmp.
  apply preserves_bind; [|intros _; frame].
  destruct svc as [s|]; simpl; [|frame]. intros rt. apply preserves_next_chunks.
Qed.

Lemma preserves_descend_base svc segs parent :
  preserves proj (descend_base svc segs parent : M W _).
Proof.
  revert parent. induction segs as [|seg rest IH]; intros parent; simpl; [frame|].
  apply preserves_bind; [apply preserves_find_folder_id|]. intros found.
  apply preserves_bind.
  - apply preserves_if; [apply preserves_find_folder_id|frame].
  - intros parent'. apply preserves_if; [frame|apply IH].
Qed.

Lemma preserves_descend_path svc segs parent :
  preserves proj (descend_path svc segs parent : M W _).
Proof.
  revert parent. induction segs as [|seg rest IH]; intros parent; simpl; [frame|].
  apply preserves_bind; [apply preserves_find_folder_id|]. intros folder_id.
  apply preserves_if; [apply IH|frame].
Qed.

Lemma preserves_search_anywhere svc name res :
  preserves proj (search_anywhere svc name res : M W _).
Proof.
  unfold search_anywhere. destruct (file_meta res); [frame|].
  apply preserves_bind.
  - apply preserves_try; [|intros e; frame].
    apply preserves_bind; [apply preserves_drive_files_list|]. intros items. frame.
  - intros [item|]; [|frame].
    apply preserves_try; [|intros e; frame].
    apply preserves_bind; [apply preserves_download_file_to_temp|]. intros d. frame.
Qed.

Lemma preserves_locate_file svc row :
  preserves proj (locate_file svc row : M W _).
Proof.
  unfold locate_file.
  apply preserves_bind; [apply preserves_descend_base|]. intros p1.
  apply preserves_bind.
  { apply preserves_if; [apply preserves_find_folder_id|frame]. }
  intros p2. apply preserves_bind.
  { apply preserves_if; [apply preserves_descend_path|frame]. }
  intros p3. apply preserves_bind.
  { apply preserves_if; [|frame].
    apply preserves_bind; [apply preserves_get_file_in_folder|].
    intros [item|]; [|frame].
    apply preserves_bind; [apply preserves_download_file_to_temp|]. intros d. frame. }
  intros r1. apply preserves_bind; [apply preserves_search_anywhere|].
  intros r2. apply preserves_search_anywhere.
Qed.

(** Whatever part of the session does not depend on the file cache is left
    alone by a resolution. *)
Lemma preserves_get_file_from_drive svc row :
  (forall v s, proj (with_file_cache v s) = proj s) ->
  preserves proj (get_file_from_drive svc row : M W _).
Proof.
  intros Hproj. unfold get_file_from_drive.
  apply preserves_bind; [frame|]. intros fc.
  destruct (fc !! cache_key row); [frame|].
  unfold resolve_uncached.
  apply preserves_bind; [apply preserves_locate_file|]. intros result.
  apply preserves_bind; [|intros _; frame].
  apply preserves_modify. intros s. apply Hproj.
Qed.

End ResolverFrame.

(** ** C8: navigation *)

Section Navigation.
Context {W : Type} `{Services W}.

Lemma on_previous_index (rt : Runtime W) :
  index (session (snd (on_previous rt))) = previous_index (index (session rt)).
Proof.
  unfold on_previous, previous_index, bind, gets. simpl.
  destruct (0 <? index (session rt)); [|done].
  unfold modify, save_state_to_supabase. simpl.
  by destruct (supabase_save_state _ _ _).
Qed.

Lemma on_next_index (n : Z) (rt : Runtime W) :
  index (session (snd (on_next n rt))) = next_index n (index (session rt)).
Proof.
  unfold on_next, next_index, bind, gets. simpl.
  destruct (index (session rt) <? n - 1); [|done].
  unfold modify, save_state_to_supabase. simpl.
  by destruct (supabase_save_state _ _ _).
Qed.

Lemma navigate_in_range (n : Z) (clicks : list Button) (rt : Runtime W) :
  0 <= index (session rt) <= n - 1 ->
  0 <= index (session (navigate n clicks rt)) <= n - 1.
Proof.
  revert rt. induction clicks as [|b clicks IH]; intros rt Hi; [done|].
  simpl. apply IH. destruct b; try done.
  - rewrite on_previous_index. unfold previous_index. case_match; lia.
  - rewrite on_next_index. unfold next_index. case_match; lia.
Qed.

(** A series of clicks never takes the index out of an interval that
    contains [0, n-1]. *)
Lemma navigate_bounds (n lo hi : Z) (clicks : list Button) (rt : Runtime W) :
  lo <= 0 -> n - 1 <= hi ->
  lo <= index (session rt) <= hi ->
  lo <= index (session (navigate n clicks rt)) <= hi.
Proof.
  intros Hlo Hhi. revert rt.
  induction clicks as [|b clicks IH]; intros rt Hi; [done|].
  simpl. apply IH. destruct b; try done.
  - rewrite on_previous_index. unfold previous_index. case_match; lia.
  - rewrite on_next_index. unfold next_index. case_match; lia.
Qed.

Lemma on_next_moves (n : Z) (rt : Runtime W) :
  index (session rt) < n - 1 ->
  fst (on_next n rt) = Halt CRerun
  /\ trace (snd (on_next n rt)) = (trace rt ++ [EvSaveState])%list.
Proof.
  intros Hi. unfold on_next, bind, gets, modify, save_state_to_supabase, st_rerun.
  simpl. apply Z.ltb_lt in Hi. rewrite Hi. simpl.
  by destruct (supabase_save_state _ _ _).
Qed.

Lemma on_previous_moves (rt : Runtime W) :
  0 < index (session rt) ->
  fst (on_previous rt) = Halt CRerun
  /\ trace (snd (on_previous rt)) = (trace rt ++ [EvSaveState])%list.
Proof.
  intros Hi. unfold on_previous, bind, gets, modify, save_state_to_supabase,
    st_rerun.
  simpl. apply Z.ltb_lt in Hi. rewrite Hi. simpl.
  by destruct (supabase_save_state _ _ _).
Qed.

(** C8, as the code has it. For every index, Next adds one exactly when the
    index is below [n-1] and Previous subtracts one exactly when it is
    above [0]; otherwise they do nothing at all. A move saves the state
    and reruns the script. With the index inside [0, n-1] this is the
    clamped move: Next gives [min (i+1) (n-1)], Previous gives
    [max (i-1) 0], Next at [n-1] and Previous at [0] are no-ops, and the
    index stays inside [0, n-1] under any series of clicks. Nothing brings
    an index that is outside back at once: a series of clicks keeps the
    index between [min i 0] and [max i (n-1)], Next leaves an index above
    [n-1] where it is and Previous leaves a negative one where it is. *)
Theorem C8_navigation_clamped (n : Z) (rt : Runtime W) :
  index (session (snd (on_next n rt)))
  = (if index (session rt) <? n - 1
     then index (session rt) + 1 else index (session rt))
  /\ index (session (snd (on_previous rt)))
     = (if 0 <? index (session rt)
        then index (session rt) - 1 else index (session rt))
  /\ (n - 1 <= index (session rt) -> on_next n rt = (Ok tt, rt))
  /\ (index (session rt) <= 0 -> on_previous rt = (Ok tt, rt))
  /\ (index (session rt) < n - 1 ->
      fst (on_next n rt) = Halt CRerun
      /\ trace (snd (on_next n rt)) = (trace rt ++ [EvSaveState])%list)
  /\ (0 < index (session rt) ->
      fst (on_previous rt) = Halt CRerun
      /\ trace (snd (on_previous rt)) = (trace rt ++ [EvSaveState])%list)
  /\ (0 <= index (session rt) <= n - 1 ->
      index (session (snd (on_next n rt)))
      = Z.min (index (session rt) + 1) (n - 1)
      /\ index (session (snd (on_previous rt)))
         = Z.max (index (session rt) - 1) 0
      /\ (index (session rt) = n - 1 -> on_next n rt = (Ok tt, rt))
      /\ (index (session rt) = 0 -> on_previous rt = (Ok tt, rt))
      /\ (forall clicks : list Button,
            0 <= index (session (navigate n clicks rt)) <= n - 1))
  /\ (forall clicks : list Button,
        Z.min (index (session rt)) 0
        <= index (session (navigate n clicks rt))
        <= Z.max (index (session rt)) (n - 1)).
Proof.
  assert (n - 1 <= index (session rt) -> on_next n rt = (Ok tt, rt)) as Hstay.
  { intros Hn. unfold on_next, bind, gets. simpl.
    assert ((index (session rt) <? n - 1) = false) as -> by lia. done. }
  assert (index (session rt) <= 0 -> on_previous rt = (Ok tt, rt)) as Hstay'.
  { intros H0. unfold on_previous, bind, gets. simpl.
    assert ((0 <? index (session rt)) = false) as -> by lia. done. }
  split_and!.
  - by rewrite on_next_index.
  - by rewrite on_previous_index.
  - done.
  - done.
  - apply on_next_moves.
  - apply on_previous_moves.
  - intros Hi. split_and!.
    + rewrite on_next_index. unfold next_index. case_match; lia.
    + rewrite on_previous_index. unfold previous_index. case_match; lia.
    + intros Hn. apply Hstay. lia.
    + intros H0. apply Hstay'. lia.
    + intros clicks. by apply navigate_in_range.
  - intros clicks. apply navigate_bounds; lia.
Qed.

End Navigation.

(** C8 with three flagged rows, at the last of them. *)
Lemma C8_navigation_clamped_witness :
  index (session (snd (on_next 3
          (Demo.start Demo.empty_world (with_index 2 initial_session))))) = 2
  /\ index (session (snd (on_previous
          (Demo.start Demo.empty_world (with_index 2 initial_session))))) = 1.
Proof.
  pose proof (C8_navigation_clamped 3
                (Demo.start Demo.empty_world (with_index 2 initial_session))) as C.
  destruct C as (_ & _ & _ & _ & _ & _ & C & _).
  destruct C as (Hnext & Hprev & _); [simpl; lia|].
  split; [exact Hnext | exact Hprev].
Defined.

(** C8 as first stated fails for a session whose index is outside
    [0, n-1], as a restored index can be: with three flagged rows and the
    index at 7, Next leaves 7, which is neither [min (7+1) (3-1)] nor
    inside [0, 2], and Previous gives 6, which is outside too. *)
Lemma C8_counterexample :
  index (session (snd (on_next 3
          (Demo.start Demo.empty_world (with_index 7 initial_session))))) = 7
  /\ index (session (snd (on_next 3
          (Demo.start Demo.empty_world (with_index 7 initial_session)))))
     <> Z.min (7 + 1) (3 - 1)
  /\ ~ (0 <= index (session (snd (on_next 3
          (Demo.start Demo.empty_world (with_index 7 initial_session)))))
         <= 3 - 1)
  /\ index (session (snd (on_previous
          (Demo.start Demo.empty_world (with_index 7 initial_session))))) = 6
  /\ ~ (0 <= index (session (snd (on_previous
          (Demo.start Demo.empty_world (with_index 7 initial_session)))))
         <= 3 - 1).
Proof. vm_compute. split_and!; try done; intros [? ?]; done. Qed.

(** ** C7: saving and resetting an edit *)

Lemma dict_get_set {V} (k : string) (v : V) (d : list (string * V)) :
  Dict.get k (Dict.set k v d) = Some v.
Proof.
  induction d as [|[k' v'] d IH]; simpl.
  - by rewrite String.eqb_refl.
  - destruct (String.eqb k' k) eqn:Hk; simpl.
    + by rewrite String.eqb_refl.
    + by rewrite Hk.
Qed.

Lemma dict_get_del {V} (k : string) (d : list (string * V)) :
  Dict.get k (Dict.del k d) = None.
Proof.
  unfold Dict.del. induction d as [|[k' v'] d IH]; [done|].
  destruct (decide (k' = k)) as [->|Hne].
  - rewrite filter_cons_False by (simpl; tauto). done.
  - rewrite filter_cons_True by done. simpl.
    apply String.eqb_neq in Hne. by rewrite Hne.
Qed.

Lemma dict_mem_false {V} (k : string) (d : list (string * V)) :
  Dict.mem k d = false -> Dict.get k d = None.
Proof. unfold Dict.mem. by destruct (Dict.get k d). Qed.

Section SaveReset.
Context {W : Type} `{Services W}.

Lemma on_save_change_pending (row : Row) (candidate : string) (rt : Runtime W) :
  pending_changes (session (snd (on_save_change row candidate rt)))
  = Dict.set (Full_Path row) candidate (pending_changes (session rt)).
Proof.
  unfold on_save_change, bind, modify, save_state_to_supabase. simpl.
  by destruct (supabase_save_state _ _ _).
Qed.

Lemma on_reset_pending (row : Row) (rt : Runtime W) :
  Dict.get (Full_Path row) (pending_changes (session (snd (on_reset row rt)))) = None.
Proof.
  unfold on_reset, bind, modify, save_state_to_supabase. simpl.
  destruct (supabase_save_state _ _ _). simpl.
  destruct (Dict.mem _ _) eqn:Hmem; simpl.
  - apply dict_get_del.
  - by apply dict_mem_false.
Qed.

Lemma preserves_df_on_previous : preserves df on_previous.
Proof. unfold on_previous. frame. Qed.

Lemma preserves_df_on_next (n : Z) : preserves df (on_next n).
Proof. unfold on_next. frame. Qed.

Lemma preserves_df_on_save_change row candidate :
  preserves df (on_save_change row candidate).
Proof. unfold on_save_change. frame. Qed.

Lemma preserves_df_on_reset row : preserves df (on_reset row).
Proof.
  unfold on_reset. frame. apply preserves_modify. intros s. by case_match.
Qed.

Lemma preserves_df_on_clear_all : preserves df on_clear_all.
Proof. unfold on_clear_all. frame. Qed.

Lemma preserves_df_upload_to_supabase p b : preserves df (upload_to_supabase p b).
Proof. unfold upload_to_supabase. frame. Qed.

Lemma preserves_df_on_upload : preserves df on_upload.
Proof.
  unfold on_upload. apply preserves_bind; [frame|]. intros last_saved rt.
  destruct (truthy_opt last_saved && _).
  - apply (preserves_bind df (upload_to_supabase _ _) (fun _ => ret tt)).
    + apply preserves_df_upload_to_supabase.
    + intros _. apply preserves_ret.
  - done.
Qed.

Lemma keeps_of_preserves {A} d (m : M W A) : preserves df m -> keeps_table d m.
Proof. intros Hm rt Hd. by rewrite Hm. Qed.

Lemma keeps_bind {A B} d (m : M W A) (k : A -> M W B) :
  keeps_table d m -> (forall a, keeps_table d (k a)) -> keeps_table d (bind m k).
Proof.
  intros Hm Hk rt Hd. unfold bind. specialize (Hm rt Hd).
  destruct (m rt) as [[a|e|c] rt']; simpl in *; [by apply Hk|done..].
Qed.

(** With a table in the session the load step does nothing. *)
Lemma keeps_load_excel_step d xl : keeps_table d (load_excel_step xl : M W unit).
Proof. intros rt Hd. unfold load_excel_step, bind, gets. simpl. by rewrite Hd. Qed.

Lemma preserves_df_build_step creds :
  preserves df (build_drive_service_step creds : M W unit).
Proof.
  unfold build_drive_service_step. apply preserves_bind; [frame|].
  intros [svc|]; [frame|]. apply preserves_try; [|intros e; frame].
  apply preserves_bind; [|intros svc; frame].
  unfold call_global, build_drive_service_from_secrets.
  repeat case_match; frame.
Qed.

Lemma preserves_df_iloc rows i : preserves df (iloc rows i : M W Row).
Proof. unfold iloc. repeat case_match; frame. Qed.

(** A script run whose click is not one of the two flush buttons leaves a
    loaded table as it is. *)
Lemma main_flow_keeps_table (inp : Inputs) d :
  clicked inp <> Some BtnSaveBatch -> clicked inp <> Some BtnSaveAll ->
  keeps_table d (main_flow inp : M W unit).
Proof.
  intros Hbatch Hall.
  assert (button inp BtnSaveBatch = false) as Hb1 by by apply bool_decide_eq_false_2.
  assert (button inp BtnSaveAll = false) as Hb2 by by apply bool_decide_eq_false_2.
  unfold main_flow.
  destruct (credentials_file inp) as [|c creds];
    [destruct (excel_file inp); apply keeps_of_preserves; frame|].
  destruct (excel_file inp) as [xl|]; [|apply keeps_of_preserves; frame].
  unfold main_logic.
  apply keeps_bind; [apply keeps_of_preserves, preserves_df_build_step|]. intros _.
  apply keeps_bind; [apply keeps_of_preserves; frame|]. intros svc.
  apply keeps_bind; [apply keeps_load_excel_step|]. intros _.
  apply keeps_of_preserves.
  apply preserves_bind; [frame|]. intros [d0|]; [|frame; intros [?|]; frame].
  apply preserves_bind; [frame|]. intros [ir|]; [|frame].
  rewrite Hb1, Hb2.
  apply preserves_bind; [frame|]. intros _.
  apply preserves_bind; [apply preserves_when, preserves_df_on_previous|]. intros _.
  apply preserves_bind; [apply preserves_when, preserves_df_on_next|]. intros _.
  apply preserves_bind; [frame|]. intros i.
  apply preserves_bind; [unfold st_progress; repeat case_match; frame|]. intros _.
  apply preserves_bind; [apply preserves_df_iloc|]. intros row.
  apply preserves_bind; [by apply preserves_get_file_from_drive|]. intros res.
  apply preserves_bind; [frame|]. intros pending0.
  apply preserves_bind; [case_match; frame|]. intros _.
  apply preserves_bind; [frame|]. intros _.
  apply preserves_bind; [frame|]. intros pending.
  apply preserves_bind; [apply preserves_when, preserves_df_on_save_change|]. intros _.
  apply preserves_bind; [apply preserves_when, preserves_df_on_reset|]. intros _.
  apply preserves_bind; [frame|]. intros pending'.
  apply preserves_bind.
  { apply preserves_when. apply preserves_bind; [frame|]. intros _.
    cbv beta iota delta [when]. frame. }
  intros _.
  apply preserves_bind; [frame|]. intros _.
  apply preserves_bind; [frame|]. intros [|e p]; [frame|].
  apply preserves_bind; [cbv beta iota delta [when]; frame|]. intros _.
  apply preserves_bind; [apply preserves_when, preserves_df_on_upload|]. intros _.
  apply preserves_when, preserves_df_on_clear_all.
Qed.

(** C7. Saving an edit for a row stores the candidate under the row's
    [Full Path]; resetting the row afterwards leaves no entry under that
    key; the table is the same after the save and after the reset. None of
    the handlers other than the two flush buttons changes the table, nor
    does a resolution; and a whole script run whose click is not a flush
    button leaves a loaded table as it is. *)
Theorem C7_save_then_reset (row : Row) (candidate : string) (rt : Runtime W) :
  Dict.get (Full_Path row)
           (pending_changes (session (snd (on_save_change row candidate rt))))
    = Some candidate
  /\ Dict.get (Full_Path row)
       (pending_changes
          (session (snd (on_reset row (snd (on_save_change row candidate rt))))))
     = None
  /\ df (session (snd (on_save_change row candidate rt))) = df (session rt)
  /\ df (session (snd (on_reset row (snd (on_save_change row candidate rt)))))
     = df (session rt)
  /\ (preserves df on_previous /\ (forall n, preserves df (on_next n))
      /\ (forall r c, preserves df (on_save_change r c))
      /\ (forall r, preserves df (on_reset r))
      /\ preserves df on_upload /\ preserves df on_clear_all
      /\ (forall svc r, preserves df (get_file_from_drive svc r : M W Resolution))
      /\ (forall inp d, clicked inp <> Some BtnSaveBatch ->
                        clicked inp <> Some BtnSaveAll ->
                        keeps_table d (main_flow inp : M W unit))).
Proof.
  split_and!.
  - rewrite on_save_change_pending. apply dict_get_set.
  - apply on_reset_pending.
  - apply preserves_df_on_save_change.
  - rewrite preserves_df_on_reset. apply preserves_df_on_save_change.
  - apply preserves_df_on_previous.
  - apply preserves_df_on_next.
  - apply preserves_df_on_save_change.
  - apply preserves_df_on_reset.
  - apply preserves_df_on_upload.
  - apply preserves_df_on_clear_all.
  - intros svc r. by apply preserves_get_file_from_drive.
  - intros inp d. apply main_flow_keeps_table.
Qed.

End SaveReset.

(** ** C10: uploading before any flush *)

Section Upload.
Context {W : Type} `{Services W}.

(** C10. When the session records no last saved file, or the file it
    records is not on disk, the upload button shows the warning and nothing
    else happens: the outcome is normal, the world and the session are
    untouched, and the only event added is the warning, so neither the
    removal nor the upload call of the bucket is made. *)
Theorem C10_upload_without_saved_file (rt : Runtime W) :
  (last_saved_file (session rt) = None
   \/ exists p, last_saved_file (session rt) = Some p
                /\ path_exists p (world rt) = false) ->
  on_upload rt
  = (Ok tt,
     with_trace
       (trace rt ++ [EvUi UiWarning "Please save an Excel file first before uploading."])
       rt)
  /\ Forall (fun ev => is_storage_call ev = false)
            (drop (length (trace rt)) (trace (snd (on_upload rt)))).
Proof.
  intros Hcase.
  assert (on_upload rt
          = (Ok tt,
             with_trace
               (trace rt ++ [EvUi UiWarning "Please save an Excel file first before uploading."])
               rt)) as Hrun.
  { unfold on_upload, bind, gets. simpl.
    destruct Hcase as [Hnone | (p & Hp & Hmissing)].
    - rewrite Hnone. done.
    - rewrite Hp. simpl. rewrite Hmissing, andb_false_r. done. }
  split; [done|].
  rewrite Hrun. simpl. rewrite drop_app_length. by repeat constructor.
Qed.

End Upload.

(** C10 for a session that records a file name with no such file on disk. *)
Lemma C10_upload_without_saved_file_witness :
  on_upload (Demo.start Demo.empty_world
               (with_last_saved_file (Some default_excel_filename) initial_session))
  = (Ok tt,
     with_trace
       [EvUi UiWarning "Please save an Excel file first before uploading."]
       (Demo.start Demo.empty_world
          (with_last_saved_file (Some default_excel_filename) initial_session))).
Proof.
  refine (proj1 (C10_upload_without_saved_file
                   (Demo.start Demo.empty_world
                      (with_last_saved_file (Some default_excel_filename)
                                            initial_session)) _)).
  right. exists default_excel_filename. split; reflexivity.
Defined.

(** With a flushed file on disk the same button does reach the bucket. *)
Example upload_after_flush_calls_bucket :
  trace (snd (on_upload
                (Demo.start (Demo.write default_excel_filename Demo.empty_world)
                   (with_last_saved_file (Some default_excel_filename)
                                         initial_session))))
  = [EvSupabaseClient;
     EvStorageRemove "renamed_excel" default_excel_filename;
     EvUi UiInfo "Removed existing file: Updated_Clients_Rename_Log.xlsx";
     EvOpenRead default_excel_filename;
     EvStorageUpload "renamed_excel" default_excel_filename;
     EvUi UiSuccess
       "File successfully uploaded to Supabase: Updated_Clients_Rename_Log.xlsx"].
Proof. reflexivity. Qed.

(** ** C2: the Drive service is never built *)

Section Auth.
Context {W : Type} `{Services W}.

Lemma build_drive_service_unbound : "build_drive_service" ∉ module_globals.
Proof. apply (bool_decide_unpack _). vm_compute. exact I. Qed.

Lemma call_global_unbound (creds : list (string * string)) (rt : Runtime W) :
  call_global "build_drive_service" creds rt
  = (Raise (name_error "build_drive_service"), rt).
Proof.
  unfold call_global.
  rewrite (bool_decide_eq_false_2 _ build_drive_service_unbound). done.
Qed.

Lemma build_step_stops (creds : list (string * string)) (rt : Runtime W) :
  drive_service (session rt) = None ->
  build_drive_service_step creds rt = (Halt CStop, auth_error_shown rt).
Proof.
  intros Hnone. unfold build_drive_service_step, bind at 1, gets. simpl.
  rewrite Hnone. unfold try_except, bind at 1.
  rewrite call_global_unbound. done.
Qed.

Lemma main_flow_stops (inp : Inputs) (xl : Upload) (rt : Runtime W) :
  drive_service (session rt) = None ->
  credentials_file inp <> [] -> excel_file inp = Some xl ->
  main_flow inp rt = (Halt CStop, auth_error_shown rt).
Proof.
  intros Hnone Hcreds Hxl. unfold main_flow. rewrite Hxl.
  destruct (credentials_file inp) as [|c creds] eqn:Hc; [done|].
  unfold main_logic, bind at 1. rewrite Hc, build_step_stops by done. done.
Qed.

Lemma main_flow_without_service (inp : Inputs) (rt : Runtime W) :
  drive_service (session rt) = None ->
  session (snd (main_flow inp rt)) = session rt
  /\ world (snd (main_flow inp rt)) = world rt
  /\ Forall (fun ev => is_drive_call ev = false)
            (drop (length (trace rt)) (trace (snd (main_flow inp rt)))).
Proof.
  intros Hnone.
  destruct (excel_file inp) as [xl|] eqn:Hxl;
    destruct (credentials_file inp) as [|c creds] eqn:Hc.
  - unfold main_flow. rewrite Hxl, Hc. simpl.
    rewrite drop_app_length. by repeat constructor.
  - rewrite (main_flow_stops inp xl) by (done || by rewrite Hc). simpl.
    rewrite drop_app_length. by repeat constructor.
  - unfold main_flow. rewrite Hxl, Hc. simpl.
    rewrite drop_app_length. by repeat constructor.
  - unfold main_flow. rewrite Hxl, Hc. simpl.
    rewrite drop_app_length. by repeat constructor.
Qed.

Lemma runs_without_service (inputs : list Inputs) (rt : Runtime W) :
  drive_service (session rt) = None ->
  session (runs inputs rt) = session rt /\ world (runs inputs rt) = world rt.
Proof.
  revert rt. induction inputs as [|inp inputs IH]; intros rt Hnone; [done|].
  destruct (main_flow_without_service inp rt Hnone) as (Hs & Hw & _).
  simpl. destruct (IH (snd (main_flow inp rt))) as [Hs' Hw'].
  - by rewrite Hs.
  - by rewrite Hs', Hw', Hs, Hw.
Qed.

(** C2. In a session whose [drive_service] is [None] (the initialisation
    sets it so, and the only assignment to it is the failing one), for
    every credentials value: looking up [build_drive_service] raises
    [NameError]; the construction step shows the auth error and stops the
    run; a run with credentials and a spreadsheet ends there; and over any
    series of runs the session stays as it is, so no table is loaded, no
    row is flagged, and the world is never contacted. *)
Theorem C2_drive_service_never_built (inp : Inputs) (rt : Runtime W) :
  drive_service (session rt) = None ->
  call_global "build_drive_service" (credentials_file inp) rt
    = (Raise (name_error "build_drive_service"), rt)
  /\ build_drive_service_step (credentials_file inp) rt
     = (Halt CStop, auth_error_shown rt)
  /\ (forall xl, credentials_file inp <> [] -> excel_file inp = Some xl ->
        main_flow inp rt = (Halt CStop, auth_error_shown rt))
  /\ (forall inputs : list Inputs,
        session (runs inputs rt) = session rt
        /\ world (runs inputs rt) = world rt
        /\ df (session (runs inputs rt)) = df (session rt)
        /\ invalid_rows (session (runs inputs rt)) = invalid_rows (session rt)).
Proof.
  intros Hnone. split_and!.
  - apply call_global_unbound.
  - by apply build_step_stops.
  - intros xl Hc Hxl. by apply (main_flow_stops inp xl).
  - intros inputs. destruct (runs_without_service inputs rt Hnone) as [Hs Hw].
    by rewrite Hs, Hw.
Qed.

End Auth.

(** C2 for the first run of a new session, with credentials and a
    spreadsheet. *)
Lemma C2_drive_service_never_built_witness :
  main_flow
    (mkInputs [("type", "service_account")]
              (Some (mkUpload required_cols [Demo.row1; Demo.row2]))
              None (fun _ => None))
    (Demo.start Demo.empty_world initial_session)
  = (Halt CStop,
     auth_error_shown (Demo.start Demo.empty_world initial_session)).
Proof.
  refine (proj1 (proj2 (proj2
    (C2_drive_service_never_built
       (mkInputs [("type", "service_account")]
                 (Some (mkUpload required_cols [Demo.row1; Demo.row2]))
                 None (fun _ => None))
       (Demo.start Demo.empty_world initial_session) _)))
    (mkUpload required_cols [Demo.row1; Demo.row2]) _ _);
    [reflexivity | discriminate | reflexivity].
Defined.

(** The function that is defined does build a service. *)
Example build_from_secrets_builds :
  fst (build_drive_service_from_secrets [("type", "service_account")]
         (Demo.start Demo.empty_world initial_session))
  = Ok (ServiceFor [("type", "service_account")]).
Proof. reflexivity. Qed.

(** Once a service is in the session a run goes on to the table. *)
Example run_with_service_loads_rows :
  rows_loaded
    (session (snd (main_flow
       (mkInputs [("type", "service_account")]
                 (Some (mkUpload required_cols [Demo.row1; Demo.row2]))
                 None (fun _ => None))
       (Demo.start Demo.empty_world
          (with_drive_service Demo.service initial_session)))))
  = true.
Proof. vm_compute. reflexivity. Qed.

(** ** C6: the candidate name *)

Section Candidate.

Lemma edited_parts_length typed parts : length (edited_parts typed parts) = 7%nat.
Proof. unfold edited_parts. by rewrite length_imap. Qed.

Lemma edited_parts_lookup typed parts (i : nat) (field : string) :
  fields !! i = Some field ->
  edited_parts typed parts !! i
  = Some (if needs_update field (part_at parts i)
          then text_input (typed i) (part_at parts i)
          else part_at parts i).
Proof. intros Hi. unfold edited_parts. by rewrite list_lookup_imap, Hi. Qed.

Lemma padded_parts_free name : Forall underscore_free (padded_parts name).
Proof.
  unfold padded_parts. apply Forall_app. split.
  - apply split_pieces_free.
  - by apply Forall_replicate.
Qed.

Lemma part_at_free parts (i : nat) :
  Forall underscore_free parts -> underscore_free (part_at parts i).
Proof.
  intros Hfree. unfold part_at.
  destruct (parts !! i) as [p|] eqn:Hp; simpl; [|done].
  by eapply Forall_lookup_1.
Qed.

Lemma edited_parts_free typed parts :
  Forall underscore_free parts ->
  (forall i v, typed i = Some v -> underscore_free v) ->
  Forall underscore_free (edited_parts typed parts).
Proof.
  intros Hparts Htyped. apply Forall_lookup. intros i p Hp.
  destruct (fields !! i) as [field|] eqn:Hf.
  - rewrite (edited_parts_lookup _ _ _ _ Hf) in Hp. injection Hp as <-.
    destruct (needs_update _ _); [|by apply part_at_free].
    unfold text_input. destruct (typed i) as [v|] eqn:Hv; simpl.
    + by eapply Htyped.
    + by apply part_at_free.
  - unfold edited_parts in Hp. by rewrite list_lookup_imap, Hf in Hp.
Qed.

(** C6, as the code has it. The candidate is the underscore-join of exactly
    seven parts, one per field in the order Brand, Campaign, Channel, Asset,
    Format, Version, Date. A field whose current value, with surrounding
    whitespace stripped, differs from its own placeholder name after
    [lower()] is locked: its part is the current value whatever is typed.
    An open field's part is what the widget returns. When nothing typed
    contains an underscore, splitting the candidate on underscores gives
    those seven parts back, so the candidate has exactly seven fields. *)
Theorem C6_candidate_parts (typed : nat -> option string)
    (pending : list (string * string)) (row : Row) :
  new_proposed typed pending row
  = PyStr.join "_" (edited_parts typed (padded_parts (current_name pending row)))
  /\ length (edited_parts typed (padded_parts (current_name pending row))) = 7%nat
  /\ (forall (i : nat) (field : string),
        ["Brand"; "Campaign"; "Channel"; "Asset"; "Format"; "Version"; "Date"] !! i
          = Some field ->
        PyStr.lower (PyStr.strip (part_at (padded_parts (current_name pending row)) i))
          <> PyStr.lower field ->
        forall typed' : nat -> option string,
          edited_parts typed' (padded_parts (current_name pending row)) !! i
          = Some (part_at (padded_parts (current_name pending row)) i))
  /\ (forall (i : nat) (field : string),
        fields !! i = Some field ->
        PyStr.lower (PyStr.strip (part_at (padded_parts (current_name pending row)) i))
          = PyStr.lower field ->
        edited_parts typed (padded_parts (current_name pending row)) !! i
        = Some (text_input (typed i)
                  (part_at (padded_parts (current_name pending row)) i)))
  /\ ((forall (i : nat) (v : string), typed i = Some v -> PyStr.contains "_" v = false) ->
      PyStr.split "_" (new_proposed typed pending row)
      = edited_parts typed (padded_parts (current_name pending row))).
Proof.
  split_and!.
  - done.
  - apply edited_parts_length.
  - intros i field Hf Hne typed'.
    rewrite (edited_parts_lookup _ _ _ _ Hf).
    unfold needs_update. apply String.eqb_neq in Hne. by rewrite Hne.
  - intros i field Hf Heq.
    rewrite (edited_parts_lookup _ _ _ _ Hf).
    unfold needs_update. apply String.eqb_eq in Heq. by rewrite Heq.
  - intros Htyped. unfold new_proposed. apply split_join.
    + intros Hnil. pose proof (edited_parts_length typed
        (padded_parts (current_name pending row))) as Hlen.
      by rewrite Hnil in Hlen.
    + apply edited_parts_free; [apply padded_parts_free|done].
Qed.

End Candidate.

(** C6 as first stated fails on two counts. The operator's entry may itself
    contain an underscore, and then the candidate has eight fields; and a value that differs from its
    placeholder only by surrounding whitespace is open for editing although
    it is not equal to the placeholder after [lower()]. Both rows are
    flagged. *)
Lemma C6_counterexample :
  has_placeholder (Proposed_New_Name Demo.row1) = true
  /\ new_proposed (Demo.types 0 "Acme_Corp") [] Demo.row1
     = "Acme_Corp_Campaign_Channel_Asset_Format_Version_Date"
  /\ length (PyStr.split "_" (new_proposed (Demo.types 0 "Acme_Corp") [] Demo.row1))
     = 8%nat
  /\ has_placeholder " Brand_Campaign_x" = true
  /\ PyStr.lower (part_at (padded_parts " Brand_Campaign_x") 0) <> PyStr.lower "Brand"
  /\ edited_parts (Demo.types 0 "Acme") (padded_parts " Brand_Campaign_x") !! 0%nat
     = Some "Acme".
Proof. split_and!; (reflexivity || discriminate). Qed.

(** The example of the specification: Brand edited to Acme, the rest left. *)
Example candidate_brand_to_acme :
  new_proposed (Demo.types 0 "Acme") [] Demo.row1
  = "Acme_Campaign_Channel_Asset_Format_Version_Date".
Proof. reflexivity. Qed.

(** A flagged row none of whose fields is open: the placeholder sits in
    another field's position. *)
Example candidate_all_locked :
  has_placeholder "Acme_Brand_Web" = true
  /\ forall typed, new_proposed typed [] (set_Proposed_New_Name "Acme_Brand_Web" Demo.row1)
                   = "Acme_Brand_Web____".
Proof. split; [reflexivity|]. intros typed. reflexivity. Qed.

(** ** C3: the flush *)

Section FlushTable.

Implicit Types (d t : list Row) (w m : list bool) (p : list (string * string)).

Lemma mask_sum_nil : mask_sum [] = 0.
Proof. done. Qed.






Lemma length_entry_mask d key : length (entry_mask d key) = length d.
Proof. unfold entry_mask. case_match; by rewrite length_map. Qed.

Lemma length_loc_assign d m v :
  length m = length d -> length (loc_assign d m v) = length d.
Proof. intros Hlen. unfold loc_assign. rewrite length_zip_with. lia. Qed.

Lemma lookup_loc_assign d m v (i : nat) (r : Row) (b : bool) :
  d !! i = Some r -> m !! i = Some b ->
  loc_assign d m v !! i = Some (if b then set_Proposed_New_Name v r else r).
Proof.
  intros Hd Hm. unfold loc_assign. by rewrite lookup_zip_with, Hd; simpl; rewrite Hm.
Qed.

(** The assignment touches the [Proposed New Name] column only. *)
Lemma loc_assign_keys d m v :
  length m = length d ->
  map Full_Path (loc_assign d m v) = map Full_Path d
  /\ map Original_Name (loc_assign d m v) = map Original_Name d.
Proof.
  revert m. induction d as [|r d IH]; intros [|b m] Hlen; try done.
  simpl in *. destruct (IH m) as [HF HO]; [lia|].
  unfold loc_assign in *. rewrite HF, HO. by destruct b.
Qed.

(** The mask of an entry reads the two key columns only. *)
Lemma entry_mask_keys d t key :
  map Full_Path t = map Full_Path d ->
  map Original_Name t = map Original_Name d ->
  entry_mask t key = entry_mask d key.
Proof.
  intros HF HO. unfold entry_mask.
  assert (forall col : Row -> string, map col t = map col d ->
            map (fun r => String.eqb (col r) key) t
            = map (fun r => String.eqb (col r) key) d) as Hcol.
  { intros col Hc.
    rewrite <- (map_map col (fun s => String.eqb s key) t).
    rewrite <- (map_map col (fun s => String.eqb s key) d). by rewrite Hc. }
  by rewrite (Hcol Full_Path HF), (Hcol Original_Name HO).
Qed.



Lemma table_after_keys d p t :
  length t = length d ->
  map Full_Path t = map Full_Path d -> map Original_Name t = map Original_Name d ->
  length (table_after d p t) = length d
  /\ map Full_Path (table_after d p t) = map Full_Path d
  /\ map Original_Name (table_after d p t) = map Original_Name d.
Proof.
  revert t. induction p as [|[k v] p IH]; intros t Hlen HF HO; [done|].
  simpl. pose proof (length_entry_mask d k) as Hm.
  destruct (loc_assign_keys t (entry_mask d k) v) as [HF' HO']; [congruence|].
  apply IH.
  - rewrite length_loc_assign; congruence.
  - congruence.
  - congruence.
Qed.

Lemma fold_apply_entry d p t w :
  length t = length d ->
  map Full_Path t = map Full_Path d -> map Original_Name t = map Original_Name d ->
  fold_left apply_entry p (t, w) = (table_after d p t, written_after d p w).
Proof.
  revert t w. induction p as [|[k v] p IH]; intros t w Hlen HF HO; [done|].
  simpl. rewrite (entry_mask_keys d t k HF HO).
  pose proof (length_entry_mask d k) as Hm.
  destruct (loc_assign_keys t (entry_mask d k) v) as [HF' HO']; [congruence|].
  apply IH.
  - rewrite length_loc_assign; congruence.
  - congruence.
  - congruence.
Qed.

Lemma apply_pending_changes_unfold d p :
  apply_pending_changes d p
  = (table_after d p d, written_after d p (replicate (length d) false)).
Proof. unfold apply_pending_changes. by apply fold_apply_entry. Qed.









End FlushTable.

Section FlushHandler.
Context {W : Type} `{Services W}.



End FlushHandler.



(** The fallback: a key that is no row's [Full Path] but is a row's
    [Original Name]. *)
Example flush_falls_back_to_original_name :
  map Proposed_New_Name
      (flushed_table [Demo.row1; Demo.row2] [("intro.mp4", "Acme_Intro")])
  = ["Brand_Campaign_Channel_Asset_Format_Version_Date"; "Acme_Intro"].
Proof. reflexivity. Qed.

(** The example of the specification, end to end: the candidate saved for
    the row is what the flush writes into the table. *)
Example save_then_flush_writes_candidate :
  let saved :=
    snd (on_save_change Demo.row1 (new_proposed (Demo.types 0 "Acme") [] Demo.row1)
           (Demo.start Demo.empty_world initial_session)) in
  map Proposed_New_Name
      <$> df (session (snd (on_save_all [Demo.row1; Demo.row2] saved)))
  = Some ["Acme_Campaign_Channel_Asset_Format_Version_Date";
          "Acme_Launch_Web_Video_MP4_V1_20240101"].
Proof. vm_compute. reflexivity. Qed.

(** ** Outcomes of script fragments *)

Section OutcomeRules.
Context {W : Type} `{Services W}.

Lemma returns_ret {A} (a : A) (Q : A -> Prop) : Q a -> returns (ret a : M W A) Q.
Proof. intros Ha rt. by exists a, rt. Qed.

Lemma returns_bind {A B} (m : M W A) (k : A -> M W B) (P : A -> Prop)
    (Q : B -> Prop) :
  returns m P -> (forall a, P a -> returns (k a) Q) -> returns (bind m k) Q.
Proof.
  intros Hm Hk rt. destruct (Hm rt) as (a & rt1 & Hrun & Ha).
  destruct (Hk a Ha rt1) as (b & rt2 & Hrun2 & Hb).
  exists b, rt2. unfold bind. by rewrite Hrun.
Qed.

Lemma returns_weaken {A} (m : M W A) (P Q : A -> Prop) :
  returns m P -> (forall a, P a -> Q a) -> returns m Q.
Proof.
  intros Hm HPQ rt. destruct (Hm rt) as (a & rt' & Hrun & Ha).
  exists a, rt'. auto.
Qed.

Lemma returns_if {A} (b : bool) (m1 m2 : M W A) (Q : A -> Prop) :
  returns m1 Q -> returns m2 Q -> returns (if b then m1 else m2) Q.
Proof. by destruct b. Qed.

Lemma returns_completes {A} (m : M W A) (Q : A -> Prop) :
  returns m Q -> completes_or_raises m Q.
Proof. intros Hm rt. destruct (Hm rt) as (a & rt' & -> & Ha). done. Qed.

Lemma completes_raise {A} e (Q : A -> Prop) : completes_or_raises (raise e : M W A) Q.
Proof. by intros rt. Qed.

Lemma completes_call {A} ev (f : W -> (Exc + A) * W) :
  completes_or_raises (call ev f) (fun _ => True).
Proof. intros rt. unfold call. by destruct (f (world rt)) as [[e|a] w']. Qed.

Lemma completes_bind {A B} (m : M W A) (k : A -> M W B) (P : A -> Prop)
    (Q : B -> Prop) :
  completes_or_raises m P -> (forall a, P a -> completes_or_raises (k a) Q) ->
  completes_or_raises (bind m k) Q.
Proof.
  intros Hm Hk rt. unfold bind. specialize (Hm rt).
  destruct (m rt) as [[a|e|c] rt1]; [|done..]. by apply Hk.
Qed.

(** [try: m  except Exception: handler] completes normally when the handler
    does. *)
Lemma returns_try {A} (m : M W A) (h : Exc -> M W A) (Q : A -> Prop) :
  completes_or_raises m Q -> (forall e, returns (h e) Q) ->
  returns (try_except m h) Q.
Proof.
  intros Hm Hh rt. unfold try_except. specialize (Hm rt).
  destruct (m rt) as [[a|e|c] rt1]; [|apply Hh|done].
  by exists a, rt1.
Qed.

(** A cached function completes normally when its body does. *)
Lemma returns_cache_data {K V} `{Countable K} ttl
    (memo : Runtime W -> gmap K (V * Z)) set_memo (k : K) (body : M W V) :
  returns body (fun _ => True) ->
  returns (cache_data ttl memo set_memo k body) (fun _ => True).
Proof.
  intros Hbody rt. unfold cache_data.
  destruct (Hbody rt) as (v & rt1 & Hrun & _). rewrite Hrun.
  destruct (memo rt !! k) as [[v0 t]|]; [|by eauto].
  destruct (clock (world rt) - t <? ttl); by eauto.
Qed.

End OutcomeRules.

(** ** The Drive helpers never raise *)

Section Helpers.
Context {W : Type} `{Services W}.

Lemma completes_drive_files_list svc q fields pageSize :
  completes_or_raises (drive_files_list svc q fields pageSize) (fun _ => True).
Proof. destruct svc; [apply completes_call|apply completes_raise]. Qed.

Lemma completes_drive_files_get svc file_id :
  completes_or_raises (drive_files_get svc file_id) (fun _ => True).
Proof. destruct svc; [apply completes_call|apply completes_raise]. Qed.

Lemma returns_find_folder_id_body svc name parent :
  returns (find_folder_id_body svc name parent) (fun _ => True).
Proof.
  apply returns_try; [|intros e; by apply returns_ret].
  eapply completes_bind; [apply completes_drive_files_list|].
  intros [|item items] _; apply returns_completes; by apply returns_ret.
Qed.

Lemma returns_find_folder_id svc name parent :
  returns (find_folder_id svc name parent) (fun _ => True).
Proof. apply returns_cache_data, returns_find_folder_id_body. Qed.

Lemma returns_get_file_in_folder_body svc parent filename :
  returns (get_file_in_folder_body svc parent filename) (fun _ => True).
Proof.
  apply returns_try; [|intros e; by apply returns_ret].
  eapply completes_bind; [apply completes_drive_files_list|].
  intros [|item items] _; apply returns_completes; by apply returns_ret.
Qed.

Lemma returns_get_file_in_folder svc parent filename :
  returns (get_file_in_folder svc parent filename) (fun _ => True).
Proof. apply returns_cache_data, returns_get_file_in_folder_body. Qed.

Lemma completes_next_chunks s file_id more :
  completes_or_raises (next_chunks s file_id more) (fun _ => True).
Proof.
  induction more as [|more IH]; simpl.
  - eapply completes_bind; [apply completes_call|].
    intros _ _. apply returns_completes. by apply returns_ret.
  - eapply completes_bind; [apply completes_call|]. intros _ _. apply IH.
Qed.

Lemma completes_download_loop svc file_id :
  completes_or_raises (download_loop svc file_id) (fun _ => True).
Proof.
  destruct svc as [s|]; [|apply completes_raise].
  intros rt. apply completes_next_chunks.
Qed.

Lemma returns_download_file_to_temp svc file_id hint :
  returns (download_file_to_temp svc file_id hint) (fun _ => True).
Proof.
  apply returns_try; [|intros e; by apply returns_ret].
  unfold download_attempt.
  eapply completes_bind; [apply completes_drive_files_get|]. intros meta _.
  eapply completes_bind; [apply completes_call|]. intros tmp _.
  eapply completes_bind; [apply completes_download_loop|]. intros _ _.
  apply returns_completes. by apply returns_ret.
Qed.

Lemma returns_descend_base svc segs parent :
  returns (descend_base svc segs parent) (fun _ => True).
Proof.
  revert parent. induction segs as [|seg rest IH]; intros parent; simpl.
  - by apply returns_ret.
  - eapply returns_bind; [apply returns_find_folder_id|]. intros found _.
    eapply returns_bind.
    + apply returns_if; [apply returns_find_folder_id|by apply returns_ret].
    + intros parent' _. apply returns_if; [by apply returns_ret|apply IH].
Qed.

Lemma returns_descend_path svc segs parent :
  returns (descend_path svc segs parent) (fun _ => True).
Proof.
  revert parent. induction segs as [|seg rest IH]; intros parent; simpl.
  - by apply returns_ret.
  - eapply returns_bind; [apply returns_find_folder_id|]. intros folder_id _.
    apply returns_if; [apply IH|by apply returns_ret].
Qed.

Lemma resolved_found item d : negative_or_found (resolved item d).
Proof. right. destruct d as [[[tmp mime_] name] link]. simpl. by eexists. Qed.

Lemma returns_search_anywhere svc name res :
  negative_or_found res ->
  returns (search_anywhere svc name res) negative_or_found.
Proof.
  intros Hres. unfold search_anywhere.
  destruct (file_meta res) as [item|]; [by apply returns_ret|].
  eapply returns_bind.
  - apply returns_try with (Q := fun _ => True); [|intros e; by apply returns_ret].
    eapply completes_bind; [apply completes_drive_files_list|].
    intros items _. apply returns_completes. by apply returns_ret.
  - intros [item|] _; [|by apply returns_ret].
    apply returns_try.
    + eapply completes_bind.
      * apply returns_completes, returns_download_file_to_temp.
      * intros d _. apply returns_completes, returns_ret, resolved_found.
    + intros e. apply returns_ret, resolved_found.
Qed.

Lemma returns_locate_file svc row :
  returns (locate_file svc row) negative_or_found.
Proof.
  unfold locate_file.
  eapply returns_bind; [apply returns_descend_base|]. intros p1 _.
  eapply returns_bind.
  { apply returns_if; [apply returns_find_folder_id|by apply returns_ret]. }
  intros p2 _.
  eapply returns_bind.
  { apply returns_if; [apply returns_descend_path|by apply returns_ret]. }
  intros p3 _.
  eapply returns_bind with (P := negative_or_found).
  { apply returns_if; [|apply returns_ret; by left].
    eapply returns_bind; [apply returns_get_file_in_folder|].
    intros [item|] _; [|apply returns_ret; by left].
    eapply returns_bind; [apply returns_download_file_to_temp|].
    intros d _. apply returns_ret, resolved_found. }
  intros r1 Hr1.
  eapply returns_bind; [by apply returns_search_anywhere|].
  intros r2 Hr2. by apply returns_search_anywhere.
Qed.

(** An uncached resolution completes normally and stores what it returns
    under the row's key. *)
Lemma resolve_uncached_stores svc row (rt : Runtime W) :
  exists r rt', resolve_uncached svc row rt = (Ok r, rt')
                /\ negative_or_found r
                /\ file_cache (session rt') !! cache_key row = Some r.
Proof.
  destruct (returns_locate_file svc row rt) as (r & rt1 & Hrun & Hr).
  exists r. eexists. unfold resolve_uncached, bind. rewrite Hrun. simpl.
  split_and!; [done|done|]. simpl. apply lookup_insert_eq.
Qed.

Lemma get_file_from_drive_hit svc row (rt : Runtime W) cached :
  file_cache (session rt) !! cache_key row = Some cached ->
  get_file_from_drive svc row rt = (Ok cached, rt).
Proof.
  intros Hhit. unfold get_file_from_drive, bind, gets. simpl. by rewrite Hhit.
Qed.

Lemma get_file_from_drive_miss svc row (rt : Runtime W) :
  file_cache (session rt) !! cache_key row = None ->
  get_file_from_drive svc row rt = resolve_uncached svc row rt.
Proof.
  intros Hmiss. unfold get_file_from_drive, bind, gets. simpl. by rewrite Hmiss.
Qed.

End Helpers.

(** ** C5: the resolver never raises *)

Section Resolver.
Context {W : Type} `{Services W}.

Lemma find_folder_id_body_failure (s : Service) name parent (rt : Runtime W) e w' :
  files_list s (folder_query name parent) "files(id, name)" 5 (world rt) = (inl e, w') ->
  fst (find_folder_id_body (Some s) name parent rt) = Ok None.
Proof.
  intros Hfail. unfold find_folder_id_body, try_except, bind, drive_files_list, call.
  by rewrite Hfail.
Qed.

Lemma get_file_in_folder_body_failure (s : Service) parent filename
    (rt : Runtime W) e w' :
  files_list s (file_in_folder_query parent filename)
             "files(id, name, mimeType, webViewLink)" 10 (world rt) = (inl e, w') ->
  fst (get_file_in_folder_body (Some s) parent filename rt) = Ok None.
Proof.
  intros Hfail.
  unfold get_file_in_folder_body, try_except, bind, drive_files_list, call.
  by rewrite Hfail.
Qed.

Lemma search_anywhere_failure (s : Service) name res (rt : Runtime W) e w' :
  file_meta res = None ->
  files_list s (file_query name) "files(id, name, mimeType, webViewLink)" 5 (world rt)
    = (inl e, w') ->
  fst (search_anywhere (Some s) name res rt) = Ok res.
Proof.
  intros Hnone Hfail.
  unfold search_anywhere, try_except, bind, drive_files_list, call.
  by rewrite Hnone, Hfail.
Qed.

Lemma download_failure svc file_id hint (rt rt' : Runtime W) e :
  download_attempt svc file_id hint rt = (Raise e, rt') ->
  download_file_to_temp svc file_id hint rt = (Ok no_download, rt').
Proof. intros Hfail. unfold download_file_to_temp, try_except. by rewrite Hfail. Qed.

Lemma download_attempt_first_failure (s : Service) file_id hint (rt : Runtime W) e w' :
  files_get s file_id (world rt) = (inl e, w') ->
  exists rt', download_attempt (Some s) file_id hint rt = (Raise e, rt').
Proof.
  intros Hfail. unfold download_attempt, bind, drive_files_get, call.
  rewrite Hfail. by eexists.
Qed.

Lemma bind_assoc {A B C} (m : M W A) (f : A -> M W B) (g : B -> M W C)
    (rt : Runtime W) :
  bind (bind m f) g rt = bind m (fun a => bind (f a) g) rt.
Proof. unfold bind. by destruct (m rt) as [[a|e|c] rt1]. Qed.

Lemma bind_ext {A B} (m : M W A) (f g : A -> M W B) :
  (forall a rt, f a rt = g a rt) -> forall rt, bind m f rt = bind m g rt.
Proof.
  intros Hfg rt. unfold bind. destruct (m rt) as [[a|e|c] rt1]; [|done..].
  apply Hfg.
Qed.

(** The resolution as its steps. *)
Lemma locate_file_steps svc row (rt : Runtime W) :
  locate_file svc row rt
  = (let* parent_id := resolve_parent svc row in
     let* res := lookup_in_folder svc parent_id (filename_guess row) in
     let* res := search_anywhere svc (filename_guess row) res in
     search_anywhere svc (Original_Name row) res) rt.
Proof.
  unfold locate_file, resolve_parent.
  rewrite bind_assoc. apply bind_ext. intros p1 rt1.
  rewrite bind_assoc. apply bind_ext. intros p2 rt2.
  apply bind_ext. intros p3 rt3. reflexivity.
Qed.

Lemma lookup_in_folder_rules svc name :
  (forall parent_id (rt : Runtime W),
     truthy_opt parent_id = false ->
     lookup_in_folder svc parent_id name rt = (Ok negative, rt))
  /\ (forall parent_id (rt rt1 : Runtime W),
        truthy_opt parent_id = true ->
        get_file_in_folder svc (default EmptyString parent_id) name rt
          = (Ok None, rt1) ->
        lookup_in_folder svc parent_id name rt = (Ok negative, rt1))
  /\ (forall parent_id (rt rt1 rt2 : Runtime W) item tmp mime_ actual link,
        truthy_opt parent_id = true ->
        get_file_in_folder svc (default EmptyString parent_id) name rt
          = (Ok (Some item), rt1) ->
        download_file_to_temp svc (fi_id item) name rt1
          = (Ok (tmp, mime_, actual, link), rt2) ->
        lookup_in_folder svc parent_id name rt
        = (Ok (mkResolution (Some item) tmp mime_ actual link), rt2)).
Proof.
  split_and!.
  - intros parent_id rt Hp. unfold lookup_in_folder. by rewrite Hp.
  - intros parent_id rt rt1 Hp Hfind. unfold lookup_in_folder, bind.
    by rewrite Hp, Hfind.
  - intros parent_id rt rt1 rt2 item tmp mime_ actual link Hp Hfind Hdown.
    unfold lookup_in_folder, bind. by rewrite Hp, Hfind, Hdown.
Qed.

Lemma search_anywhere_rules svc name :
  (forall res (rt : Runtime W),
     is_Some (file_meta res) -> search_anywhere svc name res rt = (Ok res, rt))
  /\ (forall res (rt rt1 : Runtime W) e,
        file_meta res = None ->
        drive_files_list svc (file_query name)
          "files(id, name, mimeType, webViewLink)" 5 rt = (Raise e, rt1) ->
        search_anywhere svc name res rt = (Ok res, rt1))
  /\ (forall res (rt rt1 : Runtime W),
        file_meta res = None ->
        drive_files_list svc (file_query name)
          "files(id, name, mimeType, webViewLink)" 5 rt = (Ok [], rt1) ->
        search_anywhere svc name res rt = (Ok res, rt1))
  /\ (forall res (rt rt1 rt2 : Runtime W) item items tmp mime_ actual link,
        file_meta res = None ->
        drive_files_list svc (file_query name)
          "files(id, name, mimeType, webViewLink)" 5 rt
          = (Ok (item :: items), rt1) ->
        download_file_to_temp svc (fi_id item) name rt1
          = (Ok (tmp, mime_, actual, link), rt2) ->
        search_anywhere svc name res rt
        = (Ok (mkResolution (Some item) tmp mime_ actual link), rt2)).
Proof.
  split_and!.
  - intros res rt [item Hm]. unfold search_anywhere. by rewrite Hm.
  - intros res rt rt1 e Hm Hlist. unfold search_anywhere, try_except, bind.
    by rewrite Hm, Hlist.
  - intros res rt rt1 Hm Hlist. unfold search_anywhere, try_except, bind.
    by rewrite Hm, Hlist.
  - intros res rt rt1 rt2 item items tmp mime_ actual link Hm Hlist Hdown.
    unfold search_anywhere, try_except, bind.
    rewrite Hm, Hlist. simpl. by rewrite Hdown.
Qed.

Lemma returns_resolve_parent svc row :
  returns (resolve_parent svc row) (fun _ => True).
Proof.
  unfold resolve_parent.
  eapply returns_bind; [apply returns_descend_base|]. intros p1 _.
  eapply returns_bind.
  { apply returns_if; [apply returns_find_folder_id|by apply returns_ret]. }
  intros p2 _.
  apply returns_if; [|by apply returns_ret].
  eapply returns_weaken; [apply returns_descend_path|done].
Qed.

Lemma returns_lookup_in_folder svc parent_id name :
  returns (lookup_in_folder svc parent_id name) negative_or_found.
Proof.
  unfold lookup_in_folder.
  apply returns_if; [|apply returns_ret; by left].
  eapply returns_bind; [apply returns_get_file_in_folder|].
  intros [item|] _; [|apply returns_ret; by left].
  eapply returns_bind; [apply returns_download_file_to_temp|].
  intros d _. apply returns_ret, resolved_found.
Qed.

(** An uncached resolution, step by step. *)
Lemma get_file_from_drive_steps svc row (rt : Runtime W) :
  file_cache (session rt) !! cache_key row = None ->
  exists parent_id rt1 r1 rt2 r2 rt3 r3 rt4,
    resolve_parent svc row rt = (Ok parent_id, rt1)
    /\ lookup_in_folder svc parent_id (filename_guess row) rt1 = (Ok r1, rt2)
    /\ search_anywhere svc (filename_guess row) r1 rt2 = (Ok r2, rt3)
    /\ search_anywhere svc (Original_Name row) r2 rt3 = (Ok r3, rt4)
    /\ get_file_from_drive svc row rt
       = (Ok r3,
          with_session
            (with_file_cache (<[cache_key row := r3]> (file_cache (session rt4)))
                             (session rt4))
            rt4).
Proof.
  intros Hmiss.
  destruct (returns_resolve_parent svc row rt) as (parent_id & rt1 & H1 & _).
  destruct (returns_lookup_in_folder svc parent_id (filename_guess row) rt1)
    as (r1 & rt2 & H2 & Hr1).
  destruct (returns_search_anywhere svc (filename_guess row) r1 Hr1 rt2)
    as (r2 & rt3 & H3 & Hr2).
  destruct (returns_search_anywhere svc (Original_Name row) r2 Hr2 rt3)
    as (r3 & rt4 & H4 & Hr3).
  exists parent_id, rt1, r1, rt2, r2, rt3, r3, rt4.
  split_and!; [done..|].
  rewrite get_file_from_drive_miss by done.
  unfold resolve_uncached. unfold bind at 1.
  rewrite locate_file_steps. unfold bind at 1. rewrite H1.
  unfold bind at 1. rewrite H2. unfold bind at 1. rewrite H3, H4.
  done.
Qed.

(** C5, as the code has it. For every service value, row and state, the
    resolver completes normally: it returns a 5-tuple and raises nothing,
    and so do the helpers it calls. On a cache miss the tuple is what four
    steps give in turn: the folder to look in; the lookup of the file in
    that folder; the store-wide search for the file name; the store-wide
    search for the [Original Name]. A lookup that finds a file is followed
    by the download of that file, and the tuple is the file's metadata
    with exactly the four values the download returned; a search is
    skipped once a file has been found. A failing lookup or search counts
    as "not found" for that step, and a download attempt that raises at
    any of its calls gives four [None]s. So when the file is found in its
    folder and the download fails, the tuple is the metadata with four
    [None]s, not the all-[None] tuple, and no search follows; the preview
    shows such a tuple as "File not found in Drive". *)
Theorem C5_resolver_never_raises (svc : option Service) (row : Row)
    (rt : Runtime W) :
  (exists (r : Resolution) (rt' : Runtime W),
     get_file_from_drive svc row rt = (Ok r, rt'))
  /\ (forall name parent, returns (find_folder_id svc name parent) (fun _ => True))
  /\ (forall parent filename,
        returns (get_file_in_folder svc parent filename) (fun _ => True))
  /\ (forall file_id hint,
        returns (download_file_to_temp svc file_id hint) (fun _ => True))
  /\ (file_cache (session rt) !! cache_key row = None ->
      exists parent_id rt1 r1 rt2 r2 rt3 r3 rt4,
        resolve_parent svc row rt = (Ok parent_id, rt1)
        /\ lookup_in_folder svc parent_id (filename_guess row) rt1 = (Ok r1, rt2)
        /\ search_anywhere svc (filename_guess row) r1 rt2 = (Ok r2, rt3)
        /\ search_anywhere svc (Original_Name row) r2 rt3 = (Ok r3, rt4)
        /\ get_file_from_drive svc row rt
           = (Ok r3,
              with_session
                (with_file_cache
                   (<[cache_key row := r3]> (file_cache (session rt4)))
                   (session rt4))
                rt4))
  /\ (forall name parent_id (st : Runtime W),
        truthy_opt parent_id = false ->
        lookup_in_folder svc parent_id name st = (Ok negative, st))
  /\ (forall name parent_id (st st1 : Runtime W),
        truthy_opt parent_id = true ->
        get_file_in_folder svc (default EmptyString parent_id) name st
          = (Ok None, st1) ->
        lookup_in_folder svc parent_id name st = (Ok negative, st1))
  /\ (forall name parent_id (st st1 st2 : Runtime W) item tmp mime_ actual link,
        truthy_opt parent_id = true ->
        get_file_in_folder svc (default EmptyString parent_id) name st
          = (Ok (Some item), st1) ->
        download_file_to_temp svc (fi_id item) name st1
          = (Ok (tmp, mime_, actual, link), st2) ->
        lookup_in_folder svc parent_id name st
        = (Ok (mkResolution (Some item) tmp mime_ actual link), st2))
  /\ (forall name res (st : Runtime W),
        is_Some (file_meta res) -> search_anywhere svc name res st = (Ok res, st))
  /\ (forall name res (st st1 : Runtime W) e,
        file_meta res = None ->
        drive_files_list svc (file_query name)
          "files(id, name, mimeType, webViewLink)" 5 st = (Raise e, st1) ->
        search_anywhere svc name res st = (Ok res, st1))
  /\ (forall name res (st st1 : Runtime W),
        file_meta res = None ->
        drive_files_list svc (file_query name)
          "files(id, name, mimeType, webViewLink)" 5 st = (Ok [], st1) ->
        search_anywhere svc name res st = (Ok res, st1))
  /\ (forall name res (st st1 st2 : Runtime W) item items tmp mime_ actual link,
        file_meta res = None ->
        drive_files_list svc (file_query name)
          "files(id, name, mimeType, webViewLink)" 5 st
          = (Ok (item :: items), st1) ->
        download_file_to_temp svc (fi_id item) name st1
          = (Ok (tmp, mime_, actual, link), st2) ->
        search_anywhere svc name res st
        = (Ok (mkResolution (Some item) tmp mime_ actual link), st2))
  /\ (forall parent_id (rt1 rt2 rt3 : Runtime W) item,
        file_cache (session rt) !! cache_key row = None ->
        resolve_parent svc row rt = (Ok parent_id, rt1) ->
        truthy_opt parent_id = true ->
        get_file_in_folder svc (default EmptyString parent_id)
                           (filename_guess row) rt1 = (Ok (Some item), rt2) ->
        download_file_to_temp svc (fi_id item) (filename_guess row) rt2
          = (Ok (None, None, None, None), rt3) ->
        fst (get_file_from_drive svc row rt)
        = Ok (mkResolution (Some item) None None None None)
        /\ trace (snd (get_file_from_drive svc row rt)) = trace rt3
        /\ world (snd (get_file_from_drive svc row rt)) = world rt3)
  /\ (forall (s : Service) name parent e w',
        files_list s (folder_query name parent) "files(id, name)" 5 (world rt)
          = (inl e, w') ->
        fst (find_folder_id_body (Some s) name parent rt) = Ok None)
  /\ (forall (s : Service) parent filename e w',
        files_list s (file_in_folder_query parent filename)
                   "files(id, name, mimeType, webViewLink)" 10 (world rt)
          = (inl e, w') ->
        fst (get_file_in_folder_body (Some s) parent filename rt) = Ok None)
  /\ (forall file_id hint e rt',
        download_attempt svc file_id hint rt = (Raise e, rt') ->
        download_file_to_temp svc file_id hint rt = (Ok no_download, rt'))
  /\ (forall file_id hint d rt',
        download_attempt svc file_id hint rt = (Ok d, rt') ->
        download_file_to_temp svc file_id hint rt = (Ok d, rt'))
  /\ preview_available negative = false
  /\ (forall item,
        preview_available (mkResolution (Some item) None None None None) = false).
Proof.
  split_and!.
  - destruct (file_cache (session rt) !! cache_key row) as [cached|] eqn:Hc.
    + exists cached, rt. by apply get_file_from_drive_hit.
    + destruct (resolve_uncached_stores svc row rt) as (r & rt' & Hrun & _).
      exists r, rt'. by rewrite get_file_from_drive_miss.
  - intros. apply returns_find_folder_id.
  - intros. apply returns_get_file_in_folder.
  - intros. apply returns_download_file_to_temp.
  - apply get_file_from_drive_steps.
  - intros name. apply (lookup_in_folder_rules svc name).
  - intros name. apply (lookup_in_folder_rules svc name).
  - intros name. apply (lookup_in_folder_rules svc name).
  - intros name. apply (search_anywhere_rules svc name).
  - intros name. apply (search_anywhere_rules svc name).
  - intros name. apply (search_anywhere_rules svc name).
  - intros name. apply (search_anywhere_rules svc name).
  - intros parent_id rt1 rt2 rt3 item Hmiss Hparent Htruthy Hfind Hdown.
    destruct (get_file_from_drive_steps svc row rt Hmiss)
      as (p & s1 & r1 & s2 & r2 & s3 & r3 & s4 & H1 & H2 & H3 & H4 & Hrun).
    rewrite Hparent in H1. injection H1 as <- <-.
    destruct (lookup_in_folder_rules svc (filename_guess row))
      as (_ & _ & Hfound).
    rewrite (Hfound _ _ _ _ _ _ _ _ _ Htruthy Hfind Hdown) in H2.
    injection H2 as <- <-.
    destruct (search_anywhere_rules svc (filename_guess row)) as (Hskip & _).
    rewrite Hskip in H3 by (by eexists). injection H3 as <- <-.
    destruct (search_anywhere_rules svc (Original_Name row)) as (Hskip' & _).
    rewrite Hskip' in H4 by (by eexists). injection H4 as <- <-.
    rewrite Hrun. done.
  - intros. by eapply find_folder_id_body_failure.
  - intros. by eapply get_file_in_folder_body_failure.
  - intros file_id hint e rt' Hfail. by apply (download_failure _ _ _ _ _ e).
  - intros file_id hint d rt' Hok. unfold download_file_to_temp, try_except.
    by rewrite Hok.
  - done.
  - done.
Qed.

(** ** C4: the per-row cache *)



End Resolver.

(** C5 as first stated fails when a file is found and its download fails.
    The row's file is in the folder reached for it and the store-wide
    search would find a file of that name too, but downloads fail: the
    resolver returns the metadata with four [None]s, which is neither the
    all-[None] tuple nor a tuple with a file to show, and after the failed
    download it makes no further call, so no search is tried. *)
Lemma C5_counterexample :
  fst (get_file_from_drive Demo.service Demo.row1
         (Demo.start (Demo.mkWorld 0 store_with_logo false true [])
                     initial_session))
  = Ok (mkResolution (Some (Demo.picture "F" "logo.png")) None None None None)
  /\ mkResolution (Some (Demo.picture "F" "logo.png")) None None None None
     <> negative
  /\ preview_available
       (mkResolution (Some (Demo.picture "F" "logo.png")) None None None None)
     = false
  /\ trace (snd (get_file_from_drive Demo.service Demo.row1
                   (Demo.start (Demo.mkWorld 0 store_with_logo false true [])
                               initial_session)))
     = [EvDriveList (folder_query "Cog Culture Repository" None) "files(id, name)" 5;
        EvDriveList (folder_query "Clients" (Some "A")) "files(id, name)" 5;
        EvDriveList (folder_query "Aarize Group" (Some "B")) "files(id, name)" 5;
        EvDriveList (folder_query "Clients" (Some "C")) "files(id, name)" 5;
        EvDriveList (file_in_folder_query "C" "logo.png")
                    "files(id, name, mimeType, webViewLink)" 10;
        EvDriveGet "F"]
  /\ Dict.get (file_query "logo.png") store_with_logo
     = Some [Demo.picture "G" "logo.png"].
Proof. split_and!; try (vm_compute; reflexivity). discriminate. Qed.

(** A row found nowhere: the all-[None] tuple is cached, and a second
    resolution returns it without a single remote call, even when the
    store would by then answer. *)
Example negative_result_is_not_retried :
  let first := get_file_from_drive Demo.service Demo.row1
                 (Demo.start Demo.empty_world initial_session) in
  let later :=
    with_world (Demo.mkWorld 100 [(file_query "logo.png", [Demo.picture "F" "logo.png"])]
                             false false [])
               (snd first) in
  fst first = Ok negative
  /\ get_file_from_drive Demo.service Demo.row1 later = (Ok negative, later).
Proof. vm_compute. split; reflexivity. Qed.

(** A file that is found and downloaded. *)
Example resolution_found :
  fst (get_file_from_drive Demo.service Demo.row1
         (Demo.start
            (Demo.mkWorld 0 [(file_query "logo.png", [Demo.picture "F" "logo.png"])]
                          false false [])
            initial_session))
  = Ok (mkResolution (Some (Demo.picture "F" "logo.png")) (Some "/tmp/tmp1.png")
          (Some "image/png") (Some "F.png") (Some "https://drive.example/F")).
Proof. vm_compute. reflexivity. Qed.

(** A file that is found but whose download fails: the tuple keeps the
    metadata, the other four values are [None], and the preview reports the
    file as not found. *)
Example resolution_found_download_failed :
  let res :=
    fst (get_file_from_drive Demo.service Demo.row1
           (Demo.start
              (Demo.mkWorld 0 [(file_query "logo.png", [Demo.picture "F" "logo.png"])]
                            false true [])
              initial_session)) in
  res = Ok (resolved (Demo.picture "F" "logo.png") no_download)
  /\ preview_available (resolved (Demo.picture "F" "logo.png") no_download) = false.
Proof. vm_compute. split; reflexivity. Qed.

(** Two rows with different paths and names whose keys coincide share one
    cache entry. *)
Example cache_key_not_injective :
  cache_key (mkRow "File" "b_c.png" "x" "a" "" "" "")
  = cache_key (mkRow "File" "c.png" "x" "a_b" "" "" "").
Proof. reflexivity. Qed.

(** ** C9: the base descent and the folder cache *)

Section FolderCache.
Context {W : Type} `{Services W}.

Lemma find_folder_id_hit svc name parent (rt : Runtime W) v t :
  folder_memo rt !! (name, parent) = Some (v, t) ->
  clock (world rt) - t < 3600 ->
  find_folder_id svc name parent rt = (Ok v, rt).
Proof.
  intros Hhit Hyoung. unfold find_folder_id, cache_data. rewrite Hhit.
  apply Z.ltb_lt in Hyoung. by rewrite Hyoung.
Qed.

Lemma find_folder_id_store svc name parent (rt : Runtime W) :
  (folder_memo rt !! (name, parent) = None
   \/ exists v t, folder_memo rt !! (name, parent) = Some (v, t)
                  /\ 3600 <= clock (world rt) - t) ->
  exists v' rt1,
    find_folder_id_body svc name parent rt = (Ok v', rt1)
    /\ find_folder_id svc name parent rt
       = (Ok v',
          with_folder_memo
            (<[(name, parent) := (v', clock (world rt1))]> (folder_memo rt1)) rt1).
Proof.
  intros Hcase.
  destruct (returns_find_folder_id_body svc name parent rt) as (v' & rt1 & Hrun & _).
  exists v', rt1. split; [done|].
  unfold find_folder_id, cache_data. rewrite Hrun.
  destruct Hcase as [-> | (v & t & -> & Hold)]; [done|].
  apply Z.ltb_ge in Hold. by rewrite Hold.
Qed.

(** The remote query of a lookup carries the parent clause exactly when a
    parent is given. *)
Lemma find_folder_id_body_query (s : Service) name parent (rt : Runtime W) :
  trace (snd (find_folder_id_body (Some s) name parent rt))
  = (trace rt ++ [EvDriveList (folder_query name parent) "files(id, name)" 5])%list.
Proof.
  unfold find_folder_id_body, try_except, bind, drive_files_list, call.
  destruct (files_list _ _ _ _ _) as [[e|[|item items]] w']; done.
Qed.

Lemma descend_base_step svc seg rest parent (rt : Runtime W) :
  exists found rt1,
    find_folder_id svc seg parent rt = (Ok found, rt1)
    /\ (truthy_opt found = true ->
        descend_base svc (seg :: rest) parent rt = descend_base svc rest found rt1)
    /\ (truthy_opt found = false ->
        exists alt rt2,
          find_folder_id svc seg None rt1 = (Ok alt, rt2)
          /\ descend_base svc (seg :: rest) parent rt
             = if truthy_opt alt
               then descend_base svc rest alt rt2
               else (Ok alt, rt2)).
Proof.
  destruct (returns_find_folder_id svc seg parent rt) as (found & rt1 & Hrun & _).
  exists found, rt1. split; [done|]. split.
  - intros Hfound. simpl. unfold bind at 1. rewrite Hrun, Hfound. simpl.
    unfold bind, ret. by rewrite Hfound.
  - intros Hmissing.
    destruct (returns_find_folder_id svc seg None rt1) as (alt & rt2 & Hrun2 & _).
    exists alt, rt2. split; [done|].
    simpl. unfold bind at 1. rewrite Hrun, Hmissing. simpl.
    unfold bind at 1. rewrite Hrun2. by destruct (truthy_opt alt).
Qed.

(** C9, as the code has it. In the descent of the base hierarchy each
    segment is first looked up under the current parent; when that lookup
    finds a folder the descent goes on under it; when it finds nothing the
    same name is looked up again with no parent, and the descent goes on
    under that result or stops with nothing. The remote query of a lookup
    is the one built from its (name, parent) pair. A lookup whose pair has
    a stored answer younger than 3600 seconds returns it and changes
    nothing; otherwise the body runs and its answer is stored under the
    pair with the time of storing. The folder store is not the per-row
    cache: a lookup leaves the session's file cache as it is, and a hit in
    the file cache leaves the folder store as it is. *)
Theorem C9_base_descent_and_folder_cache (svc : option Service) :
  (forall seg rest parent (rt : Runtime W),
     exists found rt1,
       find_folder_id svc seg parent rt = (Ok found, rt1)
       /\ (truthy_opt found = true ->
           descend_base svc (seg :: rest) parent rt
           = descend_base svc rest found rt1)
       /\ (truthy_opt found = false ->
           exists alt rt2,
             find_folder_id svc seg None rt1 = (Ok alt, rt2)
             /\ descend_base svc (seg :: rest) parent rt
                = if truthy_opt alt
                  then descend_base svc rest alt rt2
                  else (Ok alt, rt2)))
  /\ (forall parent (rt : Runtime W), descend_base svc [] parent rt = (Ok parent, rt))
  /\ (forall (s : Service) name parent (rt : Runtime W),
        trace (snd (find_folder_id_body (Some s) name parent rt))
        = (trace rt ++ [EvDriveList (folder_query name parent) "files(id, name)" 5])%list)
  /\ (forall name parent (rt : Runtime W) v t,
        folder_memo rt !! (name, parent) = Some (v, t) ->
        clock (world rt) - t < 3600 ->
        find_folder_id svc name parent rt = (Ok v, rt))
  /\ (forall name parent (rt : Runtime W),
        (folder_memo rt !! (name, parent) = None
         \/ exists v t, folder_memo rt !! (name, parent) = Some (v, t)
                        /\ 3600 <= clock (world rt) - t) ->
        exists v' rt1,
          find_folder_id_body svc name parent rt = (Ok v', rt1)
          /\ find_folder_id svc name parent rt
             = (Ok v',
                with_folder_memo
                  (<[(name, parent) := (v', clock (world rt1))]> (folder_memo rt1))
                  rt1))
  /\ (forall name parent, preserves file_cache (find_folder_id svc name parent))
  /\ (forall row (rt : Runtime W) cached,
        file_cache (session rt) !! cache_key row = Some cached ->
        folder_memo (snd (get_file_from_drive svc row rt)) = folder_memo rt).
Proof.
  split_and!.
  - intros. apply descend_base_step.
  - done.
  - intros. apply find_folder_id_body_query.
  - intros. by eapply find_folder_id_hit.
  - intros. by apply find_folder_id_store.
  - intros. apply preserves_find_folder_id.
  - intros row rt cached Hhit. by rewrite (get_file_from_drive_hit _ _ _ _ Hhit).
Qed.

End FolderCache.

(** C9 as first stated fails in a store in which "Clients" is not inside
    the folder found for "Cog Culture Repository" but exists elsewhere: after the lookup of
    "Clients" under folder A finds nothing, the descent queries "Clients"
    with no parent clause and goes on under what that returns; a descent
    that scoped every lookup to the current parent would have stopped with
    nothing. *)
Lemma C9_counterexample :
  descend_base Demo.service base_segments None
    (Demo.start (Demo.mkWorld 0 Demo.moved_clients false false []) initial_session)
  <> descend_base_scoped_only Demo.service base_segments None
       (Demo.start (Demo.mkWorld 0 Demo.moved_clients false false []) initial_session)
  /\ fst (descend_base Demo.service base_segments None
            (Demo.start (Demo.mkWorld 0 Demo.moved_clients false false [])
                        initial_session))
     = Ok (Some "C")
  /\ fst (descend_base_scoped_only Demo.service base_segments None
            (Demo.start (Demo.mkWorld 0 Demo.moved_clients false false [])
                        initial_session))
     = Ok None
  /\ trace (snd (descend_base Demo.service base_segments None
                   (Demo.start (Demo.mkWorld 0 Demo.moved_clients false false [])
                               initial_session)))
     = [EvDriveList (folder_query "Cog Culture Repository" None) "files(id, name)" 5;
        EvDriveList (folder_query "Clients" (Some "A")) "files(id, name)" 5;
        EvDriveList (folder_query "Clients" None) "files(id, name)" 5;
        EvDriveList (folder_query "Aarize Group" (Some "B")) "files(id, name)" 5]
  /\ folder_query "Clients" (Some "A")
     = "name = 'Clients' and mimeType = 'application/vnd.google-apps.folder' and trashed = false and 'A' in parents"
  /\ folder_query "Clients" None
     = "name = 'Clients' and mimeType = 'application/vnd.google-apps.folder' and trashed = false".
Proof.
  split_and!; try (vm_compute; reflexivity).
  intros Heq. apply (f_equal fst) in Heq. vm_compute in Heq. discriminate.
Qed.

(** A second lookup of the same pair within the hour is answered from the
    folder store, with no remote call; after the hour the query is sent
    again. *)
Example folder_lookup_cached_for_an_hour :
  let first := find_folder_id Demo.service "Clients" None
                 (Demo.start (Demo.mkWorld 0 Demo.moved_clients false false [])
                             initial_session) in
  let soon := with_world (Demo.mkWorld 3600 [] false false []) (snd first) in
  let late := with_world (Demo.mkWorld 3601 [] false false []) (snd first) in
  fst first = Ok (Some "B")
  /\ find_folder_id Demo.service "Clients" None soon = (Ok (Some "B"), soon)
  /\ fst (find_folder_id Demo.service "Clients" None late) = Ok None
  /\ length (trace (snd (find_folder_id Demo.service "Clients" None late))) = 2%nat.
Proof. vm_compute. split_and!; reflexivity. Qed.

(** * Further properties of the code *)

(** ** Loading the spreadsheet *)

Section LoadExcel.
Context {W : Type} `{Services W}.

Lemma missing_columns_nil (xl : Upload) :
  filter (fun c => c ∉ xl_columns xl) required_cols = []
  <-> forall c, c ∈ required_cols -> c ∈ xl_columns xl.
Proof.
  split.
  - intros Hnil c Hc. destruct (decide (c ∈ xl_columns xl)) as [|Hnot]; [done|].
    assert (c ∈ filter (fun c => c ∉ xl_columns xl) required_cols) as Hin
      by by apply list_elem_of_filter.
    rewrite Hnil in Hin. by apply elem_of_nil in Hin.
  - intros Hall.
    destruct (filter (fun c => c ∉ xl_columns xl) required_cols) as [|c l] eqn:Hf;
      [done|].
    assert (c ∈ filter (fun c => c ∉ xl_columns xl) required_cols) as Hin
      by (rewrite Hf; by left).
    apply list_elem_of_filter in Hin as [Hnot Hc]. destruct (Hnot (Hall c Hc)).
Qed.

(** "Load Excel once". With no table in the session: a spreadsheet lacking
    one of the seven required columns gets an error naming the missing
    columns and the run stops, the session being left as it was; a
    spreadsheet with all of them becomes the session's table, with its
    flagged rows beside it. With a table already in the session the
    uploaded file is not read at all, whatever it holds. *)
Theorem load_excel_once (xl : Upload) (rt : Runtime W) :
  (df (session rt) = None ->
   (exists c, c ∈ required_cols /\ c ∉ xl_columns xl) ->
   load_excel_step xl rt
   = (Halt CStop,
      with_trace
        (trace rt ++
           [EvUi UiError
              ("Missing columns: "
               ++ repr_list (filter (fun c => c ∉ xl_columns xl) required_cols))])
        rt))
  /\ (df (session rt) = None ->
      (forall c, c ∈ required_cols -> c ∈ xl_columns xl) ->
      load_excel_step xl rt
      = (Ok tt,
         with_session
           (with_invalid_rows (Some (flagged_rows (xl_rows xl)))
              (with_df (Some (xl_rows xl)) (session rt)))
           rt))
  /\ (is_Some (df (session rt)) -> load_excel_step xl rt = (Ok tt, rt)).
Proof.
  split_and!.
  - intros Hnone (c & Hc & Hmissing).
    unfold load_excel_step, bind at 1, gets. cbv beta iota. rewrite Hnone.
    destruct (filter (fun c => c ∉ xl_columns xl) required_cols) as [|c' l] eqn:Hf.
    + destruct (Hmissing (proj1 (missing_columns_nil xl) Hf c Hc)).
    + done.
  - intros Hnone Hall.
    unfold load_excel_step, bind at 1, gets. cbv beta iota. rewrite Hnone.
    by rewrite (proj2 (missing_columns_nil xl) Hall).
  - intros [d Hd]. unfold load_excel_step, bind, gets. simpl. by rewrite Hd.
Qed.

End LoadExcel.

(** A spreadsheet without the Full Path and Action columns. *)
Example load_excel_missing_columns :
  load_excel_step
    (mkUpload ["Type"; "Original Name"; "Proposed New Name"; "Created Date";
               "Timestamp"] [])
    (Demo.start Demo.empty_world initial_session)
  = (Halt CStop,
     with_trace [EvUi UiError "Missing columns: ['Full Path', 'Action']"]
                (Demo.start Demo.empty_world initial_session)).
Proof. reflexivity. Qed.

(** ** The current row *)

Section CurrentRow.
Context {W : Type} `{Services W}.

Lemma st_progress_accepts (i n : Z) (rt : Runtime W) :
  0 < n ->
  (-1 <= i <= n - 1 -> st_progress (i + 1) n rt = (Ok tt, rt))
  /\ (i < -1 \/ n - 1 < i -> st_progress (i + 1) n rt = (Raise progress_error, rt)).
Proof.
  intros Hn. unfold st_progress.
  assert ((n =? 0) = false) as -> by lia. split.
  - intros Hi.
    assert (((0 <=? i + 1) && (i + 1 <=? n))%bool = true) as -> by lia. done.
  - intros Hi.
    assert (((0 <=? i + 1) && (i + 1 <=? n))%bool = false) as -> by lia. done.
Qed.

Lemma iloc_last (rows : list Row) (rt : Runtime W) (row : Row) :
  last rows = Some row -> iloc rows (-1) rt = (Ok row, rt).
Proof.
  intros Hlast. unfold iloc.
  assert (0 < len rows) as Hlen.
  { destruct rows; [done|]. unfold len. simpl. lia. }
  assert ((-1 <? 0) = true) as -> by lia.
  assert (((0 <=? -1 + len rows) && (-1 + len rows <? len rows))%bool = true)
    as -> by lia.
  rewrite last_lookup in Hlast.
  assert (Z.to_nat (-1 + len rows) = Nat.pred (length rows)) as ->
    by (unfold len; lia).
  by rewrite Hlast.
Qed.

Lemma run_reaches_progress (inp : Inputs) (xl : Upload) (rt : Runtime W)
    (ir : list Row) :
  reviewing rt ir ->
  credentials_file inp <> [] -> excel_file inp = Some xl ->
  when (button inp BtnPrevious) on_previous rt = (Ok tt, rt) ->
  when (button inp BtnNext) (on_next (len ir)) rt = (Ok tt, rt) ->
  (index (session rt) < -1 \/ len ir - 1 < index (session rt)) ->
  main_flow inp rt = (Raise progress_error, rt).
Proof.
  intros ([s Hs] & [d Hd] & Hir & Hne) Hcreds Hxl Hprev Hnext Hidx.
  assert (0 < len ir) as Hpos.
  { destruct ir; [done|]. unfold len. simpl. lia. }
  unfold main_flow. rewrite Hxl.
  destruct (credentials_file inp) as [|c creds] eqn:Hc; [done|].
  unfold main_logic, bind at 1.
  unfold build_drive_service_step, bind at 1, gets at 1. simpl.
  rewrite Hs. unfold ret at 1. cbv beta iota.
  unfold bind at 1, gets at 1. cbv beta iota.
  unfold bind at 1. unfold load_excel_step, bind at 1, gets at 1.
  cbv beta iota. rewrite Hd. unfold ret at 1. cbv beta iota.
  unfold bind at 1, gets at 1. cbv beta iota. rewrite Hd.
  unfold bind at 1, gets at 1. cbv beta iota. rewrite Hir.
  assert ((len ir =? 0) = false) as Hlen by lia.
  rewrite Hlen. unfold when at 1. unfold bind at 1, ret at 1. cbv beta iota.
  unfold bind at 1. rewrite Hprev.
  unfold bind at 1. rewrite Hnext.
  unfold bind at 1, gets at 1. cbv beta iota.
  unfold bind at 1.
  by rewrite (proj2 (st_progress_accepts (index (session rt)) (len ir) rt Hpos)).
Qed.

(** The index is not checked against the flagged rows when a run starts.
    In a session that is reviewing [n] flagged rows, the progress bar
    accepts exactly the indices from [-1] to [n-1]. With an index of [n]
    or more, a run without a click, or with a click on Next, raises at the
    progress bar, before the row is read, and leaves the state as it found
    it; so does a run with an index below [-1] without a click or with a
    click on Previous. At index [-1] the bar is empty and the row read is
    the last one. *)
Theorem run_with_index_out_of_range (inp : Inputs) (xl : Upload)
    (rt : Runtime W) (ir : list Row) :
  reviewing rt ir ->
  credentials_file inp <> [] -> excel_file inp = Some xl ->
  (len ir <= index (session rt) ->
   clicked inp = None \/ clicked inp = Some BtnNext ->
   main_flow inp rt = (Raise progress_error, rt))
  /\ (index (session rt) < -1 ->
      clicked inp = None \/ clicked inp = Some BtnPrevious ->
      main_flow inp rt = (Raise progress_error, rt))
  /\ (forall i : Z,
        (-1 <= i <= len ir - 1 -> st_progress (i + 1) (len ir) rt = (Ok tt, rt))
        /\ (i < -1 \/ len ir - 1 < i ->
            st_progress (i + 1) (len ir) rt = (Raise progress_error, rt)))
  /\ (forall row, last ir = Some row -> iloc ir (-1) rt = (Ok row, rt)).
Proof.
  intros Hrev Hcreds Hxl.
  assert (0 < len ir) as Hpos.
  { destruct Hrev as (_ & _ & _ & Hne). destruct ir; [done|].
    unfold len. simpl. lia. }
  split_and!.
  - intros Hidx Hclick. apply (run_reaches_progress inp xl rt ir); try done.
    + unfold when, button.
      rewrite bool_decide_eq_false_2; [done|]. by destruct Hclick as [-> | ->].
    + unfold when. destruct (button inp BtnNext); [|done].
      unfold on_next, bind, gets. simpl.
      assert ((index (session rt) <? len ir - 1) = false) as -> by lia. done.
    + right. lia.
  - intros Hidx Hclick. apply (run_reaches_progress inp xl rt ir); try done.
    + unfold when. destruct (button inp BtnPrevious); [|done].
      unfold on_previous, bind, gets. simpl.
      assert ((0 <? index (session rt)) = false) as -> by lia. done.
    + unfold when, button.
      rewrite bool_decide_eq_false_2; [done|]. by destruct Hclick as [-> | ->].
    + by left.
  - intros i. by apply st_progress_accepts.
  - intros row. apply iloc_last.
Qed.

End CurrentRow.

(** A session restored with index 7 and a spreadsheet with two rows to
    review. *)
Lemma run_with_index_out_of_range_witness :
  main_flow
    (mkInputs [("type", "service_account")]
              (Some (mkUpload required_cols [Demo.row1; Demo.row3])) None
              (fun _ => None))
    (Demo.start Demo.empty_world
       (with_index 7
          (with_invalid_rows (Some [Demo.row1; Demo.row3])
             (with_df (Some [Demo.row1; Demo.row3])
                (with_drive_service Demo.service initial_session)))))
  = (Raise progress_error,
     Demo.start Demo.empty_world
       (with_index 7
          (with_invalid_rows (Some [Demo.row1; Demo.row3])
             (with_df (Some [Demo.row1; Demo.row3])
                (with_drive_service Demo.service initial_session))))).
Proof.
  destruct (run_with_index_out_of_range
    (mkInputs [("type", "service_account")]
              (Some (mkUpload required_cols [Demo.row1; Demo.row3])) None
              (fun _ => None))
    (mkUpload required_cols [Demo.row1; Demo.row3])
    (Demo.start Demo.empty_world
       (with_index 7
          (with_invalid_rows (Some [Demo.row1; Demo.row3])
             (with_df (Some [Demo.row1; Demo.row3])
                (with_drive_service Demo.service initial_session)))))
    [Demo.row1; Demo.row3]) as (Habove & _).
  - split_and!; [by eexists|by eexists|reflexivity|discriminate].
  - discriminate.
  - reflexivity.
  - apply Habove; [vm_compute; discriminate|by left].
Defined.

(** ** The upload to the bucket *)

Section UploadOutcome.
Context {W : Type} `{Services W}.

Lemma upload_completes (file_path bucket_name : string) (rt : Runtime W) :
  exists (b : bool) (rt' : Runtime W),
    upload_to_supabase file_path bucket_name rt = (Ok b, rt')
    /\ session rt' = session rt.
Proof.
  unfold upload_to_supabase, try_except, bind, call, st_message, ret. simpl.
  destruct (supabase_client (world rt)) as [[e0|[]] w0]; simpl;
    [by eexists _, _|].
  destruct (storage_remove _ _ w0) as [[e1|[]] w1]; simpl;
    destruct (open_read _ w1) as [[e2|content] w2]; simpl;
    try (destruct (storage_upload _ _ _ w2) as [[e3|[]] w3]; simpl);
    by eexists _, _.
Qed.

(** [upload_to_supabase] never raises: it answers [True] or [False] and
    leaves the session alone. What it answers and shows follows from what
    its four calls answer, in this order. If the client cannot be obtained,
    nothing else is called and the answer is [False]. Otherwise the removal
    is tried; "Removed existing file" is shown exactly when the removal
    did not raise, and the upload goes on either way. If reading the file
    raises, the upload is not called and the answer is [False]; if the
    upload raises, the answer is [False]; if it succeeds, the success
    message is shown last and the answer is [True]. Each [False] comes
    with the exception that was raised: the last two things shown are the
    failure with its [str] and the details with its type name. *)
Theorem upload_answers_true_or_false (file_path bucket_name : string)
    (rt : Runtime W) :
  (exists (b : bool) (rt' : Runtime W),
     upload_to_supabase file_path bucket_name rt = (Ok b, rt')
     /\ session rt' = session rt)
  /\ (forall e w0,
        supabase_client (world rt) = (inl e, w0) ->
        upload_to_supabase file_path bucket_name rt
        = (Ok false,
           with_trace
             (trace rt
              ++ [EvSupabaseClient;
                  EvUi UiError ("Upload to Supabase failed: " ++ exc_msg e);
                  EvUi UiError ("Details: " ++ exc_type e)])
             (with_world w0 rt)))
  /\ (forall w0 (removal : Exc + unit) w1,
        supabase_client (world rt) = (inr tt, w0) ->
        storage_remove bucket_name (basename file_path) w0 = (removal, w1) ->
        (forall e w2,
           open_read file_path w1 = (inl e, w2) ->
           upload_to_supabase file_path bucket_name rt
           = (Ok false,
              with_trace
                (trace rt
                 ++ [EvSupabaseClient;
                     EvStorageRemove bucket_name (basename file_path)]
                 ++ match removal with
                    | inr _ => [EvUi UiInfo ("Removed existing file: "
                                             ++ basename file_path)]
                    | inl _ => []
                    end
                 ++ [EvOpenRead file_path;
                     EvUi UiError ("Upload to Supabase failed: " ++ exc_msg e);
                     EvUi UiError ("Details: " ++ exc_type e)])
                (with_world w2 rt)))
        /\ (forall content w2 e w3,
              open_read file_path w1 = (inr content, w2) ->
              storage_upload bucket_name (basename file_path) content w2
                = (inl e, w3) ->
              upload_to_supabase file_path bucket_name rt
              = (Ok false,
                 with_trace
                   (trace rt
                    ++ [EvSupabaseClient;
                        EvStorageRemove bucket_name (basename file_path)]
                    ++ match removal with
                       | inr _ => [EvUi UiInfo ("Removed existing file: "
                                                ++ basename file_path)]
                       | inl _ => []
                       end
                    ++ [EvOpenRead file_path;
                        EvStorageUpload bucket_name (basename file_path);
                        EvUi UiError ("Upload to Supabase failed: " ++ exc_msg e);
                        EvUi UiError ("Details: " ++ exc_type e)])
                   (with_world w3 rt)))
        /\ (forall content w2 w3,
              open_read file_path w1 = (inr content, w2) ->
              storage_upload bucket_name (basename file_path) content w2
                = (inr tt, w3) ->
              upload_to_supabase file_path bucket_name rt
              = (Ok true,
                 with_trace
                   (trace rt
                    ++ [EvSupabaseClient;
                        EvStorageRemove bucket_name (basename file_path)]
                    ++ match removal with
                       | inr _ => [EvUi UiInfo ("Removed existing file: "
                                                ++ basename file_path)]
                       | inl _ => []
                       end
                    ++ [EvOpenRead file_path;
                        EvStorageUpload bucket_name (basename file_path);
                        EvUi UiSuccess
                          ("File successfully uploaded to Supabase: "
                           ++ basename file_path)])
                   (with_world w3 rt)))).
Proof.
  split; [apply upload_completes|]. split.
  - intros e w0 Hclient.
    unfold upload_to_supabase, try_except, bind, call, st_message, ret. simpl.
    rewrite Hclient. simpl. unfold with_trace, with_world. simpl.
    by rewrite <- !app_assoc.
  - intros w0 removal w1 Hclient Hremove. split_and!.
    + intros e w2 Hread.
      unfold upload_to_supabase, try_except, bind, call, st_message, ret. simpl.
      rewrite Hclient. simpl. rewrite Hremove.
      destruct removal as [e1|[]]; simpl; rewrite Hread; simpl;
        unfold with_trace, with_world; simpl; by rewrite <- !app_assoc.
    + intros content w2 e w3 Hread Hupload.
      unfold upload_to_supabase, try_except, bind, call, st_message, ret. simpl.
      rewrite Hclient. simpl. rewrite Hremove.
      destruct removal as [e1|[]]; simpl; rewrite Hread; simpl;
        rewrite Hupload; simpl;
        unfold with_trace, with_world; simpl; by rewrite <- !app_assoc.
    + intros content w2 w3 Hread Hupload.
      unfold upload_to_supabase, try_except, bind, call, st_message, ret. simpl.
      rewrite Hclient. simpl. rewrite Hremove.
      destruct removal as [e1|[]]; simpl; rewrite Hread; simpl;
        rewrite Hupload; simpl;
        unfold with_trace, with_world; simpl; by rewrite <- !app_assoc.
Qed.

End UploadOutcome.

(** The removal fails (there was no such object) and the upload goes
    through all the same. *)
Example upload_after_failed_removal :
  let w := Faulty.mkWorld false false true false in
  upload_to_supabase default_excel_filename "renamed_excel"
    (Faulty.start w initial_session)
  = (Ok true,
     with_trace
       [EvSupabaseClient;
        EvStorageRemove "renamed_excel" default_excel_filename;
        EvOpenRead default_excel_filename;
        EvStorageUpload "renamed_excel" default_excel_filename;
        EvUi UiSuccess
          "File successfully uploaded to Supabase: Updated_Clients_Rename_Log.xlsx"]
       (Faulty.start w initial_session)).
Proof. reflexivity. Qed.

(** ** The flush when the file cannot be written *)

Section FlushFailure.
Context {W : Type} `{Services W}.

(** When [df.to_excel] raises, the flush handler raises the same
    exception: the buffer keeps all its entries and no last saved file is
    recorded, so nothing is lost and nothing can be uploaded; but the
    session's table has already been assigned to, in place. *)
Theorem flush_write_failure (all : string) (d : list Row) (rt : Runtime W)
    (e : Exc) (w' : W) :
  to_excel (flushed_table d (pending_changes (session rt)))
           default_excel_filename (world rt) = (inl e, w') ->
  exists rt',
    flush_and_offer all d rt = (Raise e, rt')
    /\ pending_changes (session rt') = pending_changes (session rt)
    /\ last_saved_file (session rt') = last_saved_file (session rt)
    /\ df (session rt') = Some (flushed_table d (pending_changes (session rt)))
    /\ trace rt' = (trace rt ++ [EvToExcel default_excel_filename])%list.
Proof.
  intros Hfail. eexists.
  unfold flush_and_offer, save_pending_changes_to_excel, bind, gets, modify,
    call. simpl. rewrite Hfail. simpl. split_and!; reflexivity.
Qed.

End FlushFailure.

(** A disk that refuses the write. *)
Lemma flush_write_failure_witness :
  let rt := Faulty.start (Faulty.mkWorld true false false false)
              (with_pending_changes [(Full_Path Demo.row1, "Acme")]
                                    initial_session) in
  fst (on_save_all [Demo.row1; Demo.row2] rt)
    = Raise (Faulty.os_error "permission denied")
  /\ pending_changes (session (snd (on_save_all [Demo.row1; Demo.row2] rt)))
     = [(Full_Path Demo.row1, "Acme")].
Proof.
  cbv zeta.
  destruct (flush_write_failure "All " [Demo.row1; Demo.row2]
              (Faulty.start (Faulty.mkWorld true false false false)
                 (with_pending_changes [(Full_Path Demo.row1, "Acme")]
                                       initial_session))
              (Faulty.os_error "permission denied")
              (Faulty.mkWorld true false false false))
    as (rt' & Hrun & Hpending & _); [reflexivity|].
  unfold on_save_all. rewrite Hrun. split; [reflexivity|exact Hpending].
Defined.

(** ** What the flush changes in the table *)

Section FlushFrame.

Implicit Types (d t : list Row) (p : list (string * string)).

(** The name one table position ends up with: each entry whose mask is
    true there assigns its name, in buffer order. *)
Lemma table_after_lookup d p t (i : nat) :
  length t = length d ->
  table_after d p t !! i
  = fold_left (fun r e => if default false (entry_mask d (fst e) !! i)
                          then set_Proposed_New_Name (snd e) r else r) p
    <$> t !! i.
Proof.
  revert t. induction p as [|[k v] p IH]; intros t Hlen.
  - simpl. by destruct (t !! i).
  - simpl. rewrite IH
      by (rewrite length_loc_assign; [done|by rewrite length_entry_mask]).
    destruct (t !! i) as [r|] eqn:Hr.
    + assert (exists b, entry_mask d k !! i = Some b) as [b Hb].
      { apply lookup_lt_is_Some. rewrite length_entry_mask, <- Hlen.
        by eapply lookup_lt_Some. }
      rewrite (lookup_loc_assign _ _ _ _ _ _ Hr Hb), Hb. done.
    + assert (loc_assign t (entry_mask d k) v !! i = None) as ->; [|done].
      apply lookup_ge_None. rewrite length_loc_assign.
      * by apply lookup_ge_None.
      * by rewrite length_entry_mask.
Qed.

(** A chain of conditional assignments either leaves a row alone or
    assigns one fixed name. *)
Lemma assignments_shape (steps : list (bool * string)) :
  (forall r, fold_left (fun r (e : bool * string) =>
               if fst e then set_Proposed_New_Name (snd e) r else r) steps r = r)
  \/ (exists v, forall r,
        fold_left (fun r (e : bool * string) =>
          if fst e then set_Proposed_New_Name (snd e) r else r) steps r
        = set_Proposed_New_Name v r).
Proof.
  induction steps as [|[b v] steps IH].
  - by left.
  - simpl. destruct IH as [Hid | [v' Hset]].
    + destruct b; [|by left]. right. exists v. intros r. by rewrite Hid.
    + right. exists v'. intros r. rewrite Hset. by destruct b.
Qed.

Lemma fold_entries_steps d p (i : nat) (r : Row) :
  fold_left (fun r e => if default false (entry_mask d (fst e) !! i)
                        then set_Proposed_New_Name (snd e) r else r) p r
  = fold_left (fun r (e : bool * string) =>
                 if fst e then set_Proposed_New_Name (snd e) r else r)
              (map (fun e => (default false (entry_mask d (fst e) !! i), snd e)) p)
              r.
Proof.
  revert r. induction p as [|e p IH]; intros r; [done|]. simpl. by rewrite IH.
Qed.

Lemma table_after_column {X : Type} (col : Row -> X) d p t :
  (forall v r, col (set_Proposed_New_Name v r) = col r) ->
  length t = length d ->
  map col (table_after d p t) = map col t.
Proof.
  intros Hcol Hlen. apply list_eq. intros i.
  rewrite !list_lookup_fmap, table_after_lookup by done.
  destruct (t !! i) as [r|]; [|done]. simpl. f_equal.
  rewrite fold_entries_steps.
  destruct (assignments_shape
    (map (fun e => (default false (entry_mask d (fst e) !! i), snd e)) p))
    as [Hid | [v Hset]].
  - by rewrite Hid.
  - by rewrite Hset, Hcol.
Qed.

Lemma table_after_same_keys d d' p t :
  map Full_Path d' = map Full_Path d ->
  map Original_Name d' = map Original_Name d ->
  table_after d' p t = table_after d p t.
Proof.
  intros HF HO. revert t. induction p as [|[k v] p IH]; intros t; [done|].
  simpl. by rewrite (entry_mask_keys d d' k HF HO), IH.
Qed.

Lemma flushed_table_eq d p : flushed_table d p = table_after d p d.
Proof. unfold flushed_table. by rewrite apply_pending_changes_unfold. Qed.

(** For every table and every buffer, the flush keeps the number of rows
    and every column other than [Proposed New Name]; and flushing the same
    buffer a second time changes nothing more. *)
Theorem flush_changes_names_only d p :
  length (flushed_table d p) = length d
  /\ map Type_ (flushed_table d p) = map Type_ d
  /\ map Original_Name (flushed_table d p) = map Original_Name d
  /\ map Full_Path (flushed_table d p) = map Full_Path d
  /\ map Created_Date (flushed_table d p) = map Created_Date d
  /\ map Timestamp_ (flushed_table d p) = map Timestamp_ d
  /\ map Action_ (flushed_table d p) = map Action_ d
  /\ flushed_table (flushed_table d p) p = flushed_table d p.
Proof.
  rewrite !flushed_table_eq.
  assert (length (table_after d p d) = length d) as Hlen.
  { rewrite <- (length_map Full_Path (table_after d p d)),
            (table_after_column Full_Path) by done. apply length_map. }
  split_and!; try (by apply table_after_column); [done|].
  rewrite (table_after_same_keys d (table_after d p d))
    by (by apply table_after_column).
  apply list_eq. intros i. rewrite !table_after_lookup by done.
  destruct (d !! i) as [r|]; [|done]. simpl. f_equal.
  rewrite !fold_entries_steps.
  destruct (assignments_shape
    (map (fun e => (default false (entry_mask d (fst e) !! i), snd e)) p))
    as [Hid | [v Hset]].
  - by rewrite !Hid.
  - by rewrite !Hset.
Qed.

End FlushFrame.

(** ** More on splitting and joining *)

Section SplitJoin.

(** Joining the pieces of a split gives the string back. *)
Lemma join_split sep s :
  PyStr.join (String sep EmptyString) (PyStr.split sep s) = s.
Proof.
  induction s as [|c s IH]; [done|]. simpl PyStr.split.
  destruct (Ascii.eqb c sep) eqn:Hc.
  - apply Ascii.eqb_eq in Hc. subst c.
    destruct (PyStr.split sep s) as [|p ps] eqn:Hs; [by destruct (split_nonempty sep s)|].
    change (PyStr.join (String sep EmptyString) (EmptyString :: p :: ps))
      with (String sep (PyStr.join (String sep EmptyString) (p :: ps))).
    by rewrite IH.
  - destruct (PyStr.split sep s) as [|p ps] eqn:Hs; [by destruct (split_nonempty sep s)|].
    rewrite <- IH. by destruct ps.
Qed.

Lemma split_app sep a b :
  PyStr.split sep (a ++ String sep b) = (PyStr.split sep a ++ PyStr.split sep b)%list.
Proof.
  induction a as [|c a IH]; simpl.
  - by rewrite Ascii.eqb_refl.
  - rewrite IH. destruct (Ascii.eqb c sep); [done|].
    destruct (PyStr.split sep a) as [|p ps] eqn:Ha; [by destruct (split_nonempty sep a)|].
    done.
Qed.

(** The pieces of each part are pieces of the join. *)
Lemma split_join_pieces sep parts x piece :
  x ∈ parts -> piece ∈ PyStr.split sep x ->
  piece ∈ PyStr.split sep (PyStr.join (String sep EmptyString) parts).
Proof.
  induction parts as [|p ps IH]; intros Hx Hpiece; [by apply elem_of_nil in Hx|].
  destruct ps as [|p' ps].
  - apply list_elem_of_singleton in Hx. by subst.
  - change (PyStr.join (String sep EmptyString) (p :: p' :: ps))
      with (p ++ String sep (PyStr.join (String sep EmptyString) (p' :: ps))).
    rewrite split_app. apply elem_of_app.
    apply elem_of_cons in Hx as [->|Hx]; [by left|right; by apply IH].
Qed.

End SplitJoin.

(** ** The edit loop when nothing is typed, and what it cannot repair *)

Section EditLoop.

Lemma padded_parts_length name : (7 <= length (padded_parts name))%nat.
Proof. unfold padded_parts. rewrite length_app, length_replicate. lia. Qed.

Lemma edited_parts_untyped parts :
  (7 <= length parts)%nat ->
  edited_parts (fun _ => None) parts = take 7 parts.
Proof.
  intros Hlen. apply list_eq. intros i.
  destruct (fields !! i) as [field|] eqn:Hf.
  - rewrite (edited_parts_lookup _ _ _ _ Hf).
    assert (i < 7)%nat as Hi by (apply lookup_lt_Some in Hf; simpl in Hf; lia).
    rewrite lookup_take_lt by done. unfold part_at, text_input.
    destruct (parts !! i) as [p|] eqn:Hp.
    + simpl. by destruct (needs_update field p).
    + apply lookup_ge_None in Hp. lia.
  - assert (7 <= i)%nat as Hi by (apply lookup_ge_None in Hf; simpl in Hf; lia).
    rewrite lookup_take_ge by done.
    apply lookup_ge_None. rewrite edited_parts_length. lia.
Qed.

(** Saving a row without typing anything. The candidate's fields are the
    first seven of the current name's pieces, padded with empty ones; so
    the candidate is the current name exactly when that name has seven
    underscore-separated pieces: a shorter name gains trailing underscores,
    and a longer one loses every piece after the seventh. *)
Theorem unedited_candidate (pending : list (string * string)) (row : Row) :
  PyStr.split "_" (new_proposed (fun _ => None) pending row)
  = take 7 (padded_parts (current_name pending row))
  /\ (new_proposed (fun _ => None) pending row = current_name pending row
      <-> length (PyStr.split "_" (current_name pending row)) = 7%nat)
  /\ ((7 < length (PyStr.split "_" (current_name pending row)))%nat ->
      PyStr.split "_" (new_proposed (fun _ => None) pending row)
      = take 7 (PyStr.split "_" (current_name pending row))).
Proof.
  assert (PyStr.split "_" (new_proposed (fun _ => None) pending row)
          = take 7 (padded_parts (current_name pending row))) as Hsplit.
  { unfold new_proposed.
    rewrite edited_parts_untyped by apply padded_parts_length.
    apply split_join.
    - intros Hnil. apply (f_equal length) in Hnil.
      rewrite length_take_le in Hnil by apply padded_parts_length. done.
    - apply Forall_take, padded_parts_free. }
  split_and!; [done| |].
  - split.
    + intros Heq. rewrite Heq in Hsplit. rewrite Hsplit.
      apply length_take_le, padded_parts_length.
    + intros Hlen. unfold new_proposed.
      rewrite edited_parts_untyped by apply padded_parts_length.
      unfold padded_parts. rewrite Hlen. simpl replicate.
      rewrite app_nil_r, take_ge by lia. apply join_split.
  - intros Hlen. rewrite Hsplit. unfold padded_parts.
    by rewrite take_app_le by lia.
Qed.

(** A placeholder that sits in another field's position stays. If some
    piece of the current name, at a position below seven, equals a
    placeholder after [lower()] while the test for its own field fails,
    then the field is locked and the candidate is flagged again, whatever
    the operator types. *)
Theorem misplaced_placeholder_stays (typed : nat -> option string)
    (pending : list (string * string)) (row : Row)
    (j : nat) (field part ph : string) :
  fields !! j = Some field ->
  PyStr.split "_" (current_name pending row) !! j = Some part ->
  ph ∈ placeholders ->
  PyStr.lower ph = PyStr.lower part ->
  needs_update field part = false ->
  has_placeholder (new_proposed typed pending row) = true.
Proof.
  intros Hfield Hpart Hph Heq Hlocked.
  apply has_placeholder_iff. exists part, ph. split_and!; [|done..].
  assert (part_at (padded_parts (current_name pending row)) j = part) as Hat.
  { unfold part_at, padded_parts. by rewrite lookup_app_l_Some with (x := part). }
  unfold new_proposed. apply (split_join_pieces _ _ part).
  - apply list_elem_of_lookup. exists j.
    by rewrite (edited_parts_lookup _ _ _ _ Hfield), Hat, Hlocked.
  - rewrite split_free; [by apply list_elem_of_singleton|].
    rewrite <- Hat. apply part_at_free, padded_parts_free.
Qed.

End EditLoop.

(** "Acme_Brand_Web": Brand sits in the Campaign position. *)
Lemma misplaced_placeholder_stays_witness :
  has_placeholder
    (new_proposed (Demo.types 1 "Spring") []
       (set_Proposed_New_Name "Acme_Brand_Web" Demo.row1)) = true.
Proof.
  apply (misplaced_placeholder_stays _ _ _ 1%nat "Campaign" "Brand" "Brand");
    [reflexivity | reflexivity | | reflexivity | reflexivity].
  apply (bool_decide_unpack _). vm_compute. exact I.
Defined.

Example unedited_long_name_is_cut :
  new_proposed (fun _ => None) []
    (set_Proposed_New_Name "Acme_Spring_Web_Logo_PNG_V1_20240101_final_Date" Demo.row1)
  = "Acme_Spring_Web_Logo_PNG_V1_20240101".
Proof. reflexivity. Qed.

(** ** The path of a row *)

Section PathSegments.









End PathSegments.

Example path_with_base_and_backslashes :
  file_path_segments_of "\\cog culture repository\CLIENTS\Aarize Group\\Social\post.png\"
  = ["Social"; "post.png"].
Proof. reflexivity. Qed.

(** ** The buffer under Save Change and Reset *)

Section BufferInvariants.

Context {V : Type}.
Implicit Types (d : list (string * V)).

Lemma dict_get_None k d : Dict.get k d = None <-> k ∉ Dict.keys d.
Proof.
  induction d as [|[k' v'] d IH]; simpl.
  - split; [intros _; apply not_elem_of_nil|done].
  - destruct (String.eqb k' k) eqn:Hk.
    + apply String.eqb_eq in Hk. subst. split; [done|]. intros Hnot.
      destruct Hnot. by left.
    + apply String.eqb_neq in Hk. rewrite IH, not_elem_of_cons.
      split; [intros ?; split; [congruence|done] | by intros [_ ?]].
Qed.

Lemma dict_keys_set k v d :
  Dict.keys (Dict.set k v d)
  = if Dict.mem k d then Dict.keys d else (Dict.keys d ++ [k])%list.
Proof.
  unfold Dict.mem. induction d as [|[k' v'] d IH]; simpl; [done|].
  destruct (String.eqb k' k) eqn:Hk; simpl.
  - apply String.eqb_eq in Hk. by subst.
  - rewrite IH. by destruct (Dict.get k d).
Qed.

Lemma dict_set_wf k v d : Dict.wf d -> Dict.wf (Dict.set k v d).
Proof.
  unfold Dict.wf. intros Hwf. rewrite dict_keys_set. unfold Dict.mem.
  destruct (Dict.get k d) eqn:Hget; [done|].
  apply NoDup_app. split_and!; [done| |apply NoDup_singleton].
  intros x Hx Hk. apply list_elem_of_singleton in Hk. subst.
  by apply dict_get_None in Hget.
Qed.

Lemma dict_get_set_ne k k' v d :
  k' <> k -> Dict.get k' (Dict.set k v d) = Dict.get k' d.
Proof.
  intros Hne. induction d as [|[k0 v0] d IH]; simpl.
  - apply String.eqb_neq in Hne. rewrite String.eqb_sym in Hne. by rewrite Hne.
  - destruct (String.eqb k0 k) eqn:Hk; simpl.
    + apply String.eqb_eq in Hk. subst k0.
      assert (String.eqb k k' = false) as -> by (apply String.eqb_neq; congruence).
      done.
    + by rewrite IH.
Qed.

Lemma dict_get_del_ne k k' d :
  k' <> k -> Dict.get k' (Dict.del k d) = Dict.get k' d.
Proof.
  intros Hne. unfold Dict.del. induction d as [|[k0 v0] d IH]; [done|].
  destruct (decide (k0 = k)) as [->|Hk0].
  - rewrite filter_cons_False by (simpl; tauto). simpl.
    assert (String.eqb k k' = false) as -> by (apply String.eqb_neq; congruence).
    done.
  - rewrite filter_cons_True by done. simpl. by rewrite IH.
Qed.

Lemma dict_del_wf k d : Dict.wf d -> Dict.wf (Dict.del k d).
Proof.
  unfold Dict.wf, Dict.del, Dict.keys. intros Hwf.
  pose proof (fmap_sublist fst _ _
                (sublist_filter (fun kv : string * V => fst kv <> k) d)) as Hsub.
  by eapply sublist_NoDup.
Qed.

Lemma dict_del_absent k d : k ∉ Dict.keys d -> Dict.del k d = d.
Proof.
  unfold Dict.del. induction d as [|[k0 v0] d IH]; [done|].
  simpl. intros Hnot. apply not_elem_of_cons in Hnot as [Hne Hnot].
  rewrite filter_cons_True by (simpl; congruence). by rewrite IH.
Qed.

Lemma dict_del_length k d :
  Dict.wf d -> Dict.mem k d = true ->
  S (length (Dict.del k d)) = length d.
Proof.
  unfold Dict.wf, Dict.mem. induction d as [|[k0 v0] d IH]; [done|].
  simpl. intros Hwf Hmem. apply NoDup_cons in Hwf as [Hk0 Hwf].
  destruct (String.eqb k0 k) eqn:Hk.
  - apply String.eqb_eq in Hk. subst k0. unfold Dict.del.
    rewrite filter_cons_False by (simpl; tauto).
    fold (Dict.del k d). by rewrite dict_del_absent.
  - apply String.eqb_neq in Hk. unfold Dict.del.
    rewrite filter_cons_True by done. simpl. fold (Dict.del k d).
    by rewrite IH.
Qed.

End BufferInvariants.

Section SaveResetBuffer.
Context {W : Type} `{Services W}.

Lemma on_reset_pending_eq (row : Row) (rt : Runtime W) :
  pending_changes (session (snd (on_reset row rt)))
  = if Dict.mem (Full_Path row) (pending_changes (session rt))
    then Dict.del (Full_Path row) (pending_changes (session rt))
    else pending_changes (session rt).
Proof.
  unfold on_reset, bind, modify, save_state_to_supabase. simpl.
  destruct (supabase_save_state _ _ _). simpl. by destruct (Dict.mem _ _).
Qed.

(** The buffer holds one entry per [Full Path]. In a buffer with distinct
    keys, Save Change for a row keeps the keys distinct, leaves the entry
    of every other path as it was, and adds one entry only when the row's
    path had none (rows that share a path share the entry); Reset keeps
    the keys distinct, leaves every other entry as it was, and removes one
    entry when the path had one and none otherwise. *)
Theorem save_and_reset_keep_buffer (row : Row) (candidate : string)
    (rt : Runtime W) :
  Dict.wf (pending_changes (session rt)) ->
  (Dict.wf (pending_changes (session (snd (on_save_change row candidate rt))))
   /\ (forall k, k <> Full_Path row ->
         Dict.get k (pending_changes (session (snd (on_save_change row candidate rt))))
         = Dict.get k (pending_changes (session rt)))
   /\ len (pending_changes (session (snd (on_save_change row candidate rt))))
      = len (pending_changes (session rt))
        + (if Dict.mem (Full_Path row) (pending_changes (session rt)) then 0 else 1))
  /\ (Dict.wf (pending_changes (session (snd (on_reset row rt))))
      /\ (forall k, k <> Full_Path row ->
            Dict.get k (pending_changes (session (snd (on_reset row rt))))
            = Dict.get k (pending_changes (session rt)))
      /\ len (pending_changes (session (snd (on_reset row rt))))
         = len (pending_changes (session rt))
           - (if Dict.mem (Full_Path row) (pending_changes (session rt))
              then 1 else 0)).
Proof.
  intros Hwf. split.
  - rewrite on_save_change_pending. split_and!.
    + by apply dict_set_wf.
    + intros k Hk. by apply dict_get_set_ne.
    + unfold len.
      rewrite <- (length_map fst (Dict.set _ _ _)),
              <- (length_map fst (pending_changes _)).
      fold (Dict.keys (Dict.set (Full_Path row) candidate
                         (pending_changes (session rt)))).
      fold (Dict.keys (pending_changes (session rt))).
      rewrite dict_keys_set. destruct (Dict.mem _ _); [lia|].
      rewrite length_app. simpl. lia.
  - rewrite on_reset_pending_eq.
    destruct (Dict.mem _ _) eqn:Hmem.
    + split_and!.
      * by apply dict_del_wf.
      * intros k Hk. by apply dict_get_del_ne.
      * pose proof (dict_del_length (Full_Path row) _ Hwf Hmem) as Hlen.
        unfold len. lia.
    + split_and!; [done|done|lia].
Qed.

End SaveResetBuffer.

(** Two rows that share a path: the second save replaces the first. *)
Lemma save_and_reset_keep_buffer_witness :
  pending_changes
    (session (snd (on_save_change Demo.row3 "Acme_B"
       (Demo.start Demo.empty_world
          (with_pending_changes [(Full_Path Demo.row1, "Acme_A")]
                                initial_session)))))
  = [(Full_Path Demo.row1, "Acme_B")]
  /\ len (pending_changes
       (session (snd (on_save_change Demo.row3 "Acme_B"
          (Demo.start Demo.empty_world
             (with_pending_changes [(Full_Path Demo.row1, "Acme_A")]
                                   initial_session)))))) = 1.
Proof.
  split; [reflexivity|].
  refine (proj2 (proj2 (proj1 (save_and_reset_keep_buffer Demo.row3 "Acme_B"
    (Demo.start Demo.empty_world
       (with_pending_changes [(Full_Path Demo.row1, "Acme_A")]
                             initial_session)) _)))).
  apply NoDup_singleton.
Defined.

(** ** Descending and caching *)

Section Descent.
Context {W : Type} `{Services W}.

(** The descent through the row's own folders ends in the deepest folder
    it has found. Starting from a folder id that is set, it completes
    normally with a folder id that is set. With no segment left it makes no
    lookup and returns the folder it is in; when the next segment is found
    under the current folder it goes on from the folder found, in the
    state the lookup left; when the next segment is not found it stops and
    returns the current folder, whatever segments remain. *)
Theorem descend_path_keeps_a_parent (svc : option Service)
    (segs : list string) (parent_id : option string) :
  truthy_opt parent_id = true ->
  returns (descend_path svc segs parent_id) (fun r => truthy_opt r = true)
  /\ (forall rt : Runtime W, descend_path svc [] parent_id rt = (Ok parent_id, rt))
  /\ (forall (rt rt1 : Runtime W) seg rest found,
        find_folder_id svc seg parent_id rt = (Ok found, rt1) ->
        truthy_opt found = true ->
        descend_path svc (seg :: rest) parent_id rt
        = descend_path svc rest found rt1)
  /\ (forall (rt rt1 : Runtime W) seg rest missing,
        find_folder_id svc seg parent_id rt = (Ok missing, rt1) ->
        truthy_opt missing = false ->
        descend_path svc (seg :: rest) parent_id rt = (Ok parent_id, rt1)).
Proof.
  intros Hparent. split_and!.
  - revert parent_id Hparent.
    induction segs as [|seg rest IH]; intros parent_id Hparent; simpl.
    + by apply returns_ret.
    + eapply returns_bind; [apply returns_find_folder_id|].
      intros folder_id _. destruct (truthy_opt folder_id) eqn:Hf.
      * by apply IH.
      * by apply returns_ret.
  - done.
  - intros rt rt1 seg rest found Hrun Hfound.
    simpl. unfold bind. by rewrite Hrun, Hfound.
  - intros rt rt1 seg rest missing Hrun Hmissing.
    simpl. unfold bind. by rewrite Hrun, Hmissing.
Qed.

Lemma cache_data_twice {K V : Type} `{Countable K}
    (memo : Runtime W -> gmap K (V * Z)) set_memo (k : K)
    (body body' : M W V) (rt : Runtime W) :
  (forall m rt, memo (set_memo m rt) = m) ->
  (forall m rt, world (set_memo m rt) = world rt) ->
  returns body (fun _ => True) ->
  exists v rt1,
    cache_data 3600 memo set_memo k body rt = (Ok v, rt1)
    /\ cache_data 3600 memo set_memo k body' rt1 = (Ok v, rt1).
Proof.
  intros Hmemo Hworld Hbody.
  destruct (Hbody rt) as (v & rt1 & Hrun & _).
  assert (exists rt2,
            match body rt with
            | (Ok v, rt') =>
                (Ok v, set_memo (<[k:=(v, clock (world rt'))]> (memo rt')) rt')
            | other => other
            end = (Ok v, rt2)
            /\ cache_data 3600 memo set_memo k body' rt2 = (Ok v, rt2))
    as (rt2 & Hstore & Hagain).
  { rewrite Hrun. eexists. split; [done|].
    unfold cache_data. rewrite Hmemo, lookup_insert_eq, Hworld.
    by rewrite Z.sub_diag. }
  unfold cache_data at 1.
  destruct (memo rt !! k) as [[v0 t]|] eqn:Hhit; [|by eauto].
  destruct (clock (world rt) - t <? 3600) eqn:Hyoung; [|by eauto].
  exists v0, rt. split; [done|]. unfold cache_data. by rewrite Hhit, Hyoung.
Qed.

(** A lookup repeated at once is answered from the store: for every state,
    the second of two lookups of the same (name, parent) pair returns what
    the first returned and changes nothing, so it sends no query; this
    holds also when the second goes through another service (or none),
    since the service is not part of the key, and also when the first found
    nothing. The same holds of the file lookup in a folder. *)
Theorem lookups_repeat_from_store (svc svc' : option Service) (rt : Runtime W) :
  (forall name parent,
     exists v rt1,
       find_folder_id svc name parent rt = (Ok v, rt1)
       /\ find_folder_id svc' name parent rt1 = (Ok v, rt1))
  /\ (forall parent filename,
        exists v rt1,
          get_file_in_folder svc parent filename rt = (Ok v, rt1)
          /\ get_file_in_folder svc' parent filename rt1 = (Ok v, rt1)).
Proof.
  split.
  - intros name parent. apply cache_data_twice; [done|done|].
    apply returns_find_folder_id_body.
  - intros parent filename. apply cache_data_twice; [done|done|].
    apply returns_get_file_in_folder_body.
Qed.

End Descent.

(** From folder B, "Aarize Group" is found (folder C) and "Clients" is not
    found under C: the descent ends in C. *)
Lemma descend_path_keeps_a_parent_witness :
  fst (descend_path Demo.service ["Aarize Group"; "Clients"] (Some "B")
         (Demo.start (Demo.mkWorld 0 store_with_logo false false [])
                     initial_session))
  = Ok (Some "C").
Proof.
  destruct (descend_path_keeps_a_parent Demo.service
              ["Aarize Group"; "Clients"] (Some "B") eq_refl
              (W := Demo.World))
    as (_ & _ & Hstep & _).
  destruct (descend_path_keeps_a_parent Demo.service
              ["Clients"] (Some "C") eq_refl (W := Demo.World))
    as (_ & _ & _ & Hmiss).
  rewrite (Hstep (Demo.start (Demo.mkWorld 0 store_with_logo false false [])
                             initial_session)
                 (snd (find_folder_id Demo.service "Aarize Group" (Some "B")
                         (Demo.start
                            (Demo.mkWorld 0 store_with_logo false false [])
                            initial_session)))
                 "Aarize Group" ["Clients"] (Some "C"));
    [|vm_compute; reflexivity|reflexivity].
  rewrite (Hmiss (snd (find_folder_id Demo.service "Aarize Group" (Some "B")
                         (Demo.start
                            (Demo.mkWorld 0 store_with_logo false false [])
                            initial_session)))
                 (snd (find_folder_id Demo.service "Clients" (Some "C")
                         (snd (find_folder_id Demo.service "Aarize Group"
                                 (Some "B")
                                 (Demo.start
                                    (Demo.mkWorld 0 store_with_logo false false [])
                                    initial_session)))))
                 "Clients" [] None);
    [reflexivity|vm_compute; reflexivity|reflexivity].
Defined.

(** ** What a resolution does to the outside *)

Section LogRules.
Context {W : Type} `{Services W}.
Context (P : Event -> bool).

Lemma adds_nothing {A} (m : M W A) :
  (forall rt, trace (snd (m rt)) = trace rt) -> adds_only P m.
Proof. intros Hm rt. exists []. by rewrite app_nil_r, Hm. Qed.

Lemma adds_ret {A} (a : A) : adds_only P (ret a : M W A).
Proof. by apply adds_nothing. Qed.

Lemma adds_raise {A} e : adds_only P (raise e : M W A).
Proof. by apply adds_nothing. Qed.

Lemma adds_call {A} ev (f : W -> (Exc + A) * W) :
  P ev = true -> adds_only P (call ev f).
Proof.
  intros Hev rt. exists [ev]. unfold call.
  destruct (f (world rt)) as [[e|a] w']; simpl; by repeat constructor.
Qed.

Lemma adds_bind {A B} (m : M W A) (k : A -> M W B) :
  adds_only P m -> (forall a, adds_only P (k a)) -> adds_only P (bind m k).
Proof.
  intros Hm Hk rt. unfold bind. destruct (Hm rt) as (added & Htrace & Hadded).
  destruct (m rt) as [[a|e|c] rt1]; simpl in *; [|by eauto..].
  destruct (Hk a rt1) as (added' & Htrace' & Hadded').
  exists (added ++ added')%list. split.
  - by rewrite Htrace', Htrace, app_assoc.
  - by apply Forall_app.
Qed.

Lemma adds_try {A} (m : M W A) (h : Exc -> M W A) :
  adds_only P m -> (forall e, adds_only P (h e)) -> adds_only P (try_except m h).
Proof.
  intros Hm Hh rt. unfold try_except. destruct (Hm rt) as (added & Htrace & Hadded).
  destruct (m rt) as [[a|e|c] rt1]; simpl in *; [by eauto| |by eauto].
  destruct (Hh e rt1) as (added' & Htrace' & Hadded').
  exists (added ++ added')%list. split.
  - by rewrite Htrace', Htrace, app_assoc.
  - by apply Forall_app.
Qed.

Lemma adds_if {A} (b : bool) (m1 m2 : M W A) :
  adds_only P m1 -> adds_only P m2 -> adds_only P (if b then m1 else m2).
Proof. by destruct b. Qed.

Lemma adds_cache_data {K V} `{Countable K} ttl
    (memo : Runtime W -> gmap K (V * Z)) set_memo (k : K) (body : M W V) :
  (forall m rt, trace (set_memo m rt) = trace rt) ->
  adds_only P body -> adds_only P (cache_data ttl memo set_memo k body).
Proof.
  intros Hset Hbody rt. unfold cache_data.
  assert (exists added,
            trace (snd match body rt with
                       | (Ok v, rt') =>
                           (Ok v, set_memo (<[k:=(v, clock (world rt'))]> (memo rt')) rt')
                       | other => other
                       end) = (trace rt ++ added)%list
            /\ Forall (fun ev => P ev = true) added) as Hrun.
  { destruct (Hbody rt) as (added & Htrace & Hadded). exists added.
    destruct (body rt) as [[v|e|c] rt']; simpl in *; [by rewrite Hset|done..]. }
  destruct (memo rt !! k) as [[v t]|]; [|done].
  destruct (clock (world rt) - t <? ttl); [|done].
  exists []. by rewrite app_nil_r.
Qed.

End LogRules.

Section ResolverLog.
Context {W : Type} `{Services W}.

Lemma adds_drive_files_list svc q fields pageSize :
  adds_only is_read (drive_files_list svc q fields pageSize : M W _).
Proof. destruct svc; simpl; [by apply adds_call|apply adds_raise]. Qed.

Lemma adds_find_folder_id svc name parent :
  adds_only is_read (find_folder_id svc name parent : M W _).
Proof.
  apply adds_cache_data; [done|]. unfold find_folder_id_body.
  apply adds_try; [|intros e; apply adds_ret].
  apply adds_bind; [apply adds_drive_files_list|].
  intros [|item items]; apply adds_ret.
Qed.

Lemma adds_get_file_in_folder svc parent filename :
  adds_only is_read (get_file_in_folder svc parent filename : M W _).
Proof.
  apply adds_cache_data; [done|]. unfold get_file_in_folder_body.
  apply adds_try; [|intros e; apply adds_ret].
  apply adds_bind; [apply adds_drive_files_list|].
  intros [|item items]; apply adds_ret.
Qed.

Lemma adds_next_chunks s file_id more :
  adds_only is_read (next_chunks s file_id more : M W _).
Proof.
  induction more as [|more IH]; simpl;
    (apply adds_bind; [by apply adds_call|intros _]); [apply adds_ret|apply IH].
Qed.

Lemma adds_download_file_to_temp svc file_id hint :
  adds_only is_read (download_file_to_temp svc file_id hint : M W _).
Proof.
  unfold download_file_to_temp, download_attempt.
  apply adds_try; [|intros e; apply adds_ret].
  apply adds_bind.
  { destruct svc; simpl; [by apply adds_call|apply adds_raise]. }
  intros meta. apply adds_bind; [by apply adds_call|]. intros tmp.
  apply adds_bind; [|intros _; apply adds_ret].
  destruct svc as [s|]; simpl; [|apply adds_raise].
  intros rt. apply adds_next_chunks.
Qed.

Lemma adds_descend_base svc segs parent :
  adds_only is_read (descend_base svc segs parent : M W _).
Proof.
  revert parent. induction segs as [|seg rest IH]; intros parent; simpl;
    [apply adds_ret|].
  apply adds_bind; [apply adds_find_folder_id|]. intros found.
  apply adds_bind.
  - apply adds_if; [apply adds_find_folder_id|apply adds_ret].
  - intros parent'. apply adds_if; [apply adds_ret|apply IH].
Qed.

Lemma adds_descend_path svc segs parent :
  adds_only is_read (descend_path svc segs parent : M W _).
Proof.
  revert parent. induction segs as [|seg rest IH]; intros parent; simpl;
    [apply adds_ret|].
  apply adds_bind; [apply adds_find_folder_id|]. intros folder_id.
  apply adds_if; [apply IH|apply adds_ret].
Qed.

Lemma adds_search_anywhere svc name res :
  adds_only is_read (search_anywhere svc name res : M W _).
Proof.
  unfold search_anywhere. destruct (file_meta res); [apply adds_ret|].
  apply adds_bind.
  - apply adds_try; [|intros e; apply adds_ret].
    apply adds_bind; [apply adds_drive_files_list|]. intros items. apply adds_ret.
  - intros [item|]; [|apply adds_ret].
    apply adds_try; [|intros e; apply adds_ret].
    apply adds_bind; [apply adds_download_file_to_temp|]. intros d. apply adds_ret.
Qed.

Lemma adds_locate_file svc row :
  adds_only is_read (locate_file svc row : M W _).
Proof.
  unfold locate_file.
  apply adds_bind; [apply adds_descend_base|]. intros p1.
  apply adds_bind.
  { apply adds_if; [apply adds_find_folder_id|apply adds_ret]. }
  intros p2. apply adds_bind.
  { apply adds_if; [apply adds_descend_path|apply adds_ret]. }
  intros p3. apply adds_bind.
  { apply adds_if; [|apply adds_ret].
    apply adds_bind; [apply adds_get_file_in_folder|].
    intros [item|]; [|apply adds_ret].
    apply adds_bind; [apply adds_download_file_to_temp|]. intros d. apply adds_ret. }
  intros r1. apply adds_bind; [apply adds_search_anywhere|].
  intros r2. apply adds_search_anywhere.
Qed.

(** A resolution only reads. Whatever the service, the row and the state,
    everything [get_file_from_drive] adds to the log is a Drive query, a
    metadata fetch, a chunk download or the creation of a scratch file: it
    shows no message, persists nothing and never touches the bucket; and in
    the session it leaves the buffer, the index, the service, the table,
    the flagged rows and the last saved file as they were. *)
Theorem resolution_only_reads (svc : option Service) (row : Row) :
  adds_only (fun ev => is_drive_call ev || is_temp_file ev)
            (get_file_from_drive svc row : M W Resolution)
  /\ preserves pending_changes (get_file_from_drive svc row : M W Resolution)
  /\ preserves index (get_file_from_drive svc row : M W Resolution)
  /\ preserves drive_service (get_file_from_drive svc row : M W Resolution)
  /\ preserves df (get_file_from_drive svc row : M W Resolution)
  /\ preserves invalid_rows (get_file_from_drive svc row : M W Resolution)
  /\ preserves last_saved_file (get_file_from_drive svc row : M W Resolution).
Proof.
  split_and!; try (by apply preserves_get_file_from_drive).
  unfold get_file_from_drive. apply adds_bind; [by apply adds_nothing|].
  intros fc. destruct (fc !! cache_key row); [apply adds_ret|].
  unfold resolve_uncached. apply adds_bind; [apply adds_locate_file|].
  intros result. apply adds_bind; [by apply adds_nothing|].
  intros _. apply adds_ret.
Qed.

(** ** The download *)

Lemma next_chunks_run (s : Service) file_id more (rt : Runtime W) w' :
  chunks_from s file_id (S more) (world rt) = Some w' ->
  next_chunks s file_id more rt
  = (Ok tt,
     with_trace (trace rt ++ replicate (S more) (EvDriveChunk file_id))
                (with_world w' rt)).
Proof.
  revert rt. induction more as [|more IH]; intros rt Hrun.
  - simpl in *. unfold bind, call, ret.
    destruct (next_chunk s file_id (world rt)) as [[e|[]] w1]; [done|].
    injection Hrun as <-. done.
  - change (next_chunks s file_id (S more))
      with (bind (call (EvDriveChunk file_id) (next_chunk s file_id))
                 (fun _ => next_chunks s file_id more)).
    change (chunks_from s file_id (S (S more)) (world rt))
      with (match next_chunk s file_id (world rt) with
            | (inr _, w1) => chunks_from s file_id (S more) w1
            | (inl _, _) => None
            end) in Hrun.
    unfold bind at 1, call at 1.
    destruct (next_chunk s file_id (world rt)) as [[e|[]] w1]; [done|].
    rewrite IH by done. unfold with_trace, with_world. simpl.
    by rewrite <- app_assoc.
Qed.

Lemma next_chunks_stop (s : Service) file_id more (rt : Runtime W)
    (k : nat) wk e w' :
  (k <= more)%nat ->
  chunks_from s file_id k (world rt) = Some wk ->
  next_chunk s file_id wk = (inl e, w') ->
  next_chunks s file_id more rt
  = (Raise e,
     with_trace (trace rt ++ replicate (S k) (EvDriveChunk file_id))
                (with_world w' rt)).
Proof.
  revert rt k. induction more as [|more IH]; intros rt k Hk Hrun Hfail.
  - assert (k = 0%nat) as -> by lia. simpl in Hrun. injection Hrun as <-.
    simpl. unfold bind, call. by rewrite Hfail.
  - change (next_chunks s file_id (S more))
      with (bind (call (EvDriveChunk file_id) (next_chunk s file_id))
                 (fun _ => next_chunks s file_id more)).
    unfold bind at 1, call at 1. destruct k as [|k].
    + simpl in Hrun. injection Hrun as <-. by rewrite Hfail.
    + simpl in Hrun.
      destruct (next_chunk s file_id (world rt)) as [[e1|[]] w1]; [done|].
      rewrite (IH _ k) by (done || lia).
      unfold with_trace, with_world. simpl. by rewrite <- app_assoc.
Qed.

(** Once the metadata is fetched and the scratch file created, the
    download makes one [next_chunk] call per chunk of the file, and one at
    least. When these calls all succeed, one after the other from the
    world the scratch file was created in, the download returns the scratch
    file's name with the metadata's type, name and link. When one of them
    raises, the download stops there and returns four [None]s; the scratch
    file has been created and is left where it is. *)
Theorem download_after_scratch_file (s : Service) (file_id hint : string)
    (rt : Runtime W) (meta : FileMetadata) (w1 : W) (tmp : string) (w2 : W) :
  files_get s file_id (world rt) = (inr meta, w1) ->
  named_temporary_file (splitext_ext (default hint (fm_name meta))) w1
    = (inr tmp, w2) ->
  (forall w3,
     chunks_from s file_id (Nat.max 1 (media_chunks s file_id w2)) w2 = Some w3 ->
     download_file_to_temp (Some s) file_id hint rt
     = (Ok (Some tmp, fm_mimeType meta, fm_name meta, fm_webViewLink meta),
        with_trace
          (trace rt
           ++ [EvDriveGet file_id;
               EvTempFile (splitext_ext (default hint (fm_name meta)))]
           ++ replicate (Nat.max 1 (media_chunks s file_id w2))
                        (EvDriveChunk file_id))
          (with_world w3 rt)))
  /\ (forall (k : nat) wk e w3,
        (k < Nat.max 1 (media_chunks s file_id w2))%nat ->
        chunks_from s file_id k w2 = Some wk ->
        next_chunk s file_id wk = (inl e, w3) ->
        download_file_to_temp (Some s) file_id hint rt
        = (Ok no_download,
           with_trace
             (trace rt
              ++ [EvDriveGet file_id;
                  EvTempFile (splitext_ext (default hint (fm_name meta)))]
              ++ replicate (S k) (EvDriveChunk file_id))
             (with_world w3 rt))).
Proof.
  intros Hget Htmp.
  assert (Nat.max 1 (media_chunks s file_id w2)
          = S (Nat.pred (media_chunks s file_id w2))) as Hcalls by lia.
  split.
  - intros w3 Hchunks. rewrite Hcalls in Hchunks |- *.
    unfold download_file_to_temp, try_except, download_attempt.
    unfold bind at 1, drive_files_get, call at 1. rewrite Hget.
    unfold bind at 1, call at 1. simpl world. rewrite Htmp.
    unfold bind at 1, download_loop. simpl world.
    rewrite next_chunks_run with (w' := w3) by done.
    unfold with_trace, with_world, ret. simpl. by rewrite <- !app_assoc.
  - intros k wk e w3 Hk Hchunks Hfail. rewrite Hcalls in Hk.
    unfold download_file_to_temp, try_except, download_attempt.
    unfold bind at 1, drive_files_get, call at 1. rewrite Hget.
    unfold bind at 1, call at 1. simpl world. rewrite Htmp.
    unfold bind at 1, download_loop. simpl world.
    rewrite next_chunks_stop with (k := k) (wk := wk) (e := e) (w' := w3)
      by (done || lia).
    unfold with_trace, with_world, ret. simpl. by rewrite <- !app_assoc.
Qed.

End ResolverLog.

(** A file of three chunks: all three arrive; and a connection that drops
    at the first of them. *)
Lemma download_after_scratch_file_witness :
  download_file_to_temp (Some (ServiceFor [])) "F" "logo.png"
    (Faulty.start (Faulty.mkWorld false false false false) initial_session)
  = (Ok (Some "/tmp/tmp7.png", Some "image/png", Some "logo.png", None),
     with_trace [EvDriveGet "F"; EvTempFile ".png"; EvDriveChunk "F";
                 EvDriveChunk "F"; EvDriveChunk "F"]
       (Faulty.start (Faulty.mkWorld false false false false) initial_session))
  /\ download_file_to_temp (Some (ServiceFor [])) "F" "logo.png"
       (Faulty.start (Faulty.mkWorld false true false false) initial_session)
     = (Ok no_download,
        with_trace [EvDriveGet "F"; EvTempFile ".png"; EvDriveChunk "F"]
          (Faulty.start (Faulty.mkWorld false true false false) initial_session)).
Proof.
  split.
  - refine (proj1 (download_after_scratch_file (ServiceFor []) "F" "logo.png"
      (Faulty.start (Faulty.mkWorld false false false false) initial_session)
      (mkFileMetadata (Some "image/png") (Some "logo.png") None)
      (Faulty.mkWorld false false false false) "/tmp/tmp7.png"
      (Faulty.mkWorld false false false false) _ _)
      (Faulty.mkWorld false false false false) _); reflexivity.
  - refine (proj2 (download_after_scratch_file (ServiceFor []) "F" "logo.png"
      (Faulty.start (Faulty.mkWorld false true false false) initial_session)
      (mkFileMetadata (Some "image/png") (Some "logo.png") None)
      (Faulty.mkWorld false true false false) "/tmp/tmp7.png"
      (Faulty.mkWorld false true false false) _ _)
      0%nat (Faulty.mkWorld false true false false)
      (Faulty.os_error "connection reset")
      (Faulty.mkWorld false true false false) _ _ _);
      (reflexivity || (simpl; lia)).
Defined.

Example download_fetches_every_chunk :
  download_file_to_temp (Some (ServiceFor [])) "F" "logo.png"
    (Faulty.start (Faulty.mkWorld false false false false) initial_session)
  = (Ok (Some "/tmp/tmp7.png", Some "image/png", Some "logo.png", None),
     with_trace [EvDriveGet "F"; EvTempFile ".png"; EvDriveChunk "F";
                 EvDriveChunk "F"; EvDriveChunk "F"]
       (Faulty.start (Faulty.mkWorld false false false false) initial_session)).
Proof. reflexivity. Qed.

(** ** Persistence of the session state *)

Section PersistenceFacts.
Import Persistence.
Context {S : Type} `{Backend S}.

Lemma runtime_eta (rt : Runtime (Page S)) :
  with_world (with_backend (backend (world rt)) (world rt)) rt = rt.
Proof. by destruct rt as [[b s] tr fm flm ss]. Qed.

(** [get_user_id] settles the user id. When it returns [u], the session
    holds [u] and every later call returns [u] and changes nothing; a
    session that had no id now agrees with the page's query parameter, and
    a query parameter that was there is kept. Only the two [user_id]
    entries can change. It raises only when neither the session nor the
    query string has an id and the script run context fails, and then
    nothing has changed. *)
Theorem user_id_settles (rt : Runtime (Page S)) :
  match get_user_id rt with
  | (Ok u, rt1) =>
      user_id (browser (world rt1)) = Some u
      /\ get_user_id rt1 = (Ok u, rt1)
      /\ (user_id (browser (world rt)) = None ->
          query_user_id (browser (world rt1)) = Some u)
      /\ (forall q, query_user_id (browser (world rt)) = Some q ->
                    query_user_id (browser (world rt1)) = Some q)
      /\ backend (world rt1) = backend (world rt)
      /\ session rt1 = session rt
      /\ trace rt1 = trace rt
      /\ state_loaded (browser (world rt1)) = state_loaded (browser (world rt))
      /\ last_save_time (browser (world rt1)) = last_save_time (browser (world rt))
      /\ uploaded_excel_name (browser (world rt1))
         = uploaded_excel_name (browser (world rt))
  | (Raise e, rt1) =>
      rt1 = rt
      /\ user_id (browser (world rt)) = None
      /\ query_user_id (browser (world rt)) = None
      /\ session_id (backend (world rt)) = inl e
  | (Halt _, _) => False
  end.
Proof.
  destruct rt as [[[u q sl lst xl] s] tr fm flm ss].
  unfold get_user_id, bind, browser_gets, browser_modify, remote, ret. simpl.
  destruct u as [u|]; simpl.
  { split_and!; done. }
  destruct q as [q|]; simpl.
  { split_and!; done. }
  destruct (session_id s) as [e|sid] eqn:Hsid; simpl; [done|].
  split_and!; done.
Qed.

Example user_id_from_the_query_string :
  fst (get_user_id (start (new_browser (Some "u7") 0)
                          (mkStore [] 0 "run-1" true) initial_session))
  = Ok "u7".
Proof. reflexivity. Qed.

Lemma get_user_id_frame (rt : Runtime (Page S)) :
  session (snd (get_user_id rt)) = session rt
  /\ trace (snd (get_user_id rt)) = trace rt
  /\ folder_memo (snd (get_user_id rt)) = folder_memo rt
  /\ file_memo (snd (get_user_id rt)) = file_memo rt
  /\ timers (browser (world (snd (get_user_id rt)))) = timers (browser (world rt))
  /\ (forall c, fst (get_user_id rt) <> Halt c).
Proof.
  destruct rt as [[[u q sl lst xl] s] tr fm flm ss].
  unfold get_user_id, bind, browser_gets, browser_modify, remote, ret. simpl.
  destruct u as [u|]; simpl; [done|].
  destruct q as [q|]; simpl; [done|].
  destruct (session_id s) as [e|sid]; simpl; done.
Qed.

Lemma client_step (rt : Runtime (Page S)) :
  exists r rt1,
    get_supabase_client rt = (r, rt1)
    /\ (forall c, r <> Halt c)
    /\ session rt1 = session rt
    /\ trace rt1 = (trace rt ++ [EvSupabaseClient])%list
    /\ folder_memo rt1 = folder_memo rt
    /\ file_memo rt1 = file_memo rt
    /\ browser (world rt1) = browser (world rt).
Proof.
  unfold get_supabase_client, call. simpl.
  destruct (create_client (backend (world rt))) as [[e|[]] s']; simpl;
    eexists _, _; (split; [reflexivity|]); done.
Qed.

Lemma remote_step {A} (f : S -> (Exc + A) * S) (rt : Runtime (Page S)) :
  exists r rt1,
    remote f rt = (r, rt1)
    /\ (forall c, r <> Halt c)
    /\ session rt1 = session rt
    /\ trace rt1 = trace rt
    /\ folder_memo rt1 = folder_memo rt
    /\ file_memo rt1 = file_memo rt
    /\ browser (world rt1) = browser (world rt).
Proof.
  unfold remote. destruct (f (backend (world rt))) as [[e|a] s']; simpl;
    eexists _, _; (split; [reflexivity|]); done.
Qed.

Lemma save_state_frame (rt : Runtime (Page S)) :
  exists b rt',
    save_state_to_supabase rt = (Ok b, rt')
    /\ session rt' = session rt
    /\ trace rt' = (trace rt ++ [EvSupabaseClient])%list
    /\ folder_memo rt' = folder_memo rt
    /\ file_memo rt' = file_memo rt
    /\ state_loaded (browser (world rt')) = state_loaded (browser (world rt))
    /\ last_save_time (browser (world rt')) = last_save_time (browser (world rt))
    /\ uploaded_excel_name (browser (world rt'))
       = uploaded_excel_name (browser (world rt)).
Proof.
  unfold save_state_to_supabase, try_except.
  unfold bind at 1.
  destruct (client_step rt) as (r & rt1 & -> & Hr & Hs1 & Ht1 & Hfm1 & Hfl1 & Hb1).
  destruct r as [[]|e|c]; [|by eexists _, _; rewrite Hb1|by destruct (Hr c)].
  unfold bind at 1.
  destruct (get_user_id_frame rt1) as (Hs2 & Ht2 & Hfm2 & Hfl2 & Hb2 & Hh2).
  destruct (get_user_id rt1) as [[u|e|c] rt2]; simpl in *;
    [| |by destruct (Hh2 c)].
  2:{ injection Hb2 as ? ? ?. eexists _, _. split; [reflexivity|].
      split_and!; congruence. }
  unfold bind at 1, gets at 1. unfold bind at 1, gets at 1.
  unfold bind at 1, now at 1. unfold bind at 1, browser_gets at 1.
  unfold bind at 1. unfold bind at 1.
  destruct (remote_step (select_user_states u) rt2)
    as (r & rt3 & -> & Hr3 & Hs3 & Ht3 & Hfm3 & Hfl3 & Hb3).
  injection Hb2 as ? ? ?.
  destruct r as [existing|e|c]; [| |by destruct (Hr3 c)].
  2:{ eexists _, _. split; [reflexivity|]. simpl. rewrite Hb3.
      split_and!; congruence. }
  destruct existing as [|record existing]; unfold bind at 1, now at 1.
  - destruct (remote_step
                (insert_user_states
                   (mkUserState u
                      (Some (state_data_of u (pending_changes (session rt2))
                               (index (session rt2))
                               (time_now (backend (world rt2)))
                               (mjoin (uploaded_excel_name (browser (world rt2))))))
                      (time_now (backend (world rt3))))) rt3)
      as (r & rt4 & -> & Hr4 & Hs4 & Ht4 & Hfm4 & Hfl4 & Hb4).
    destruct r as [[]|e|c]; [| |by destruct (Hr4 c)];
      (eexists _, _; split; [reflexivity|]; simpl; rewrite Hb4, Hb3;
       split_and!; congruence).
  - destruct (remote_step
                (update_user_states u
                   (Some (state_data_of u (pending_changes (session rt2))
                            (index (session rt2))
                            (time_now (backend (world rt2)))
                            (mjoin (uploaded_excel_name (browser (world rt2))))))
                   (time_now (backend (world rt3)))) rt3)
      as (r & rt4 & -> & Hr4 & Hs4 & Ht4 & Hfm4 & Hfl4 & Hb4).
    destruct r as [[]|e|c]; [| |by destruct (Hr4 c)];
      (eexists _, _; split; [reflexivity|]; simpl; rewrite Hb4, Hb3;
       split_and!; congruence).
Qed.

(** Saving never fails the script, and touches nothing that the script
    works with. [save_state_to_supabase] returns [True] or [False] for
    every state and backend; the session (buffer, index, table, caches) is
    as before, the client is created exactly once, and on the browser side
    the load flag, the time of the last periodic save and the recorded
    file name are as before: a save made by a button does not restart the
    30-second period. *)
Theorem save_state_answers (rt : Runtime (Page S)) :
  exists b rt',
    save_state_to_supabase rt = (Ok b, rt')
    /\ session rt' = session rt
    /\ trace rt' = (trace rt ++ [EvSupabaseClient])%list
    /\ state_loaded (browser (world rt')) = state_loaded (browser (world rt))
    /\ last_save_time (browser (world rt')) = last_save_time (browser (world rt))
    /\ uploaded_excel_name (browser (world rt'))
       = uploaded_excel_name (browser (world rt)).
Proof.
  destruct (save_state_frame rt) as (b & rt' & Hrun & Hs & Ht & _ & _ & Hb).
  by exists b, rt'.
Qed.

Lemma get_user_id_backend (rt : Runtime (Page S)) :
  backend (world (snd (get_user_id rt))) = backend (world rt).
Proof.
  destruct rt as [[[u q sl lst xl] s] tr fm flm ss].
  unfold get_user_id, bind, browser_gets, browser_modify, remote, ret. simpl.
  destruct u as [u|]; simpl; [done|].
  destruct q as [q|]; simpl; [done|].
  destruct (session_id s) as [e|sid]; simpl; done.
Qed.

(** A restore that finds a readable record. *)
Lemma load_found (rt : Runtime (Page S)) s1 u rt1 record rest s2 sd :
  create_client (backend (world rt)) = (inr tt, s1) ->
  get_user_id (with_client s1 rt) = (Ok u, rt1) ->
  select_user_states u s1 = (inr (record :: rest), s2) ->
  us_state_data record = Some sd ->
  exists rt',
    load_state_from_supabase rt = (Ok true, rt')
    /\ session rt'
       = with_index (default 0 (sd_index sd))
           (with_pending_changes (default [] (sd_pending_changes sd))
                                 (session rt))
    /\ backend (world rt') = s2
    /\ browser (world rt')
       = with_uploaded_excel_name (Some (sd_excel_filename sd))
                                  (browser (world rt1))
    /\ trace rt' = (trace rt ++ [EvSupabaseClient])%list.
Proof.
  intros Hclient Hid Hsel Hsd.
  pose proof (get_user_id_backend (with_client s1 rt)) as Hback.
  destruct (get_user_id_frame (with_client s1 rt)) as (Hs & Ht & _).
  rewrite Hid in Hback, Hs, Ht. simpl in Hback, Hs, Ht.
  unfold load_state_from_supabase, try_except. unfold bind at 1.
  unfold get_supabase_client, call. rewrite Hclient.
  fold (with_client s1 rt). unfold bind at 1. rewrite Hid.
  unfold bind at 1, remote at 1. rewrite Hback, Hsel. rewrite Hsd.
  eexists. split; [reflexivity|]. simpl. by rewrite Hs, Ht.
Qed.

(** What a restore answers, and why. *)
Lemma load_cases (rt : Runtime (Page S)) :
  exists b rt',
    load_state_from_supabase rt = (Ok b, rt')
    /\ trace rt' = (trace rt ++ [EvSupabaseClient])%list
    /\ state_loaded (browser (world rt')) = state_loaded (browser (world rt))
    /\ last_save_time (browser (world rt')) = last_save_time (browser (world rt))
    /\ ((b = false
         /\ session rt' = session rt
         /\ uploaded_excel_name (browser (world rt'))
            = uploaded_excel_name (browser (world rt)))
        \/ (b = true
            /\ exists s1 u rt1 record rest s2 sd,
                 create_client (backend (world rt)) = (inr tt, s1)
                 /\ get_user_id (with_client s1 rt) = (Ok u, rt1)
                 /\ select_user_states u s1 = (inr (record :: rest), s2)
                 /\ us_state_data record = Some sd)).
Proof.
  destruct (create_client (backend (world rt))) as [[e|[]] s1] eqn:Hclient.
  { exists false. eexists. split.
    - unfold load_state_from_supabase, try_except. unfold bind at 1.
      unfold get_supabase_client, call. rewrite Hclient. reflexivity.
    - simpl. split_and!; [done..|]. by left. }
  destruct (get_user_id_frame (with_client s1 rt))
    as (Hs & Ht & _ & _ & Htimers & Hhalt).
  pose proof (get_user_id_backend (with_client s1 rt)) as Hback.
  destruct (get_user_id (with_client s1 rt)) as [[u|e|c] rt1] eqn:Hid;
    simpl in Hs, Ht, Htimers, Hhalt, Hback; [| |by destruct (Hhalt c)];
    injection Htimers as Hsl Hlst Hxl.
  2:{ exists false, rt1. split.
      - unfold load_state_from_supabase, try_except. unfold bind at 1.
        unfold get_supabase_client, call. rewrite Hclient.
        fold (with_client s1 rt). unfold bind at 1. by rewrite Hid.
      - split_and!; [done..|]. by left. }
  destruct (select_user_states u s1) as [[e|data] s2] eqn:Hsel.
  { exists false. eexists. split.
    - unfold load_state_from_supabase, try_except. unfold bind at 1.
      unfold get_supabase_client, call. rewrite Hclient.
      fold (with_client s1 rt). unfold bind at 1. rewrite Hid.
      unfold bind at 1, remote at 1. rewrite Hback, Hsel. reflexivity.
    - simpl. split_and!; [done..|]. by left. }
  destruct data as [|record rest].
  { exists false. eexists. split.
    - unfold load_state_from_supabase, try_except. unfold bind at 1.
      unfold get_supabase_client, call. rewrite Hclient.
      fold (with_client s1 rt). unfold bind at 1. rewrite Hid.
      unfold bind at 1, remote at 1. rewrite Hback, Hsel. reflexivity.
    - simpl. split_and!; [done..|]. by left. }
  destruct (us_state_data record) as [sd|] eqn:Hsd.
  2:{ exists false. eexists. split.
      - unfold load_state_from_supabase, try_except. unfold bind at 1.
        unfold get_supabase_client, call. rewrite Hclient.
        fold (with_client s1 rt). unfold bind at 1. rewrite Hid.
        unfold bind at 1, remote at 1. rewrite Hback, Hsel, Hsd. reflexivity.
      - simpl. split_and!; [done..|]. by left. }
  destruct (load_found rt s1 u rt1 record rest s2 sd Hclient Hid Hsel Hsd)
    as (rt' & Hrun & _ & _ & Hb & Htr).
  exists true, rt'. split; [done|]. rewrite Hb. simpl.
  split_and!; [done..|]. right. split; [done|].
  by exists s1, u, rt1, record, rest, s2, sd.
Qed.


(** The first-run step in terms of the load it makes. *)
Lemma load_on_first_run_cases (rt : Runtime (Page S)) :
  exists rt',
    load_on_first_run rt = (Ok tt, rt')
    /\ state_loaded (browser (world rt')) = true
    /\ (state_loaded (browser (world rt)) = true -> rt' = rt)
    /\ (state_loaded (browser (world rt)) = false ->
        exists b rt1,
          load_state_from_supabase rt = (Ok b, rt1)
          /\ session rt' = session rt1
          /\ world rt'
             = with_browser (with_state_loaded true (browser (world rt1)))
                            (world rt1)
          /\ trace rt'
             = (trace rt1
                ++ match b, pending_changes (session rt1) with
                   | true, _ :: _ =>
                       [EvUi UiSuccess
                          ("Restored "
                           ++ pretty (len (pending_changes (session rt1)))
                           ++ " pending changes")]
                   | _, _ => []
                   end)%list).
Proof.
  unfold load_on_first_run. unfold bind at 1, browser_gets at 1.
  destruct (state_loaded (browser (world rt))) eqn:Hloaded.
  { exists rt. by rewrite Hloaded. }
  unfold bind at 1.
  destruct (load_cases rt) as (b & rt1 & Hrun & _). rewrite Hrun.
  destruct b.
  - unfold bind at 1, browser_modify at 1. unfold bind at 1, gets at 1.
    cbn [session with_world].
    destruct (pending_changes (session rt1)) as [|entry pending] eqn:Hp.
    + eexists. split; [reflexivity|]. simpl. split_and!; [done..|].
      intros _. exists true, rt1. rewrite Hp. simpl.
      by rewrite app_nil_r.
    + eexists. split; [reflexivity|]. simpl. split_and!; [done..|].
      intros _. exists true, rt1. rewrite Hp. done.
  - eexists. split; [reflexivity|]. simpl. split_and!; [done..|].
    intros _. exists false, rt1. simpl. by rewrite app_nil_r.
Qed.

(** The restore is tried once per session. Whatever the backend answers,
    [load_on_first_run] completes and leaves [state_loaded] set, also when
    the load has failed; a run that finds the flag set does nothing. So a
    second run never loads again, and a restore that failed once is not
    retried in that session. A run that finds the flag unset makes the
    load, once, and apart from the flag leaves the state as the load left
    it; it shows "Restored N pending changes" exactly when the load
    answered [True] and the buffer is then not empty, N being the number
    of its entries. *)
Theorem restore_attempted_once (rt : Runtime (Page S)) :
  exists rt',
    load_on_first_run rt = (Ok tt, rt')
    /\ state_loaded (browser (world rt')) = true
    /\ load_on_first_run rt' = (Ok tt, rt')
    /\ (state_loaded (browser (world rt)) = true -> rt' = rt)
    /\ (state_loaded (browser (world rt)) = false ->
        exists b rt1,
          load_state_from_supabase rt = (Ok b, rt1)
          /\ session rt' = session rt1
          /\ world rt'
             = with_browser (with_state_loaded true (browser (world rt1)))
                            (world rt1)
          /\ trace rt'
             = (trace rt1
                ++ match b, pending_changes (session rt1) with
                   | true, _ :: _ =>
                       [EvUi UiSuccess
                          ("Restored "
                           ++ pretty (len (pending_changes (session rt1)))
                           ++ " pending changes")]
                   | _, _ => []
                   end)%list).
Proof.
  destruct (load_on_first_run_cases rt) as (rt' & Hrun & Hflag & Hskip & Hmsg).
  exists rt'. split_and!; try done.
  destruct (load_on_first_run_cases rt') as (rt'' & Hrun' & _ & Hskip' & _).
  by rewrite Hrun', (Hskip' Hflag).
Qed.

(** The periodic save. [auto_save] completes for every state and backend.
    Within 30 seconds of the last periodic save it does nothing at all.
    After more than 30 seconds: with an empty buffer it only sets
    [last_save_time] to the current time and does not contact the
    backend; with a non-empty buffer it runs [save_state_to_supabase]
    once, in the state it found, and then sets [last_save_time] to the
    current time in the state the save left, whether the save answered
    [True] or [False]. The session is as before in every case. *)
Theorem periodic_save (rt : Runtime (Page S)) :
  exists rt',
    auto_save rt = (Ok tt, rt')
    /\ session rt' = session rt
    /\ (time_now (backend (world rt)) - last_save_time (browser (world rt)) <= 30 ->
        rt' = rt)
    /\ (30 < time_now (backend (world rt)) - last_save_time (browser (world rt)) ->
        pending_changes (session rt) = [] ->
        rt' = with_world
                (with_browser
                   (with_last_save_time (time_now (backend (world rt)))
                                        (browser (world rt)))
                   (world rt))
                rt)
    /\ (30 < time_now (backend (world rt)) - last_save_time (browser (world rt)) ->
        pending_changes (session rt) <> [] ->
        exists b rt1,
          save_state_to_supabase rt = (Ok b, rt1)
          /\ rt' = with_world
                     (with_browser
                        (with_last_save_time (time_now (backend (world rt)))
                                             (browser (world rt1)))
                        (world rt1))
                     rt1).
Proof.
  unfold auto_save. unfold bind at 1, now at 1. unfold bind at 1, browser_gets at 1.
  destruct (30 <? time_now (backend (world rt))
                  - last_save_time (browser (world rt))) eqn:Hdue.
  2:{ apply Z.ltb_ge in Hdue. exists rt. split_and!; [done..| |]; intros; lia. }
  apply Z.ltb_lt in Hdue.
  unfold bind at 1. unfold bind at 1, gets at 1.
  destruct (pending_changes (session rt)) as [|entry pending] eqn:Hp.
  - eexists. split; [reflexivity|]. simpl.
    split_and!; [done|intros; lia|done|done].
  - unfold bind at 1.
    destruct (save_state_frame rt) as (b & rt1 & Hrun & Hs & _).
    rewrite Hrun. eexists. split; [reflexivity|]. simpl.
    split_and!; [done|intros; lia|done|].
    intros _ _. by exists b, rt1.
Qed.

End PersistenceFacts.

(** ** Saving and restoring against the reference table *)

Section ReferenceTable.
Import Persistence.

Lemma put_user_id u data t r : us_user_id (put u data t r) = us_user_id r.
Proof. unfold put. by destruct (decide (us_user_id r = u)). Qed.

Lemma filter_put_others u data t (l : list UserState) :
  filter (fun r => us_user_id r <> u) (map (put u data t) l)
  = filter (fun r => us_user_id r <> u) l.
Proof.
  induction l as [|r l IH]; [done|]. simpl. unfold put at 1.
  destruct (decide (us_user_id r = u)) as [Hu|Hu].
  - rewrite !filter_cons_False; [done|by intros []..].
  - rewrite !filter_cons_True by done. by rewrite IH.
Qed.

Lemma filter_put_own u data t (l : list UserState) :
  filter (fun r => us_user_id r = u) (map (put u data t) l)
  = map (fun r => mkUserState (us_user_id r) data t)
        (filter (fun r => us_user_id r = u) l).
Proof.
  induction l as [|r l IH]; [done|]. simpl. unfold put at 1.
  destruct (decide (us_user_id r = u)) as [Hu|Hu].
  - rewrite !filter_cons_True by done. simpl. by rewrite IH.
  - rewrite !filter_cons_False by done. done.
Qed.

Lemma filter_none_others u (l : list UserState) :
  filter (fun r => us_user_id r = u) l = [] ->
  filter (fun r => us_user_id r <> u) l = l.
Proof.
  induction l as [|r l IH]; [done|].
  destruct (decide (us_user_id r = u)) as [Hu|Hu].
  - by rewrite filter_cons_True.
  - rewrite filter_cons_False by done. intros Hl.
    rewrite filter_cons_True by done. by rewrite IH.
Qed.

(** The rows a save leaves, for the user [u] and the object [data]. *)
Lemma save_on_reference_table (rt : Runtime (Page Store)) :
  reachable (backend (world rt)) = true ->
  exists u rt1,
    save_state_to_supabase rt = (Ok true, rt1)
    /\ fst (get_user_id rt) = Ok u
    /\ user_id (browser (world rt1)) = Some u
    /\ query_user_id (browser (world rt1))
       = match user_id (browser (world rt)) with
         | None => Some u
         | Some _ => query_user_id (browser (world rt))
         end
    /\ reachable (backend (world rt1)) = true
    /\ rows (backend (world rt1))
       = let data := Some (state_data_of u (pending_changes (session rt))
                             (index (session rt)) (time (backend (world rt)))
                             (mjoin (uploaded_excel_name (browser (world rt))))) in
         match filter (fun r => us_user_id r = u) (rows (backend (world rt))) with
         | [] => (rows (backend (world rt))
                  ++ [mkUserState u data (time (backend (world rt)))])%list
         | _ :: _ => map (put u data (time (backend (world rt))))
                         (rows (backend (world rt)))
         end.
Proof.
  destruct rt as [[[u q sl lst xl] [tbl t sid up]] tr fm flm ss]. simpl.
  intros ->.
  unfold save_state_to_supabase, try_except, get_supabase_client, get_user_id.
  unfold bind, call, gets, now, browser_gets, browser_modify, remote, ret. simpl.
  destruct u as [u|]; [|destruct q as [q|]]; simpl;
    unfold guarded; simpl;
    match goal with
    | |- context [filter ?P tbl] => destruct (filter P tbl) eqn:Hfound
    end; simpl; eexists _, _;
    (split; [reflexivity|]); (split; [reflexivity|]); simpl;
    rewrite ?Hfound; done.
Qed.

(** One record per user. On a reachable table a save succeeds. It leaves
    every other user's records as they were; the user's own records all
    hold the saved buffer and index; and there are as many of them as
    before, or one if there was none: a save inserts only when the user has
    no record. So user ids that were distinct stay distinct. *)
Theorem save_keeps_one_record_per_user (rt : Runtime (Page Store)) :
  reachable (backend (world rt)) = true ->
  exists u rt1,
    save_state_to_supabase rt = (Ok true, rt1)
    /\ user_id (browser (world rt1)) = Some u
    /\ filter (fun r => us_user_id r <> u) (rows (backend (world rt1)))
       = filter (fun r => us_user_id r <> u) (rows (backend (world rt)))
    /\ Forall (fun r => exists data,
                 us_state_data r = Some data
                 /\ sd_pending_changes data = Some (pending_changes (session rt))
                 /\ sd_index data = Some (index (session rt)))
              (filter (fun r => us_user_id r = u) (rows (backend (world rt1))))
    /\ length (filter (fun r => us_user_id r = u) (rows (backend (world rt1))))
       = Nat.max 1 (length (filter (fun r => us_user_id r = u)
                                   (rows (backend (world rt)))))
    /\ (NoDup (map us_user_id (rows (backend (world rt)))) ->
        NoDup (map us_user_id (rows (backend (world rt1))))).
Proof.
  intros Hup.
  destruct (save_on_reference_table rt Hup)
    as (u & rt1 & Hrun & _ & Hu & _ & _ & Hrows).
  exists u, rt1. split; [done|]. split; [done|]. rewrite Hrows. clear Hrows.
  cbv zeta.
  destruct (filter (fun r => us_user_id r = u) (rows (backend (world rt))))
    as [|r found] eqn:Hfound.
  - split_and!.
    + rewrite filter_app, filter_cons_False, filter_nil, app_nil_r; [done|].
      by intros [].
    + rewrite filter_app, Hfound, filter_cons_True by done.
      repeat constructor. by eexists.
    + rewrite filter_app, Hfound, filter_cons_True by done. done.
    + intros Hnd. rewrite map_app. apply NoDup_app. split_and!; [done| |].
      * intros v Hv Hv'. apply list_elem_of_singleton in Hv' as ->.
        apply list_elem_of_fmap in Hv as (r & Hr & Hin).
        assert (r ∈ filter (fun r => us_user_id r = u)
                           (rows (backend (world rt)))) as Hmem
          by (by apply list_elem_of_filter).
        rewrite Hfound in Hmem. by apply elem_of_nil in Hmem.
      * apply NoDup_singleton.
  - split_and!.
    + apply filter_put_others.
    + rewrite filter_put_own, Hfound. apply Forall_fmap, Forall_forall.
      intros r' _. simpl. by eexists.
    + rewrite filter_put_own, length_map, Hfound. simpl. lia.
    + intros Hnd. rewrite map_map.
      erewrite map_ext; [exact Hnd|]. intros r'. apply put_user_id.
Qed.

(** The state survives a reload. Take a session whose id, if it has one,
    is the one in the query string (as [get_user_id] leaves it), and save
    on a reachable table. Open the page again: a new session, any script
    run id, any clock, the query string as the save left it, the table as
    the save left it. The restore then succeeds and puts the saved buffer
    and the saved index into the new session. *)
Theorem state_survives_a_reload (rt : Runtime (Page Store)) :
  reachable (backend (world rt)) = true ->
  (user_id (browser (world rt)) = None
   \/ user_id (browser (world rt)) = query_user_id (browser (world rt))) ->
  exists rt1,
    save_state_to_supabase rt = (Ok true, rt1)
    /\ forall (t : Z) (run : string) (fresh : Session),
         exists rt2,
           load_state_from_supabase
             (start (new_browser (query_user_id (browser (world rt1))) t)
                    (mkStore (rows (backend (world rt1))) t run true)
                    fresh)
           = (Ok true, rt2)
           /\ pending_changes (session rt2) = pending_changes (session rt)
           /\ index (session rt2) = index (session rt).
Proof.
  intros Hup Hid.
  destruct (save_on_reference_table rt Hup)
    as (u & rt1 & Hrun & Hget & Hu & Hq & _ & Hrows).
  exists rt1. split; [done|]. intros t run fresh.
  assert (query_user_id (browser (world rt1)) = Some u) as ->.
  { rewrite Hq.
    destruct rt as [[[u0 q sl lst xl] st] tr fm flm ss]. simpl in *.
    unfold get_user_id, bind, browser_gets, browser_modify, remote, ret in Hget.
    simpl in Hget.
    destruct Hid as [->| ->]; [done|].
    destruct q as [q|]; simpl in *; congruence. }
  rewrite Hrows. clear Hrows. cbv zeta.
  unfold load_state_from_supabase, try_except, get_supabase_client, get_user_id.
  unfold bind, call, gets, modify, browser_gets, browser_modify, remote, ret.
  simpl. unfold guarded. simpl.
  destruct (filter (fun r => us_user_id r = u) (rows (backend (world rt))))
    as [|r found] eqn:Hfound.
  - rewrite filter_app, Hfound, filter_cons_True by done. simpl.
    eexists. done.
  - rewrite filter_put_own, Hfound. simpl. eexists. done.
Qed.

End ReferenceTable.

(** A session with one pending change, opened with [?user_id=u7], and a
    table that already holds a record for [u7] and one for [u8]. *)
Lemma save_keeps_one_record_per_user_witness :
  fst (Persistence.save_state_to_supabase
         (Persistence.start (Persistence.new_browser (Some "u7") 0)
            (Persistence.mkStore
               [Persistence.mkUserState "u7" None 3;
                Persistence.mkUserState "u8" None 4] 10 "run-1" true)
            (with_index 2
               (with_pending_changes [("Clients/a.png", "Acme_Launch")]
                  initial_session))))
  = Ok true.
Proof.
  destruct (save_keeps_one_record_per_user
              (Persistence.start (Persistence.new_browser (Some "u7") 0)
                 (Persistence.mkStore
                    [Persistence.mkUserState "u7" None 3;
                     Persistence.mkUserState "u8" None 4] 10 "run-1" true)
                 (with_index 2
                    (with_pending_changes [("Clients/a.png", "Acme_Launch")]
                       initial_session))))
    as (u & rt1 & Hrun & _); [reflexivity|].
  rewrite Hrun. reflexivity.
Defined.

Lemma state_survives_a_reload_witness :
  exists rt1 rt2,
    Persistence.save_state_to_supabase
      (Persistence.start (Persistence.new_browser None 0)
         (Persistence.mkStore [] 10 "run-1" true)
         (with_index 2
            (with_pending_changes [("Clients/a.png", "Acme_Launch")]
               initial_session)))
    = (Ok true, rt1)
    /\ Persistence.load_state_from_supabase
         (Persistence.start
            (Persistence.new_browser
               (Persistence.query_user_id (Persistence.browser (world rt1))) 50)
            (Persistence.mkStore
               (Persistence.rows (Persistence.backend (world rt1)))
               50 "run-2" true)
            initial_session)
       = (Ok true, rt2)
    /\ pending_changes (session rt2) = [("Clients/a.png", "Acme_Launch")]
    /\ index (session rt2) = 2.
Proof.
  destruct (state_survives_a_reload
              (Persistence.start (Persistence.new_browser None 0)
                 (Persistence.mkStore [] 10 "run-1" true)
                 (with_index 2
                    (with_pending_changes [("Clients/a.png", "Acme_Launch")]
                       initial_session))))
    as (rt1 & Hsave & Hload); [reflexivity|by left|].
  destruct (Hload 50 "run-2" initial_session) as (rt2 & Hrun & Hp & Hi).
  exists rt1, rt2. split; [exact Hsave|]. split; [exact Hrun|].
  split; [exact Hp|exact Hi].
Defined.

(** A restore that failed is not made up for later: once the table is
    reachable again, the first save of the session replaces the stored
    buffer by the session's. *)
Example failed_restore_then_save :
  let stored := Persistence.mkUserState "u7"
                  (Some (Persistence.state_data_of "u7"
                           [("Clients/a.png", "Acme_Launch")] 2 5 None)) 5 in
  let rt1 := snd (Persistence.load_on_first_run
                    (Persistence.start (Persistence.new_browser (Some "u7") 0)
                       (Persistence.mkStore [stored] 10 "run-1" false)
                       initial_session)) in
  pending_changes (session rt1) = []
  /\ Persistence.state_loaded (Persistence.browser (world rt1)) = true
  /\ Persistence.rows (Persistence.backend (world (snd
        (Persistence.save_state_to_supabase
           (with_world
              (Persistence.with_backend
                 (Persistence.mkStore [stored] 20 "run-1" true) (world rt1))
              rt1)))))
     = [Persistence.mkUserState "u7"
          (Some (Persistence.state_data_of "u7" [] 0 20 None)) 20].
Proof. vm_compute. done. Qed.

(** The index that a restore puts into the session is the stored one,
    whatever table the session goes on to load. *)
Example restored_index_is_not_checked :
  index (session (snd
    (Persistence.load_state_from_supabase
       (Persistence.start (Persistence.new_browser (Some "u7") 0)
          (Persistence.mkStore
             [Persistence.mkUserState "u7"
                (Some (Persistence.state_data_of "u7" [] 7 5 None)) 5]
             10 "run-1" true)
          initial_session))))
  = 7.
Proof. vm_compute. reflexivity. Qed.

(** ** The persistence code as the collaborator of the main flow *)

Section Collaborator.
Import Persistence.
Context {S : Type} `{Backend S}.

(** The main flow treats saving as one call to a collaborator that is
    given the buffer and the index, answers [True] or [False] and changes
    only the world. The persistence code is such a collaborator: there is a
    function of the buffer, the index and the world that gives the answer
    and the next world of [save_state_to_supabase] in every state; the rest
    of the session, the log apart from the one client creation, and the
    memo tables play no part. *)
Theorem save_state_is_one_collaborator_call :
  exists step : list (string * string) -> Z -> Page S -> bool * Page S,
    forall rt : Runtime (Page S),
      save_state_to_supabase rt
      = (Ok (fst (step (pending_changes (session rt)) (index (session rt))
                       (world rt))),
         with_trace (trace rt ++ [EvSupabaseClient])
           (with_world (snd (step (pending_changes (session rt))
                                  (index (session rt)) (world rt))) rt)).
Proof.
  exists (fun pending i pg =>
            let r := save_state_to_supabase
                       (mkRuntime pg [] ∅ ∅
                          (with_index i (with_pending_changes pending
                                           initial_session))) in
            (match fst r with Ok b => b | _ => false end, world (snd r))).
  intros [[[u q sl lst xl] s] tr fm flm ss]. cbv zeta.
  unfold save_state_to_supabase, try_except, get_supabase_client, get_user_id.
  unfold bind, call, gets, now, browser_gets, browser_modify, remote, ret.
  simpl.
  destruct (create_client s) as [[e|[]] s1]; simpl; [done|].
  destruct u as [u|]; [|destruct q as [q|]]; simpl.
  - destruct (select_user_states u s1) as [[e|[|r l]] s2]; simpl; [done| |].
    + by destruct (insert_user_states _ s2) as [[e|[]] s3].
    + by destruct (update_user_states _ _ _ s2) as [[e|[]] s3].
  - destruct (select_user_states q s1) as [[e|[|r l]] s2]; simpl; [done| |].
    + by destruct (insert_user_states _ s2) as [[e|[]] s3].
    + by destruct (update_user_states _ _ _ s2) as [[e|[]] s3].
  - destruct (session_id s1) as [e|sid]; simpl; [done|].
    destruct (select_user_states _ s1) as [[e|[|r l]] s2]; simpl; [done| |].
    + by destruct (insert_user_states _ s2) as [[e|[]] s3].
    + by destruct (update_user_states _ _ _ s2) as [[e|[]] s3].
Qed.

End Collaborator.
